(** * The x-bot engagement core: candidate filter, relevance scorer,
      opportunity store and posting quota

    A shallow embedding of [tools/x-bot/src/monitor.py], [poster.py] and the
    posting entry point of [client.py].

    Conventions of the embedding.
    - Python [int] is [Z].  In the relevance scorer a Python [float] is a
      [Q], an exact rational.  In the posting quota, whose messages print
      digits of a float, a Python [float] is a binary64 number, Rocq's
      primitive [float], with the IEEE 754 operations.
    - Python [str] is [string]; [str.lower] is the ASCII lower-casing and
      [len] counts the characters of the [string].
    - A dict with a fixed set of keys (the persisted state, [to_dict]'s
      result, a post result) is a record; a dict that is iterated
      ([KEYWORD_CALCULATOR_MAP]) is an association list in declaration order.
    - A call that may raise returns an [outcome]; the external collaborators
      (tweepy, the text generator) are functions on an abstract [World] that
      they may change.
    - The monitor's writes of its JSON state file and the write in the
      poster's day roll-over succeed.  The write in the [try] blocks of
      [post_tweet] and [post_reply], whose failure the code catches, is a
      collaborator that may raise. *)

From Stdlib Require Import Floats.
From Stdlib Require Import ZArith QArith Qminmax Qround Lia Lqa.
From Stdlib Require Import List String Ascii Bool.
From Stdlib Require Import DecimalString Permutation Sorted.
Import ListNotations.

Open Scope string_scope.
Open Scope Z_scope.

(** ** Python primitives *)

(** [c.lower()] on one ASCII character. *)
Definition lower_ascii (c : ascii) : ascii :=
  let n := nat_of_ascii c in
  if (Nat.leb 65 n && Nat.leb n 90)%bool then ascii_of_nat (n + 32) else c.

(** [s.lower()]. *)
Fixpoint lower (s : string) : string :=
  match s with
  | EmptyString => EmptyString
  | String c r => String (lower_ascii c) (lower r)
  end.

(** [needle in hay] on strings: [needle] occurs as a contiguous run. *)
Fixpoint str_in (needle hay : string) : bool :=
  if String.prefix needle hay then true
  else match hay with
       | EmptyString => false
       | String _ r => str_in needle r
       end.

(** [x in l] on a list (or set) of strings. *)
Definition mem (x : string) (l : list string) : bool :=
  existsb (String.eqb x) l.

(** [x in l] on a list of integers. *)
Definition memZ (x : Z) (l : list Z) : bool :=
  existsb (Z.eqb x) l.

(** [str(n)] and the [{n}] of an f-string, for an integer. *)
Definition str_of_Z (n : Z) : string :=
  NilZero.string_of_int (Z.to_int n).

(** [l[-n:]] for a positive literal [n]: the last [n] elements. *)
Definition lastn {A} (n : nat) (l : list A) : list A :=
  skipn (List.length l - n) l.

(** [l[:m]]: the first [m] elements, all but the last [-m] when [m < 0]. *)
Definition slice_to {A} (m : Z) (l : list A) : list A :=
  if m <? 0 then firstn (List.length l - Z.to_nat (- m)) l
  else firstn (Z.to_nat m) l.

(** [math.ceil], for comparison with [int]. *)
Definition ceil (x : Q) : Z := Qceiling x.

(** The result of a call that may raise; [Raised msg] carries [str(e)]. *)
Inductive outcome (A : Type) : Type :=
| Returned (a : A)
| Raised (msg : string).
Arguments Returned {A} a.
Arguments Raised {A} msg.

(** ** Python floats *)

Module PyFloat.

(** A Python [int] as a binary number that has not been rounded. *)
Definition exact (z : Z) : spec_float :=
  match z with
  | Z0 => S754_zero false
  | Zpos m => S754_finite false m 0
  | Zneg m => S754_finite true m 0
  end.

(** [a / b] on two ints, [b] not 0: the float nearest to the quotient,
    which is how [int.__truediv__] rounds.  (A quotient beyond the largest
    float raises in Python; the microseconds between two [datetime]s stay
    far below.) *)
Definition int_truediv (a b : Z) : float :=
  SF2Prim (SFdiv prec emax (exact a) (exact b)).

(** [int(x)]: the digits before the point, the sign kept; an infinity
    raises [OverflowError] and a NaN [ValueError]. *)
Definition to_int (x : float) : outcome Z :=
  match Prim2SF x with
  | S754_zero _ => Returned 0
  | S754_finite s m e =>
      let digits := Z.shiftl (Zpos m) e in
      Returned (if s then - digits else digits)
  | S754_infinity _ => Raised "cannot convert float infinity to integer"
  | S754_nan => Raised "cannot convert float NaN to integer"
  end.

(** The number a finite float stands for, [(-1)^s * m * 2^e]. *)
Definition to_Q (x : float) : Q :=
  match Prim2SF x with
  | S754_finite s m (Zneg k) => Qmake (if s then Zneg m else Zpos m) (2 ^ k)
  | S754_finite s m e => inject_Z ((if s then Zneg m else Zpos m) * 2 ^ e)
  | _ => 0
  end.

End PyFloat.

(** ** client.py: the [Tweet] dataclass *)

Record Tweet : Type := mkTweet {
  id : string;
  text : string;
  author_id : string;
  author_username : string;
  author_followers : Z;
  like_count : Z;
  retweet_count : Z;
  reply_count : Z;
  created_at : string;
  conversation_id : option string
}.

Definition with_like_count (t : Tweet) (n : Z) : Tweet :=
  mkTweet (id t) (text t) (author_id t) (author_username t)
    (author_followers t) n (retweet_count t) (reply_count t)
    (created_at t) (conversation_id t).

Definition with_reply_count (t : Tweet) (n : Z) : Tweet :=
  mkTweet (id t) (text t) (author_id t) (author_username t)
    (author_followers t) (like_count t) (retweet_count t) n
    (created_at t) (conversation_id t).

Definition with_author_followers (t : Tweet) (n : Z) : Tweet :=
  mkTweet (id t) (text t) (author_id t) (author_username t)
    n (like_count t) (retweet_count t) (reply_count t)
    (created_at t) (conversation_id t).

(** ** generator.py: the [GeneratedTweet] dataclass *)

Module Generator.

Record GeneratedTweet : Type := mkGeneratedTweet {
  text : string;
  calculator_slug : string;
  calculator_name : string;
  template_type : string;
  hashtags : list string
}.

(** One entry of [calculators.json], as far as the poster reads it: the
    key ["slug"]. *)
Record Calculator : Type := mkCalculator {
  slug : string
}.

(** The newline character. *)
Definition newline : ascii := ascii_of_nat 10.

(** [s.split("\n")]: the pieces between the newlines, at least one. *)
Fixpoint split_lines (s : string) : list string :=
  match s with
  | EmptyString => [EmptyString]
  | String c r =>
      if Ascii.eqb c newline then EmptyString :: split_lines r
      else match split_lines r with
           | [] => [String c EmptyString]
           | l :: ls => String c l :: ls
           end
  end.

(** [sep.join(l)]. *)
Fixpoint join (sep : string) (l : list string) : string :=
  match l with
  | [] => EmptyString
  | [x] => x
  | x :: r => x ++ sep ++ join sep r
  end.

(** [c.isspace()] for an ASCII character: tab to carriage return, the four
    separators 28 to 31, and the space. *)
Definition is_space (c : ascii) : bool :=
  let n := nat_of_ascii c in
  ((Nat.leb 9 n && Nat.leb n 13) || (Nat.leb 28 n && Nat.leb n 32))%bool.

(** [s.lstrip()], [s.rstrip()] and [s.strip()]. *)
Fixpoint lstrip (s : string) : string :=
  match s with
  | EmptyString => EmptyString
  | String c r => if is_space c then lstrip r else s
  end.

Fixpoint rstrip (s : string) : string :=
  match s with
  | EmptyString => EmptyString
  | String c r =>
      match rstrip r with
      | EmptyString => if is_space c then EmptyString else String c EmptyString
      | kept => String c kept
      end
  end.

Definition strip (s : string) : string := rstrip (lstrip s).

(** The first [n] characters. *)
Fixpoint take (n : nat) (s : string) : string :=
  match n, s with
  | S n', String c r => String c (take n' r)
  | _, _ => EmptyString
  end.

(** [s[:k]]: the first [k] characters, all but the last [-k] when [k < 0]. *)
Definition str_slice_to (k : Z) (s : string) : string :=
  if k <? 0 then take (String.length s - Z.to_nat (- k)) s
  else take (Z.to_nat k) s.

(** [hashtag_str] of [_fit_to_limit]. *)
Definition hashtag_str (hashtags : list string) : string :=
  match hashtags with
  | [] => ""
  | _ :: _ => " " ++ join " " hashtags
  end.

(** [url_line] of [_fit_to_limit]: the first line that contains "http". *)
Definition url_line (text : string) : string :=
  match find (str_in "http") (split_lines text) with
  | Some l => l
  | None => ""
  end.

(** [ContentGenerator._fit_to_limit]. *)
Definition _fit_to_limit (text : string) (hashtags : list string) : string :=
  let max_text_len := 280 - Z.of_nat (String.length (hashtag_str hashtags)) in
  let text :=
    if max_text_len <? Z.of_nat (String.length text) then
      let lines := split_lines text in
      let other_lines := filter (fun l => negb (str_in "http" l)) lines in
      let other_text := join (String newline "") other_lines in
      let available :=
        max_text_len - Z.of_nat (String.length (url_line text)) - 2 in
      let other_text :=
        if available <? Z.of_nat (String.length other_text)
        then str_slice_to (available - 3) other_text ++ "..."
        else other_text in
      strip (other_text ++ String newline (String newline "") ++ url_line text)
    else text in
  text ++ hashtag_str hashtags.

End Generator.

(** ** monitor.py *)

Module Monitor.

(** The [Opportunity] dataclass. *)
Record Opportunity : Type := mkOpportunity {
  tweet : Tweet;
  matched_keyword : string;
  suggested_calculator : string;
  suggested_reply : string;
  relevance_score : Q
}.

(** The dict [Opportunity.to_dict] builds, one field per key:
    ["tweet_id"], ["tweet_text"], ["author"], ["author_followers"],
    ["likes"], ["retweets"], ["matched_keyword"], ["suggested_calculator"],
    ["suggested_reply"], ["relevance_score"], ["created_at"]. *)
Record StoredOpportunity : Type := mkStored {
  o_tweet_id : string;
  o_tweet_text : string;
  o_author : string;
  o_author_followers : Z;
  o_likes : Z;
  o_retweets : Z;
  o_matched_keyword : string;
  o_suggested_calculator : string;
  o_suggested_reply : string;
  o_relevance_score : Q;
  o_created_at : string
}.

Definition to_dict (self : Opportunity) : StoredOpportunity :=
  mkStored (id (tweet self)) (text (tweet self))
    (author_username (tweet self)) (author_followers (tweet self))
    (like_count (tweet self)) (retweet_count (tweet self))
    (matched_keyword self) (suggested_calculator self)
    (suggested_reply self) (relevance_score self)
    (created_at (tweet self)).

(** [Monitor.KEYWORD_CALCULATOR_MAP], in declaration order (the order in
    which Python iterates the dict). *)
Definition KEYWORD_CALCULATOR_MAP : list (string * string) :=
  [ ("fire calculator", "fire-calculator");
    ("retirement calculator", "fire-calculator");
    ("financial independence", "fire-calculator");
    ("compound interest", "compound-interest-calculator");
    ("mortgage calculator", "mortgage-calculator");
    ("home loan", "mortgage-calculator");
    ("tip calculator", "tip-calculator");
    ("split the bill", "tip-calculator");
    ("how much paint", "paint-calculator");
    ("paint calculator", "paint-calculator");
    ("bmi calculator", "bmi-calculator");
    ("body mass index", "bmi-calculator");
    ("uk tax trap", "uk-100k-tax-trap-calculator");
    ("100k tax", "uk-100k-tax-trap-calculator");
    ("student loan calculator", "uk-student-loan-calculator");
    ("student loan repayment", "uk-student-loan-calculator");
    ("baby cost", "baby-cost-calculator");
    ("how much does a baby cost", "baby-cost-calculator");
    ("wedding alcohol", "wedding-alcohol-calculator");
    ("how much alcohol wedding", "wedding-alcohol-calculator");
    ("bbq calculator", "bbq-calculator");
    ("how much meat bbq", "bbq-calculator");
    ("freelance rate", "freelance-day-rate-calculator");
    ("day rate", "freelance-day-rate-calculator");
    ("calorie calculator", "calorie-calculator");
    ("tdee calculator", "calorie-calculator");
    ("debt payoff", "debt-payoff-calculator");
    ("snowball vs avalanche", "debt-payoff-calculator");
    ("side hustle profit", "side-hustle-calculator") ].

(** The settings [Monitor.__init__] reads from the configuration. *)
Record Config : Type := mkConfig {
  keywords : list string;
  min_likes : Z;
  min_retweets : Z;
  min_followers : Z;
  blacklist : list string
}.

(** [self.state]: the four keys of the monitor's JSON document. *)
Record State : Type := mkState {
  seen_tweets : list string;
  replied_tweets : list string;
  last_search : list (string * string);
  opportunities : list StoredOpportunity
}.

(** The state [_load_state] returns when there is no state file. *)
Definition initial_state : State := mkState [] [] [] [].

(** [d[k] = v] on [last_search]. *)
Fixpoint dict_set (k v : string) (d : list (string * string)) : list (string * string) :=
  match d with
  | [] => [(k, v)]
  | (k', v') :: r => if String.eqb k k' then (k, v) :: r else (k', v') :: dict_set k v r
  end.

(** [Monitor._save_state]: the three lists are cut to their last entries
    in [self.state] itself, then written. *)
Definition _save_state (st : State) : State :=
  mkState (lastn 500 (seen_tweets st))
          (lastn 200 (replied_tweets st))
          (last_search st)
          (lastn 50 (opportunities st)).

(** [Monitor._get_calculator_for_keyword]: exact match, then the first
    entry of the map one of whose sides contains the other. *)
Definition _get_calculator_for_keyword (keyword : string) : option string :=
  match find (fun e => String.eqb (fst e) (lower keyword)) KEYWORD_CALCULATOR_MAP with
  | Some e => Some (snd e)
  | None =>
      match find (fun e => str_in (fst e) (lower keyword) || str_in (lower keyword) (fst e))
                 KEYWORD_CALCULATOR_MAP with
      | Some e => Some (snd e)
      | None => None
      end
  end.

(** [Monitor._calculate_relevance].  The score starts at 0.5 and each [if]
    of the source adds its bonus in turn. *)
Definition _calculate_relevance (tweet : Tweet) (keyword : string) : Q :=
  let score := (1#2)%Q in
  let score := if str_in "?" (text tweet) then (score + (2#10))%Q else score in
  let score := if 0 <? like_count tweet
               then (score + Qmin (1#10) (inject_Z (like_count tweet) * (1#100)))%Q
               else score in
  let score := if 0 <? reply_count tweet
               then (score + Qmin (1#10) (inject_Z (reply_count tweet) * (2#100)))%Q
               else score in
  let score := if 1000 <? author_followers tweet then (score + (1#10))%Q else score in
  let score := if 10000 <? author_followers tweet then (score + (1#10))%Q else score in
  let score := if str_in (lower keyword) (lower (text tweet))
               then (score + (1#10))%Q else score in
  Qmin 1 score.

(** [Monitor._is_valid_opportunity]: the checks in the order of the source,
    the first that fires gives the reason. *)
Definition _is_valid_opportunity (cfg : Config) (st : State) (tweet : Tweet)
  : bool * string :=
  if mem (id tweet) (seen_tweets st) then (false, "Already seen")
  else if mem (id tweet) (replied_tweets st) then (false, "Already replied")
  else if mem (lower (author_username tweet)) (map lower (blacklist cfg))
  then (false, "Blacklisted author")
  else if author_followers tweet <? min_followers cfg
  then (false, "Too few followers (" ++ str_of_Z (author_followers tweet) ++ ")")
  else if like_count tweet <? min_likes cfg
  then (false, "Too few likes (" ++ str_of_Z (like_count tweet) ++ ")")
  else if retweet_count tweet <? min_retweets cfg
  then (false, "Too few retweets (" ++ str_of_Z (retweet_count tweet) ++ ")")
  else (true, "OK").

(** [opportunities.sort(key=lambda x: x.relevance_score, reverse=True)]:
    a stable sort by decreasing score.  [insert_by_score o l] puts [o],
    which stood before every element of [l], in front of the first element
    whose score is not greater than its own. *)
Fixpoint insert_by_score (o : Opportunity) (l : list Opportunity) : list Opportunity :=
  match l with
  | [] => [o]
  | x :: r =>
      if Qle_bool (relevance_score x) (relevance_score o)
      then o :: x :: r
      else x :: insert_by_score o r
  end.

Fixpoint sort_by_score (l : list Opportunity) : list Opportunity :=
  match l with
  | [] => []
  | o :: r => insert_by_score o (sort_by_score r)
  end.

Definition mark_seen (st : State) (tweet_id : string) : State :=
  mkState (seen_tweets st ++ [tweet_id]) (replied_tweets st)
          (last_search st) (opportunities st).

Definition set_last_search (st : State) (keyword now : string) : State :=
  mkState (seen_tweets st) (replied_tweets st)
          (dict_set keyword now (last_search st)) (opportunities st).

Definition set_opportunities (st : State) (l : list StoredOpportunity) : State :=
  mkState (seen_tweets st) (replied_tweets st) (last_search st) l.

Section Collaborators.

(** Everything outside the process: the social network and the text
    generator's provider. *)
Variable World : Type.

(** [self.client.search_recent(query, max_results, min_likes, min_retweets)]. *)
Variable search_recent :
  string -> Z -> Z -> Z -> World -> outcome (list Tweet) * World.

(** [self.generator.generate_reply(original_tweet, calculator_slug)]. *)
Variable generate_reply : string -> string -> World -> outcome string * World.

Variable cfg : Config.

(** [datetime.now().isoformat()], the same text for one run of a search. *)
Variable now : string.

(** The inner loop of [search_opportunities], [for tweet in
    tweets[:max_per_keyword]].  The first component tells whether the loop
    was left by an exception (of [generate_reply]); what was appended to
    [opportunities] and to the seen list before stays. *)
Fixpoint scan_tweets (keyword calculator : string) (tweets : list Tweet)
    (st : State) (found : list Opportunity) (w : World)
  : bool * State * list Opportunity * World :=
  match tweets with
  | [] => (false, st, found, w)
  | tweet :: rest =>
      let (valid, reason) := _is_valid_opportunity cfg st tweet in
      if negb valid then scan_tweets keyword calculator rest st found w
      else
        match generate_reply (text tweet) calculator w with
        | (Raised _, w') => (true, st, found, w')
        | (Returned reply, w') =>
            let relevance := _calculate_relevance tweet keyword in
            let opportunity :=
              mkOpportunity tweet keyword calculator reply relevance in
            scan_tweets keyword calculator rest
              (mark_seen st (id tweet)) (found ++ [opportunity]) w'
        end
  end.

(** The outer loop, [for keyword in keywords]. *)
Fixpoint scan_keywords (kws : list string) (max_per_keyword : Z)
    (st : State) (found : list Opportunity) (w : World)
  : State * list Opportunity * World :=
  match kws with
  | [] => (st, found, w)
  | keyword :: rest =>
      match _get_calculator_for_keyword keyword with
      | None | Some EmptyString =>
          scan_keywords rest max_per_keyword st found w
      | Some calculator =>
          match search_recent keyword (max_per_keyword * 2)
                  (min_likes cfg) (min_retweets cfg) w with
          | (Raised _, w') => scan_keywords rest max_per_keyword st found w'
          | (Returned tweets, w') =>
              match scan_tweets keyword calculator
                      (slice_to max_per_keyword tweets) st found w' with
              | (true, st', found', w'') =>
                  scan_keywords rest max_per_keyword st' found' w''
              | (false, st', found', w'') =>
                  scan_keywords rest max_per_keyword
                    (set_last_search st' keyword now) found' w''
              end
          end
      end
  end.

(** [Monitor.search_opportunities]. *)
Definition search_opportunities (keywords_arg : option (list string))
    (max_per_keyword : Z) (st : State) (w : World)
  : list Opportunity * State * World :=
  let kws := match keywords_arg with
             | None | Some [] => keywords cfg
             | Some l => l
             end in
  match scan_keywords kws max_per_keyword st [] w with
  | (st1, found, w1) =>
      let sorted := sort_by_score found in
      (sorted, _save_state (set_opportunities st1 (map to_dict sorted)), w1)
  end.

End Collaborators.

(** [Monitor.mark_replied]. *)
Definition mark_replied (st : State) (tweet_id : string) : State :=
  _save_state (mkState (seen_tweets st) (replied_tweets st ++ [tweet_id])
                       (last_search st) (opportunities st)).

(** [Monitor.get_pending_opportunities]. *)
Definition get_pending_opportunities (st : State) : list StoredOpportunity :=
  filter (fun o => negb (mem (o_tweet_id o) (replied_tweets st)))
         (opportunities st).

(** The dict [Monitor.get_stats] returns. *)
Record Stats : Type := mkStats {
  keywords_monitored : Z;
  tweets_seen : Z;
  tweets_replied : Z;
  pending_opportunities : Z;
  last_searches : list (string * string)
}.

(** [Monitor.get_stats]. *)
Definition get_stats (cfg : Config) (st : State) : Stats :=
  mkStats (Z.of_nat (List.length (keywords cfg)))
          (Z.of_nat (List.length (seen_tweets st)))
          (Z.of_nat (List.length (replied_tweets st)))
          (Z.of_nat (List.length (get_pending_opportunities st)))
          (last_search st).

End Monitor.

(** ** client.py: posting *)

Module XClient.

(** The dict [XClient.post_tweet] returns: keys ["id"] and ["text"]. *)
Record Posted : Type := mkPosted {
  posted_id : string;
  posted_text : string
}.

Section Collaborators.

Variable World : Type.

(** [self.client.create_tweet(text=..., in_reply_to_tweet_id=...)] of
    tweepy, reduced to [response.data["id"]]; it raises on a network,
    authorisation or rate-limit failure. *)
Variable create_tweet : string -> option string -> World -> outcome string * World.

(** [XClient.post_tweet]: the length check raises before any call to the
    network; what tweepy raises is raised again. *)
Definition post_tweet (text : string) (reply_to : option string) (w : World)
  : outcome Posted * World :=
  if 280 <? Z.of_nat (String.length text)
  then (Raised ("Tweet too long: " ++ str_of_Z (Z.of_nat (String.length text))
                  ++ " chars (max 280)"), w)
  else
    let in_reply_to := match reply_to with
                       | None | Some EmptyString => None
                       | Some r => Some r
                       end in
    match create_tweet text in_reply_to w with
    | (Returned new_id, w') => (Returned (mkPosted new_id text), w')
    | (Raised msg, w') => (Raised msg, w')
    end.

End Collaborators.

(** A dict of counts, as tweepy's [public_metrics]. *)
Definition Metrics : Type := list (string * Z).

(** [d.get(key, 0)]. *)
Fixpoint metric (d : Metrics) (key : string) : Z :=
  match d with
  | [] => 0
  | (k, v) :: r => if String.eqb k key then v else metric r key
  end.

(** A user of [response.includes["users"]], with the fields the client
    reads; [public_metrics] may be [None]. *)
Record RawUser : Type := mkRawUser {
  u_id : string;
  u_username : string;
  u_public_metrics : option Metrics
}.

(** A tweet of [response.data]; [r_created_at] is [str(tweet.created_at)]. *)
Record RawTweet : Type := mkRawTweet {
  r_id : string;
  r_text : string;
  r_author_id : string;
  r_public_metrics : option Metrics;
  r_created_at : string;
  r_conversation_id : option string
}.

(** What [search_recent_tweets] answers: [response.data], which may be
    [None], and [response.includes.get("users")]. *)
Record Response : Type := mkResponse {
  data : option (list RawTweet);
  includes_users : option (list RawUser)
}.

(** [users.get(author_id)] on [{u.id: u for u in ...}]: of several users
    with one id the dict keeps the last. *)
Fixpoint lookup_user (users : list RawUser) (author_id : string) : option RawUser :=
  match users with
  | [] => None
  | u :: r =>
      match lookup_user r author_id with
      | Some later => Some later
      | None => if String.eqb (u_id u) author_id then Some u else None
      end
  end.

(** The loop of [search_recent] over [response.data].  A user whose
    [public_metrics] is [None] makes [author_metrics.get] raise, for a tweet
    that passed the two filters. *)
Fixpoint build_tweets (users : list RawUser) (min_likes min_retweets : Z)
    (raw : list RawTweet) (tweets : list Tweet) : outcome (list Tweet) :=
  match raw with
  | [] => Returned tweets
  | tweet :: rest =>
      let metrics := match r_public_metrics tweet with
                     | None => []
                     | Some m => m
                     end in
      let author := lookup_user users (r_author_id tweet) in
      if metric metrics "like_count" <? min_likes
      then build_tweets users min_likes min_retweets rest tweets
      else if metric metrics "retweet_count" <? min_retweets
      then build_tweets users min_likes min_retweets rest tweets
      else
        match author with
        | None =>
            build_tweets users min_likes min_retweets rest
              (tweets ++ [mkTweet (r_id tweet) (r_text tweet) (r_author_id tweet)
                            "unknown" (metric [] "followers_count")
                            (metric metrics "like_count")
                            (metric metrics "retweet_count")
                            (metric metrics "reply_count")
                            (r_created_at tweet) (r_conversation_id tweet)])
        | Some a =>
            match u_public_metrics a with
            | None => Raised "'NoneType' object has no attribute 'get'"
            | Some author_metrics =>
                build_tweets users min_likes min_retweets rest
                  (tweets ++ [mkTweet (r_id tweet) (r_text tweet) (r_author_id tweet)
                                (u_username a)
                                (metric author_metrics "followers_count")
                                (metric metrics "like_count")
                                (metric metrics "retweet_count")
                                (metric metrics "reply_count")
                                (r_created_at tweet) (r_conversation_id tweet)])
            end
        end
  end.

Section Search.

Variable World : Type.

(** [self.client.search_recent_tweets(query=..., max_results=..., ...)] of
    tweepy, with the fixed field lists left out. *)
Variable search_recent_tweets : string -> Z -> World -> outcome Response * World.

(** [XClient.search_recent]: whatever is raised inside is raised again. *)
Definition search_recent (query : string) (max_results min_likes min_retweets : Z)
    (w : World) : outcome (list Tweet) * World :=
  let full_query := query ++ " -is:retweet -is:reply lang:en" in
  match search_recent_tweets full_query (Z.min max_results 100) w with
  | (Raised msg, w') => (Raised msg, w')
  | (Returned response, w') =>
      match data response with
      | None | Some [] => (Returned [], w')
      | Some raw =>
          let users := match includes_users response with
                       | None => []
                       | Some l => l
                       end in
          (build_tweets users min_likes min_retweets raw [], w')
      end
  end.

End Search.

End XClient.

(** ** poster.py *)

Module Poster.

(** One reading of [datetime.now()]: the calendar date as
    [strftime("%Y-%m-%d")] prints it, [weekday()], and the instant in
    microseconds.  All readings of the clock within one call of an operation
    are the same instant. *)
Record Instant : Type := mkInstant {
  date : string;
  weekday : Z;
  micros : Z
}.

(** One entry of [state["history"]]. *)
Record HistoryEntry : Type := mkEntry {
  h_tweet_id : string;
  h_text : string;
  h_calculator : option string;
  h_posted_at : Instant
}.

(** [self.state]: the five keys of the poster's JSON document.
    [last_post_time] holds the instant whose ISO text the file stores. *)
Record State : Type := mkState {
  last_post_time : option Instant;
  posts_today : Z;
  today_date : option string;
  posted_calculators : list string;
  history : list HistoryEntry
}.

(** The state [_load_state] returns when there is no state file. *)
Definition initial_state : State := mkState None 0 None [] [].

(** The settings [Poster.__init__] reads from the configuration.  An int
    given for [min_hours_between_posts], as the default 4, is held as the
    float of the same value: the subtraction of line 101 converts it, and
    the comparison of line 100 agrees with the one on floats for every int
    that a float holds exactly (all up to [2^53]). *)
Record Config : Type := mkConfig {
  min_hours_between : float;
  days : list Z;
  max_posts_per_day : Z
}.

(** The dict a post or a reply returns: [{"success": True, "tweet_id",
    "text"[, "reply_to"]}] or [{"success": False, "error"}]. *)
Inductive PostResult : Type :=
| Success (tweet_id : string) (text : string) (reply_to : option string)
| Failure (error : string).

Definition success (r : PostResult) : bool :=
  match r with Success _ _ _ => true | Failure _ => false end.

(** [Poster._reset_daily_counters]. *)
Definition _reset_daily_counters (st : State) (now : Instant) : State :=
  match today_date st with
  | Some d =>
      if String.eqb d (date now) then st
      else mkState (last_post_time st) 0 (Some (date now)) [] (history st)
  | None => mkState (last_post_time st) 0 (Some (date now)) [] (history st)
  end.

(** [(datetime.now() - last_dt).total_seconds()]: the microseconds of the
    difference, an int, divided by [10**6]. *)
Definition total_seconds (now last_dt : Instant) : float :=
  PyFloat.int_truediv (micros now - micros last_dt) 1000000.

(** [(datetime.now() - last_dt).total_seconds() / 3600]. *)
Definition hours_since (now last_dt : Instant) : float :=
  (total_seconds now last_dt / 3600)%float.

(** [int((self.min_hours_between - hours_since) * 60)]. *)
Definition wait_mins (cfg : Config) (now last_dt : Instant) : outcome Z :=
  PyFloat.to_int ((min_hours_between cfg - hours_since now last_dt) * 60)%float.

(** [Poster.can_post], with the state as the day roll-over leaves it.  What
    [int] raises leaves the method. *)
Definition can_post (cfg : Config) (st : State) (now : Instant)
  : State * outcome (bool * string) :=
  let st := _reset_daily_counters st now in
  if max_posts_per_day cfg <=? posts_today st
  then (st, Returned (false, "Daily limit reached ("
                               ++ str_of_Z (max_posts_per_day cfg) ++ " posts)"))
  else
    let too_soon :=
      match last_post_time st with
      | Some last_dt =>
          if (hours_since now last_dt <? min_hours_between cfg)%float
          then Some (wait_mins cfg now last_dt)
          else None
      | None => None
      end in
    match too_soon with
    | Some (Returned mins) =>
        (st, Returned (false, "Too soon since last post (wait " ++ str_of_Z mins
                                ++ " minutes)"))
    | Some (Raised msg) => (st, Raised msg)
    | None =>
        if negb (memZ (weekday now) (days cfg))
        then (st, Returned (false, "Not a posting day (today is "
                                     ++ str_of_Z (weekday now) ++ ")"))
        else (st, Returned (true, "OK"))
    end.

Section Collaborators.

Variable World : Type.
Variable create_tweet : string -> option string -> World -> outcome string * World.

(** [self.generator.generate_tweet()]: it raises when the catalogue or the
    templates give it nothing to choose from. *)
Variable generate_tweet : World -> outcome Generator.GeneratedTweet * World.

(** [self._save_state()] inside a [try] block: the write of the state to
    [poster_state.json], which raises when the file cannot be written. *)
Variable _save_state : State -> World -> outcome unit * World.

Variable cfg : Config.

(** The state once a post is recorded: lines 151-165 of [post_tweet]. *)
Definition record_post (st : State) (now : Instant) (new_id tweet_text : string)
    (calculator_slug : option string) : State :=
  let posted := match calculator_slug with
                | None | Some EmptyString => posted_calculators st
                | Some slug => (posted_calculators st ++ [slug])%list
                end in
  mkState (Some now) (posts_today st + 1) (today_date st) posted
    (lastn 100 (history st ++ [mkEntry new_id tweet_text calculator_slug now])).

(** The state once a reply is recorded: lines 201-202 of [post_reply]. *)
Definition record_reply (st : State) (now : Instant) : State :=
  mkState (Some now) (posts_today st + 1) (today_date st)
          (posted_calculators st) (history st).

(** The [try] block of [post_tweet]: the state is updated in memory before
    it is written, so a write that raises leaves it updated. *)
Definition try_post (st : State) (now : Instant) (tweet_text : string)
    (calculator_slug : option string) (w : World)
  : outcome PostResult * State * World :=
  match XClient.post_tweet World create_tweet tweet_text None w with
  | (Returned result, w) =>
      let st :=
        record_post st now (XClient.posted_id result) tweet_text calculator_slug in
      match _save_state st w with
      | (Returned _, w) =>
          (Returned (Success (XClient.posted_id result) tweet_text None), st, w)
      | (Raised msg, w) => (Returned (Failure msg), st, w)
      end
  | (Raised msg, w) => (Returned (Failure msg), st, w)
  end.

(** Lines 128-131 and 192-195: the quota check at the head of [post_tweet]
    and [post_reply], left out under [force]. *)
Definition check_quota (force : bool) (st : State) (now : Instant)
  : State * outcome (bool * string) :=
  if force then (st, Returned (true, "OK")) else can_post cfg st now.

(** [Poster.post_tweet].  An [outcome] other than [Returned] is an
    exception that leaves the method. *)
Definition post_tweet (tweet : option Generator.GeneratedTweet)
    (text : option string) (force : bool)
    (st : State) (now : Instant) (w : World)
  : outcome PostResult * State * World :=
  match check_quota force st now with
  | (st, Raised msg) => (Raised msg, st, w)
  | (st, Returned (false, reason)) => (Returned (Failure reason), st, w)
  | (st, Returned (true, _)) =>
      match tweet, text with
      | Some t, _ =>
          try_post st now (Generator.text t) (Some (Generator.calculator_slug t)) w
      | None, Some (String c r) =>
          try_post st now (String c r) None w
      | None, _ =>
          match generate_tweet w with
          | (Returned t, w') =>
              try_post st now (Generator.text t)
                (Some (Generator.calculator_slug t)) w'
          | (Raised msg, w') => (Raised msg, st, w')
          end
      end
  end.

(** [Poster.post_reply]. *)
Definition post_reply (reply_to_id text : string) (force : bool)
    (st : State) (now : Instant) (w : World)
  : outcome PostResult * State * World :=
  match check_quota force st now with
  | (st, Raised msg) => (Raised msg, st, w)
  | (st, Returned (false, reason)) => (Returned (Failure reason), st, w)
  | (st, Returned (true, _)) =>
      match XClient.post_tweet World create_tweet text (Some reply_to_id) w with
      | (Returned result, w) =>
          let st := record_reply st now in
          match _save_state st w with
          | (Returned _, w) =>
              (Returned (Success (XClient.posted_id result) text (Some reply_to_id)),
               st, w)
          | (Raised msg, w) => (Returned (Failure msg), st, w)
          end
      | (Raised msg, w) => (Returned (Failure msg), st, w)
      end
  end.

End Collaborators.

(** The dict [Poster.get_status] returns. *)
Record Status : Type := mkStatus {
  s_can_post : bool;
  s_reason : string;
  s_posts_today : Z;
  s_max_posts_per_day : Z;
  s_last_post_time : option Instant;
  s_posted_calculators_today : list string
}.

(** [Poster.get_status]: the roll-over, the check (which rolls over again),
    then the report. *)
Definition get_status (cfg : Config) (st : State) (now : Instant)
  : State * outcome Status :=
  let st := _reset_daily_counters st now in
  match can_post cfg st now with
  | (st, Returned (ok, reason)) =>
      (st, Returned (mkStatus ok reason (posts_today st) (max_posts_per_day cfg)
                       (last_post_time st) (posted_calculators st)))
  | (st, Raised msg) => (st, Raised msg)
  end.

Section Preview.

Variable World : Type.

(** [self.generator.generate_tweet(calculator_slug=...)]. *)
Variable generate_tweet_for : string -> World -> outcome Generator.GeneratedTweet * World.

(** [self.generator.calculators]. *)
Variable calculators : list Generator.Calculator.

(** The loop of [preview_next]; [exclude] is the set of slugs not to
    preview, [tweets] the previews made so far.  What the generator raises
    leaves the method. *)
Fixpoint preview_loop (n : nat) (exclude : list string)
    (tweets : list Generator.GeneratedTweet) (w : World)
  : outcome (list Generator.GeneratedTweet) * World :=
  match n with
  | O => (Returned tweets, w)
  | S n' =>
      let available :=
        filter (fun c => negb (mem (Generator.slug c) exclude)) calculators in
      let '(exclude, available) :=
        match available with
        | [] => ([], calculators)
        | _ :: _ => (exclude, available)
        end in
      match available with
      | [] => preview_loop n' exclude tweets w
      | calc :: _ =>
          match generate_tweet_for (Generator.slug calc) w with
          | (Returned tweet, w') =>
              preview_loop n' (Generator.slug calc :: exclude)
                (tweets ++ [tweet]) w'
          | (Raised msg, w') => (Raised msg, w')
          end
      end
  end.

(** [Poster.preview_next]. *)
Definition preview_next (count : Z) (st : State) (w : World)
  : outcome (list Generator.GeneratedTweet) * World :=
  preview_loop (Z.to_nat count) (posted_calculators st) [] w.

End Preview.

End Poster.

(** ** The quota decision as an ordered list of conditions

    The decision of section 4.4 worded as a relation on the state that the
    day roll-over leaves: each rule asks that the rules before it do not
    block.  [Poster.can_post] is compared with it below. *)

Module QuotaSpec.

Import Poster.

Definition spacing_respected (cfg : Config) (st : State) (now : Instant) : Prop :=
  forall last_dt : Instant,
    last_post_time st = Some last_dt ->
    (hours_since now last_dt <? min_hours_between cfg)%float = false.

Inductive decision (cfg : Config) (st : State) (now : Instant)
  : outcome (bool * string) -> Prop :=
| daily_limit_reached :
    max_posts_per_day cfg <= posts_today st ->
    decision cfg st now
      (Returned (false, "Daily limit reached ("
                          ++ str_of_Z (max_posts_per_day cfg) ++ " posts)"))
| too_soon_since_last_post (last_dt : Instant) (mins : Z) :
    posts_today st < max_posts_per_day cfg ->
    last_post_time st = Some last_dt ->
    (hours_since now last_dt <? min_hours_between cfg)%float = true ->
    wait_mins cfg now last_dt = Returned mins ->
    decision cfg st now
      (Returned (false, "Too soon since last post (wait "
                          ++ str_of_Z mins ++ " minutes)"))
| wait_not_finite (last_dt : Instant) (msg : string) :
    posts_today st < max_posts_per_day cfg ->
    last_post_time st = Some last_dt ->
    (hours_since now last_dt <? min_hours_between cfg)%float = true ->
    wait_mins cfg now last_dt = Raised msg ->
    decision cfg st now (Raised msg)
| not_a_posting_day :
    posts_today st < max_posts_per_day cfg ->
    spacing_respected cfg st now ->
    ~ In (weekday now) (days cfg) ->
    decision cfg st now
      (Returned (false, "Not a posting day (today is "
                          ++ str_of_Z (weekday now) ++ ")"))
| may_post :
    posts_today st < max_posts_per_day cfg ->
    spacing_respected cfg st now ->
    In (weekday now) (days cfg) ->
    decision cfg st now (Returned (true, "OK")).

End QuotaSpec.

(** ** cli.py: the reply command *)

Module Cli.

(** The four answers of the prompt: [y], [n], [e] and [s]. *)
Inductive Action : Type := Yes | No | Edit | SkipAll.

Section Reply.

Variable World : Type.
Variable create_tweet : string -> option string -> World -> outcome string * World.
Variable _save_state : Poster.State -> World -> outcome unit * World.

(** [datetime.now()] as the world shows it when an operation of the poster
    starts. *)
Variable clock : World -> Poster.Instant.

(** The action for an opportunity: [y] when [auto] is set and the score is
    at least 0.8, the answer to the prompt otherwise. *)
Variable choose_action : bool -> Monitor.StoredOpportunity -> World -> Action * World.

(** The answer to the prompt "Enter reply". *)
Variable ask_reply : Monitor.StoredOpportunity -> World -> string * World.

Variable cfg : Poster.Config.

(** The loop of [reply] over the pending opportunities.  [printed] lists,
    for every reply attempted, the tweet id and the result that the loop
    reports as "Replied!" or "Failed: ...".  An exception of the poster
    leaves the command where the loop stands. *)
Fixpoint reply_loop (auto : bool) (opportunities : list Monitor.StoredOpportunity)
    (mon : Monitor.State) (poster : Poster.State) (w : World)
    (printed : list (string * Poster.PostResult))
  : Monitor.State * Poster.State * World * list (string * Poster.PostResult) :=
  match opportunities with
  | [] => (mon, poster, w, printed)
  | opp :: rest =>
      match Poster.get_status cfg poster (clock w) with
      | (poster, Raised _) => (mon, poster, w, printed)
      | (poster, Returned status) =>
          if negb (Poster.s_can_post status) then (mon, poster, w, printed)
          else
            let '(action, w) := choose_action auto opp w in
            let attempt (reply_text : string) (w : World) :=
              match Poster.post_reply World create_tweet _save_state cfg
                      (Monitor.o_tweet_id opp) reply_text false poster
                      (clock w) w with
              | (Returned result, poster, w) =>
                  let printed :=
                    (printed ++ [(Monitor.o_tweet_id opp, result)])%list in
                  if Poster.success result
                  then reply_loop auto rest
                         (Monitor.mark_replied mon (Monitor.o_tweet_id opp))
                         poster w printed
                  else reply_loop auto rest mon poster w printed
              | (Raised _, poster, w) => (mon, poster, w, printed)
              end in
            match action with
            | SkipAll => (mon, poster, w, printed)
            | Yes => attempt (Monitor.o_suggested_reply opp) w
            | Edit => let '(edited, w) := ask_reply opp w in attempt edited w
            | No => reply_loop auto rest mon poster w printed
            end
      end
  end.

(** The command [reply]. *)
Definition reply (auto : bool) (mon : Monitor.State) (poster : Poster.State)
    (w : World)
  : Monitor.State * Poster.State * World * list (string * Poster.PostResult) :=
  reply_loop auto (Monitor.get_pending_opportunities mon) mon poster w [].

End Reply.

End Cli.

(** ** Runs of the poster *)

Module PosterRuns.

Import Poster.

Section Runs.

Variable World : Type.
Variable create_tweet : string -> option string -> World -> outcome string * World.
Variable generate_tweet : World -> outcome Generator.GeneratedTweet * World.
Variable _save_state : State -> World -> outcome unit * World.
Variable cfg : Config.

(** The states a poster goes through, from the state of a first start, by
    quota checks, status reports, posts and replies, at any instants and in
    any state of the world.  With [may_force] unset no post and no reply is
    forced. *)
Inductive reachable (may_force : bool) : State -> Prop :=
| run_start : reachable may_force initial_state
| run_check (st : State) (now : Instant) :
    reachable may_force st ->
    reachable may_force (fst (can_post cfg st now))
| run_status (st : State) (now : Instant) :
    reachable may_force st ->
    reachable may_force (fst (get_status cfg st now))
| run_post (st : State) (tweet : option Generator.GeneratedTweet)
    (text : option string) (force : bool) (now : Instant) (w : World)
    (r : outcome PostResult) (st' : State) (w' : World) :
    reachable may_force st ->
    (force = true -> may_force = true) ->
    post_tweet World create_tweet generate_tweet _save_state cfg
      tweet text force st now w
    = (r, st', w') ->
    reachable may_force st'
| run_reply (st : State) (reply_to_id text : string) (force : bool)
    (now : Instant) (w : World)
    (r : outcome PostResult) (st' : State) (w' : World) :
    reachable may_force st ->
    (force = true -> may_force = true) ->
    post_reply World create_tweet _save_state cfg reply_to_id text force st now w
    = (r, st', w') ->
    reachable may_force st'.

End Runs.

End PosterRuns.

(** ** What a reply session has done *)

Module ReplySpec.

Section Spec.

Variable World : Type.
Variable create_tweet : string -> option string -> World -> outcome string * World.
Variable generate_tweet : World -> outcome Generator.GeneratedTweet * World.
Variable _save_state : Poster.State -> World -> outcome unit * World.
Variable cfg : Poster.Config.

(** The ids of the replies reported as posted. *)
Definition replied_ids (printed : list (string * Poster.PostResult)) : list string :=
  map fst (filter (fun e => Poster.success (snd e)) printed).

(** A run of the reply loop over [opportunities], started with the monitor
    in [mon], the poster in [poster] and [printed] on the screen, has ended
    in [res]: it has reported some further results, each for one of the
    opportunities; the monitor has marked as replied the ids of the replies
    that were posted, in that order, and done nothing else; and the poster
    has gone through unforced steps only. *)
Definition session (opportunities : list Monitor.StoredOpportunity)
    (mon : Monitor.State) (poster : Poster.State)
    (printed : list (string * Poster.PostResult))
    (res : Monitor.State * Poster.State * World * list (string * Poster.PostResult))
  : Prop :=
  exists new,
    snd res = (printed ++ new)%list
    /\ fst (fst (fst res)) = fold_left Monitor.mark_replied (replied_ids new) mon
    /\ (forall e, In e new ->
          exists o, In o opportunities /\ Monitor.o_tweet_id o = fst e)
    /\ (PosterRuns.reachable World create_tweet generate_tweet _save_state cfg
          false poster ->
        PosterRuns.reachable World create_tweet generate_tweet _save_state cfg
          false (snd (fst (fst res)))).

End Spec.

End ReplySpec.

(** ** Invariants of a search

    What holds of the monitor's state and of the opportunities found so far
    at every point of the two loops of [search_opportunities], relative to
    the state [st0] the search started from. *)

Module SearchInv.

Import Monitor.

(** The replied list and the store are those of [st0]; the seen list has
    only grown. *)
Definition grows (st0 st : State) : Prop :=
  replied_tweets st = replied_tweets st0
  /\ opportunities st = opportunities st0
  /\ incl (seen_tweets st0) (seen_tweets st).

(** Every opportunity found is a tweet the filter admits on [st0], scored by
    the scorer for its keyword. *)
Definition admitted (cfg : Config) (st0 : State) (found : list Opportunity) : Prop :=
  Forall (fun o => fst (_is_valid_opportunity cfg st0 (tweet o)) = true
                   /\ relevance_score o
                      = _calculate_relevance (tweet o) (matched_keyword o))
         found.

Section Runs.

Variable World : Type.
Variable search_recent :
  string -> Z -> Z -> Z -> World -> outcome (list Tweet) * World.
Variable generate_reply : string -> string -> World -> outcome string * World.
Variable cfg : Config.

(** The states a monitor goes through, from the state of a first start,
    by searches (at any time, in any state of the world) and by calls of
    [mark_replied]. *)
Inductive reachable : State -> Prop :=
| reach_start : reachable initial_state
| reach_search (st : State) (now : string) (keywords_arg : option (list string))
    (max_per_keyword : Z) (w : World)
    (found : list Opportunity) (st' : State) (w' : World) :
    reachable st ->
    search_opportunities World search_recent generate_reply cfg now
      keywords_arg max_per_keyword st w = (found, st', w') ->
    reachable st'
| reach_reply (st : State) (tweet_id : string) :
    reachable st -> reachable (mark_replied st tweet_id).

End Runs.

End SearchInv.

(** ** Sample data

    Concrete tweets, settings and states on which the properties below are
    exercised. *)

Module Sample.

(** A tweet of a blacklisted author with no engagement at all. *)
Definition spam : Tweet :=
  mkTweet "42" "buy followers now" "u9" "SpamBot" 0 0 0 0 "2024-05-01 10:00:00" None.

(** A question that names its keyword, by a small account. *)
Definition asker : Tweet :=
  mkTweet "7" "Is there a good Tip Calculator?" "u1" "alice" 150 3 1 2
          "2024-05-01 11:00:00" None.

Definition monitor_cfg : Monitor.Config :=
  Monitor.mkConfig ["tip calculator"] 2 1 10 ["spambot"].

(** [spam] was replied to and has not been seen. *)
Definition replied_only : Monitor.State :=
  Monitor.mkState ["1"; "2"] ["42"] [] [].

(** [spam] was replied to and seen. *)
Definition seen_and_replied : Monitor.State :=
  Monitor.mkState ["1"; "42"] ["42"] [] [].

Definition poster_cfg : Poster.Config :=
  Poster.mkConfig 4%float [0; 1; 2; 3; 4] 5.

(** The same settings with a daily limit of 0. *)
Definition closed_cfg : Poster.Config :=
  Poster.mkConfig 4%float [0; 1; 2; 3; 4] 0.

(** Thursday 2 May 2024, 12:00:00 UTC. *)
Definition thursday_noon : Poster.Instant :=
  Poster.mkInstant "2024-05-02" 3 1714651200000000.

(** One hour before [thursday_noon]. *)
Definition one_hour_before : Poster.Instant :=
  Poster.mkInstant "2024-05-02" 3 1714647600000000.

(** One hour and one second before [thursday_noon]. *)
Definition an_hour_and_a_second_before : Poster.Instant :=
  Poster.mkInstant "2024-05-02" 3 1714647599000000.

(** Seventy minutes before [thursday_noon]. *)
Definition seventy_minutes_before : Poster.Instant :=
  Poster.mkInstant "2024-05-02" 3 1714647000000000.

(** Wednesday 1 May 2024, 09:00:00 UTC. *)
Definition wednesday_morning : Poster.Instant :=
  Poster.mkInstant "2024-05-01" 2 1714554000000000.

(** Saturday 4 May 2024, 12:00:00 UTC. *)
Definition saturday_noon : Poster.Instant :=
  Poster.mkInstant "2024-05-04" 5 1714824000000000.

(** Two posts today, the last of them at the given instant. *)
Definition posted_at (last_dt : Poster.Instant) : Poster.State :=
  Poster.mkState (Some last_dt) 2 (Some "2024-05-02") ["tip-calculator"] [].

(** The daily limit was reached on Wednesday; nothing was posted since. *)
Definition full_yesterday : Poster.State :=
  Poster.mkState (Some wednesday_morning) 5 (Some "2024-05-01")
    ["tip-calculator"; "bmi-calculator"] [].

(** A network that accepts every post and answers with the same id. *)
Definition network_up (text : string) (reply_to : option string) (w : unit)
  : outcome string * unit := (Returned "900", w).

(** A state file that can be written. *)
Definition disk_ok (st : Poster.State) (w : unit) : outcome unit * unit :=
  (Returned tt, w).

(** A state file on a disk that is full. *)
Definition disk_full (st : Poster.State) (w : unit) : outcome unit * unit :=
  (Raised "[Errno 28] No space left on device", w).

(** A generator with an empty catalogue. *)
Definition empty_generator (w : unit) : outcome Generator.GeneratedTweet * unit :=
  (Raised "Cannot choose from an empty sequence", w).

(** A network on which every search comes back empty. *)
Definition quiet_search (query : string) (max_results min_likes min_retweets : Z)
    (w : unit) : outcome (list Tweet) * unit := (Returned [], w).

(** A generator whose reply names the calculator. *)
Definition canned_reply (original_tweet calculator_slug : string) (w : unit)
  : outcome string * unit := (Returned ("Try " ++ calculator_slug), w).

(** The dict stored for [asker]. *)
Definition stored_asker : Monitor.StoredOpportunity :=
  Monitor.to_dict
    (Monitor.mkOpportunity asker "tip calculator" "tip-calculator"
       "Try tip-calculator"
       (Monitor._calculate_relevance asker "tip calculator")).

(** One opportunity is stored and nothing was replied to. *)
Definition one_stored : Monitor.State :=
  Monitor.mkState ["7"] [] [] [stored_asker].

(** A network on which every search finds [spam] and [asker]. *)
Definition mixed_search (query : string) (max_results min_likes min_retweets : Z)
    (w : unit) : outcome (list Tweet) * unit := (Returned [spam; asker], w).

Definition noon_text : string := "2024-05-02T12:00:00".

(** Fifty-one admissible tweets in the order the network returns them: fifty
    plain ones, ids 1 to 50, then a question by a large account, id 51. *)
Definition plain (n : nat) : Tweet :=
  mkTweet (str_of_Z (Z.of_nat n)) "my tip calculator says twenty percent" "u2" "bob"
          150 3 1 0 "2024-05-02 09:00:00" None.

Definition hot : Tweet :=
  mkTweet "51" "Which tip calculator do you use?" "u3" "carol"
          20000 30 4 9 "2024-05-02 11:59:00" None.

Definition burst : list Tweet := (map plain (seq 1 50) ++ [hot])%list.

Definition burst_search (query : string) (max_results min_likes min_retweets : Z)
    (w : unit) : outcome (list Tweet) * unit := (Returned burst, w).

(** [search_opportunities(keywords=["tip calculator"], max_per_keyword=60)] on
    a fresh monitor, the network answering with [burst]. *)
Definition burst_run : list Monitor.Opportunity * Monitor.State * unit :=
  Monitor.search_opportunities unit burst_search canned_reply monitor_cfg
    noon_text (Some ["tip calculator"]) 60 Monitor.initial_state tt.

(** A network that is down: every search raises. *)
Definition down_search (query : string) (max_results min_likes min_retweets : Z)
    (w : unit) : outcome (list Tweet) * unit := (Raised "503 Service Unavailable", w).

(** The replied list is full (200 ids, the oldest of them the id of
    [asker]) and the opportunity for [asker] is still stored. *)
Definition replied_full : Monitor.State :=
  Monitor.mkState [] ("7" :: map (fun n => str_of_Z (Z.of_nat n)) (seq 1000 199)) []
    [stored_asker].

(** A catalogue of three calculators and a generator that writes for the
    calculator it is asked for. *)
Definition catalogue : list Generator.Calculator :=
  [ Generator.mkCalculator "tip-calculator";
    Generator.mkCalculator "bmi-calculator";
    Generator.mkCalculator "fire-calculator" ].

Definition tweet_for (calculator_slug : string) (w : unit)
  : outcome Generator.GeneratedTweet * unit :=
  (Returned (Generator.mkGeneratedTweet ("Try the " ++ calculator_slug)
               calculator_slug calculator_slug "question" []), w).

(** A day-old post; the quota lets the next one through on Thursday noon. *)
Definition posted_yesterday : Poster.State :=
  Poster.mkState (Some wednesday_morning) 1 (Some "2024-05-01") ["tip-calculator"] [].

(** An answer of the network with three tweets: one by a known author, one
    with too few likes, one whose author is missing from the answer. *)
Definition answer : XClient.Response :=
  XClient.mkResponse
    (Some [ XClient.mkRawTweet "101" "Need a tip calculator" "u1"
              (Some [("like_count", 4); ("retweet_count", 1); ("reply_count", 2)])
              "2024-05-02 10:00:00+00:00" (Some "101");
            XClient.mkRawTweet "102" "tip calculator anyone" "u1"
              (Some [("like_count", 1); ("retweet_count", 3)])
              "2024-05-02 10:05:00+00:00" None;
            XClient.mkRawTweet "103" "which tip calculator?" "u404"
              (Some [("like_count", 9); ("retweet_count", 2)])
              "2024-05-02 10:10:00+00:00" None ])
    (Some [ XClient.mkRawUser "u1" "alice" (Some [("followers_count", 150)]) ]).

Definition answering (query : string) (max_results : Z) (w : unit)
  : outcome XClient.Response * unit := (Returned answer, w).

(** One line of 300 characters that is a URL. *)
Definition long_url : string :=
  "https://boring-math.com/calculators/tip-calculator?bill="
    ++ string_of_list_ascii (repeat "7"%char 244).

(** The dict stored for [hot]. *)
Definition stored_hot : Monitor.StoredOpportunity :=
  Monitor.to_dict
    (Monitor.mkOpportunity hot "tip calculator" "tip-calculator"
       "Try tip-calculator"
       (Monitor._calculate_relevance hot "tip calculator")).

(** Two opportunities are stored and nothing was replied to. *)
Definition two_stored : Monitor.State :=
  Monitor.mkState ["7"; "51"] [] [] [stored_hot; stored_asker].

(** A session so short that the clock reads the same instant throughout. *)
Definition frozen_clock (w : unit) : Poster.Instant := thursday_noon.

(** A user who answers [y] to every prompt. *)
Definition always_yes (auto : bool) (opp : Monitor.StoredOpportunity) (w : unit)
  : Cli.Action * unit := (Cli.Yes, w).

(** A user who keeps the suggested reply when editing. *)
Definition keep_suggestion (opp : Monitor.StoredOpportunity) (w : unit)
  : string * unit := (Monitor.o_suggested_reply opp, w).

End Sample.

(** * Properties *)

(** ** Lists, strings and numbers *)

Lemma mem_In (x : string) (l : list string) : mem x l = true <-> In x l.
Proof.
  unfold mem. rewrite existsb_exists. split.
  - intros (y & Hy & E). apply String.eqb_eq in E. now subst.
  - intros H. exists x. split; [assumption | apply String.eqb_refl].
Qed.

Lemma mem_false (x : string) (l : list string) : mem x l = false <-> ~ In x l.
Proof.
  rewrite <- mem_In. destruct (mem x l); split; intros; congruence.
Qed.

Lemma length_lastn {A} (n : nat) (l : list A) :
  List.length (lastn n l) = Nat.min n (List.length l).
Proof. unfold lastn. rewrite length_skipn. lia. Qed.

Lemma lastn_all {A} (n : nat) (l : list A) :
  (List.length l <= n)%nat -> lastn n l = l.
Proof.
  intros H. unfold lastn. replace (List.length l - n)%nat with 0%nat by lia.
  reflexivity.
Qed.

Lemma lastn_suffix {A} (n : nat) (l : list A) :
  exists evicted, l = (evicted ++ lastn n l)%list
                  /\ List.length evicted = (List.length l - n)%nat.
Proof.
  exists (firstn (List.length l - n) l). unfold lastn. split.
  - symmetry. apply firstn_skipn.
  - rewrite length_firstn. lia.
Qed.

Lemma In_lastn {A} (n : nat) (l : list A) (x : A) : In x (lastn n l) -> In x l.
Proof.
  destruct (lastn_suffix n l) as (ev & E & _). intros H.
  rewrite E. apply in_or_app. now right.
Qed.

Lemma lastn_snoc {A} (n : nat) (l : list A) (x : A) :
  lastn (S n) (l ++ [x]) = (lastn n l ++ [x])%list.
Proof.
  unfold lastn. rewrite length_app. cbn [List.length].
  replace (List.length l + 1 - S n)%nat with (List.length l - n)%nat by lia.
  rewrite skipn_app.
  replace (List.length l - n - List.length l)%nat with 0%nat by lia.
  reflexivity.
Qed.

Lemma In_slice_to {A} (m : Z) (l : list A) (x : A) : In x (slice_to m l) -> In x l.
Proof.
  assert (F : forall n, In x (firstn n l) -> In x l).
  { intros n H. rewrite <- (firstn_skipn n l). apply in_or_app. now left. }
  unfold slice_to. destruct (m <? 0); apply F.
Qed.

(** On a float that is not negative [int] is the floor. *)
(** [int] cuts a float towards zero: the integer it gives is the whole part
    of the number the float stands for. *)
Lemma to_int_truncates (x : float) (n : Z) :
  PyFloat.to_int x = Returned n ->
  ((0 <= PyFloat.to_Q x -> inject_Z n <= PyFloat.to_Q x < inject_Z n + 1)
   /\ (PyFloat.to_Q x <= 0 -> inject_Z n - 1 < PyFloat.to_Q x <= inject_Z n))%Q.
Proof.
  unfold PyFloat.to_int, PyFloat.to_Q.
  destruct (Prim2SF x) as [z | i | | s m e]; try discriminate.
  - intros E. injection E as <-.
    split; intros _; split; unfold Qle, Qlt; cbn; lia.
  - cbv zeta. intros E. injection E as <-.
    destruct e as [| p | k].
    + rewrite Z.shiftl_0_r. rewrite Z.pow_0_r, Z.mul_1_r.
      destruct s; split; intros _; split; unfold Qle, Qlt;
        cbn [Qnum Qden inject_Z Qplus Qminus Qopp Qmult]; lia.
    + rewrite Z.shiftl_mul_pow2 by lia.
      pose proof (Z.pow_pos_nonneg 2 (Z.pos p) ltac:(lia) ltac:(lia)) as P.
      set (q := 2 ^ Z.pos p) in *.
      destruct s; split; intros _; split; unfold Qle, Qlt;
        cbn [Qnum Qden inject_Z Qplus Qminus Qopp Qmult]; nia.
    + rewrite Z.shiftl_div_pow2 by lia.
      replace (- Z.neg k) with (Z.pos k) by lia.
      pose proof (Z.pow_pos_nonneg 2 (Z.pos k) ltac:(lia) ltac:(lia)) as Q2.
      pose proof (Z.mul_div_le (Z.pos m) (2 ^ Z.pos k) Q2) as L.
      pose proof (Z.mul_succ_div_gt (Z.pos m) (2 ^ Z.pos k) Q2) as U.
      pose proof (Z.div_pos (Z.pos m) (2 ^ Z.pos k) ltac:(lia) Q2) as P.
      assert (E2 : Z.pos (2 ^ k) = 2 ^ Z.pos k) by apply Pos2Z.inj_pow.
      set (d := Z.pos m / 2 ^ Z.pos k) in *.
      set (q := 2 ^ Z.pos k) in *.
      destruct s; split; intros H; split; unfold Qle, Qlt in *;
        cbn [Qnum Qden inject_Z Qplus Qminus Qopp Qmult] in *;
        rewrite ?E2 in *; nia.
Qed.

(** ** The relevance scorer *)

Section Scorer.

Local Open Scope Q_scope.

Lemma add_if_mono (c c' : bool) (s s' b b' : Q) :
  s <= s' ->
  (if c then b else 0) <= (if c' then b' else 0) ->
  (if c then s + b else s) <= (if c' then s' + b' else s').
Proof. destruct c, c'; intros; lra. Qed.

Lemma add_if_lower (c : bool) (lo s b : Q) :
  lo <= s -> 0 <= b -> lo <= (if c then s + b else s).
Proof. destruct c; intros; lra. Qed.

Lemma capped_bonus_nonneg (n : Z) (rate : Q) :
  (0 < n)%Z -> 0 <= rate -> 0 <= Qmin (1#10) (inject_Z n * rate).
Proof.
  intros Hn Hr. apply Q.min_glb; [lra |].
  apply Qmult_le_0_compat; [| assumption].
  change 0 with (inject_Z 0). rewrite <- Zle_Qle. lia.
Qed.

Lemma capped_bonus_mono (n m : Z) (rate : Q) :
  (n <= m)%Z -> 0 <= rate ->
  (if (0 <? n)%Z then Qmin (1#10) (inject_Z n * rate) else 0)
  <= (if (0 <? m)%Z then Qmin (1#10) (inject_Z m * rate) else 0).
Proof.
  intros Hnm Hr.
  destruct (Z.ltb_spec 0 n), (Z.ltb_spec 0 m); try lia.
  - apply Q.min_le_compat_l. apply Qmult_le_compat_r; [| assumption].
    now rewrite <- Zle_Qle.
  - now apply capped_bonus_nonneg.
  - lra.
Qed.

Lemma threshold_bonus_mono (limit n m : Z) :
  (n <= m)%Z ->
  (if (limit <? n)%Z then 1#10 else 0) <= (if (limit <? m)%Z then 1#10 else 0).
Proof.
  intros Hnm. destruct (Z.ltb_spec limit n), (Z.ltb_spec limit m); try lia; lra.
Qed.

Lemma flag_bonus_refl (c : bool) (b : Q) :
  (if c then b else 0) <= (if c then b else 0).
Proof. destruct c; lra. Qed.

(** The score does not decrease when the three counts grow together, the
    text and the keyword being the same. *)
Lemma relevance_mono (t t' : Tweet) (k : string) :
  text t' = text t ->
  (like_count t <= like_count t')%Z ->
  (reply_count t <= reply_count t')%Z ->
  (author_followers t <= author_followers t')%Z ->
  Monitor._calculate_relevance t k <= Monitor._calculate_relevance t' k.
Proof.
  intros Ht Hl Hr Hf. unfold Monitor._calculate_relevance. cbv zeta.
  rewrite Ht. apply Q.min_le_compat_l.
  apply add_if_mono; [| apply flag_bonus_refl].
  apply add_if_mono; [| now apply threshold_bonus_mono].
  apply add_if_mono; [| now apply threshold_bonus_mono].
  apply add_if_mono; [| apply capped_bonus_mono; [assumption | lra]].
  apply add_if_mono; [| apply capped_bonus_mono; [assumption | lra]].
  apply add_if_mono; [lra | apply flag_bonus_refl].
Qed.

Lemma relevance_le_1 (t : Tweet) (k : string) :
  Monitor._calculate_relevance t k <= 1.
Proof. unfold Monitor._calculate_relevance. apply Q.le_min_l. Qed.

Lemma add_capped_lower (n : Z) (rate lo s : Q) :
  0 <= rate -> lo <= s ->
  lo <= (if (0 <? n)%Z then s + Qmin (1#10) (inject_Z n * rate) else s).
Proof.
  intros Hr Hs. destruct (Z.ltb_spec 0 n) as [Hn | Hn]; [| assumption].
  pose proof (capped_bonus_nonneg n rate Hn Hr). lra.
Qed.

Lemma relevance_ge_half (t : Tweet) (k : string) :
  1#2 <= Monitor._calculate_relevance t k.
Proof.
  unfold Monitor._calculate_relevance. cbv zeta.
  apply Q.min_glb; [lra |].
  apply add_if_lower; [| lra].
  apply add_if_lower; [| lra].
  apply add_if_lower; [| lra].
  apply add_capped_lower; [lra |].
  apply add_capped_lower; [lra |].
  apply add_if_lower; lra.
Qed.

End Scorer.

(** C5: the relevance score does not decrease when [like_count], when
    [reply_count] or when [author_followers] grows, everything else being
    the same, and it is at most 1 for every tweet and keyword, so also at
    [like_count = 10000]. *)
Theorem relevance_monotone_and_capped (t : Tweet) (k : string) :
  (forall n m : Z, n <= m ->
     (Monitor._calculate_relevance (with_like_count t n) k
      <= Monitor._calculate_relevance (with_like_count t m) k)%Q)
  /\ (forall n m : Z, n <= m ->
        (Monitor._calculate_relevance (with_reply_count t n) k
         <= Monitor._calculate_relevance (with_reply_count t m) k)%Q)
  /\ (forall n m : Z, n <= m ->
        (Monitor._calculate_relevance (with_author_followers t n) k
         <= Monitor._calculate_relevance (with_author_followers t m) k)%Q)
  /\ (Monitor._calculate_relevance t k <= 1)%Q
  /\ (Monitor._calculate_relevance (with_like_count t 10000) k <= 1)%Q.
Proof.
  repeat split; intros;
    try apply relevance_le_1;
    apply relevance_mono; cbn; (reflexivity || lia).
Qed.

Lemma relevance_monotone_and_capped_witness :
  (Monitor._calculate_relevance (with_like_count Sample.asker 3) "tip calculator"
   <= Monitor._calculate_relevance (with_like_count Sample.asker 10000)
        "tip calculator")%Q
  /\ (Monitor._calculate_relevance (with_like_count Sample.asker 10000)
        "tip calculator" <= 1)%Q.
Proof.
  destruct (relevance_monotone_and_capped Sample.asker "tip calculator")
    as (Hlike & _ & _ & _ & Hcap).
  split; [apply Hlike; lia | exact Hcap].
Defined.

(** C6: a tweet with no likes, no replies and an author without followers,
    whose text has no question mark and does not contain the keyword (letter
    case apart), scores exactly 0.5; the score is a function of the tweet
    and the keyword alone, so equal inputs give equal scores. *)
Theorem relevance_baseline (t : Tweet) (k : string) :
  like_count t = 0 -> reply_count t = 0 -> author_followers t = 0 ->
  str_in "?" (text t) = false ->
  str_in (lower k) (lower (text t)) = false ->
  Monitor._calculate_relevance t k = (1#2)%Q
  /\ (forall (t' : Tweet) (k' : string), t' = t -> k' = k ->
        Monitor._calculate_relevance t' k' = Monitor._calculate_relevance t k).
Proof.
  intros Hl Hr Hf Hq Hk. split.
  - unfold Monitor._calculate_relevance. rewrite Hl, Hr, Hf, Hq, Hk. reflexivity.
  - intros t' k' -> ->. reflexivity.
Qed.

Lemma relevance_baseline_witness :
  Monitor._calculate_relevance Sample.spam "tip calculator" = (1#2)%Q.
Proof.
  apply (relevance_baseline Sample.spam "tip calculator"); reflexivity.
Defined.

(** C10: every score lies between 0.5 and 1: the base is 0.5, no
    adjustment is negative, and the result is capped at 1.  Both ends are
    reached, so the scores range over [0.5, 1] and not over [0, 1]. *)
Theorem relevance_range (t : Tweet) (k : string) :
  ((1#2) <= Monitor._calculate_relevance t k)%Q
  /\ (Monitor._calculate_relevance t k <= 1)%Q
  /\ Monitor._calculate_relevance Sample.spam "tip calculator" = (1#2)%Q
  /\ (Monitor._calculate_relevance
        (with_author_followers (with_like_count Sample.asker 10) 20000)
        "tip calculator" == 1)%Q.
Proof.
  split; [apply relevance_ge_half |].
  split; [apply relevance_le_1 |].
  split; reflexivity.
Qed.

(** ** The candidate filter *)

(** C1, as the code has it: a tweet whose id is in the replied list is
    always rejected; the reason is "Already replied" when the id is not in
    the seen list, whatever the author, the followers and the engagement
    are, and "Already seen" when it is, the seen list being looked up
    first. *)
Theorem replied_is_rejected (cfg : Monitor.Config) (st : Monitor.State) (tw : Tweet) :
  In (id tw) (Monitor.replied_tweets st) ->
  fst (Monitor._is_valid_opportunity cfg st tw) = false
  /\ (~ In (id tw) (Monitor.seen_tweets st) ->
      Monitor._is_valid_opportunity cfg st tw = (false, "Already replied"))
  /\ (In (id tw) (Monitor.seen_tweets st) ->
      Monitor._is_valid_opportunity cfg st tw = (false, "Already seen")).
Proof.
  intros Hr. apply mem_In in Hr. unfold Monitor._is_valid_opportunity.
  destruct (mem (id tw) (Monitor.seen_tweets st)) eqn:Hs; rewrite ?Hr.
  - repeat split; trivial. intros Hn. apply mem_In in Hs. contradiction.
  - repeat split; trivial. intros Hi. apply mem_In in Hi. congruence.
Qed.

Lemma replied_is_rejected_witness :
  Monitor._is_valid_opportunity Sample.monitor_cfg Sample.replied_only Sample.spam
  = (false, "Already replied").
Proof.
  apply (replied_is_rejected Sample.monitor_cfg Sample.replied_only Sample.spam).
  - cbn. auto.
  - cbn. intros [H | [H | []]]; discriminate H.
Defined.

(** C1 as stated fails: with the id in both lists the reason is
    "Already seen". *)
Lemma replied_reason_not_first :
  In (id Sample.spam) (Monitor.replied_tweets Sample.seen_and_replied)
  /\ Monitor._is_valid_opportunity Sample.monitor_cfg Sample.seen_and_replied
       Sample.spam = (false, "Already seen")
  /\ snd (Monitor._is_valid_opportunity Sample.monitor_cfg Sample.seen_and_replied
            Sample.spam) <> "Already replied".
Proof.
  split; [cbn; auto |]. split; [reflexivity |]. cbn. discriminate.
Qed.

(** ** The posting quota *)

Lemma memZ_In (x : Z) (l : list Z) : memZ x l = true <-> In x l.
Proof.
  unfold memZ. rewrite existsb_exists. split.
  - intros (y & Hy & E). apply Z.eqb_eq in E. now subst.
  - intros H. exists x. split; [assumption | apply Z.eqb_refl].
Qed.

(** The roll-over touches neither the last post nor the history. *)
Lemma reset_keeps_last_post (st : Poster.State) (now : Poster.Instant) :
  Poster.last_post_time (Poster._reset_daily_counters st now) = Poster.last_post_time st
  /\ Poster.history (Poster._reset_daily_counters st now) = Poster.history st.
Proof.
  unfold Poster._reset_daily_counters.
  destruct (Poster.today_date st) as [d |]; [destruct (String.eqb d _) |]; auto.
Qed.

Lemma reset_same_day (st : Poster.State) (now : Poster.Instant) :
  Poster.today_date st = Some (Poster.date now) ->
  Poster._reset_daily_counters st now = st.
Proof.
  unfold Poster._reset_daily_counters. intros ->. now rewrite String.eqb_refl.
Qed.

Lemma reset_new_day (st : Poster.State) (now : Poster.Instant) :
  Poster.today_date st <> Some (Poster.date now) ->
  Poster._reset_daily_counters st now
  = Poster.mkState (Poster.last_post_time st) 0 (Some (Poster.date now)) []
      (Poster.history st).
Proof.
  unfold Poster._reset_daily_counters. intros H.
  destruct (Poster.today_date st) as [d |]; [| reflexivity].
  destruct (String.eqb_spec d (Poster.date now)); [congruence | reflexivity].
Qed.

Lemma can_post_state (cfg : Poster.Config) (st : Poster.State) (now : Poster.Instant) :
  fst (Poster.can_post cfg st now) = Poster._reset_daily_counters st now.
Proof.
  unfold Poster.can_post.
  destruct (_ <=? _); [reflexivity |].
  destruct (Poster.last_post_time _) as [l |];
    [destruct (PrimFloat.ltb _ _);
       [destruct (Poster.wait_mins cfg now l); reflexivity |] |];
    destruct (negb _); reflexivity.
Qed.

(** [can_post] decides as the ordered conditions do, on the state the
    roll-over leaves. *)
Lemma can_post_decision (cfg : Poster.Config) (st : Poster.State) (now : Poster.Instant) :
  QuotaSpec.decision cfg (Poster._reset_daily_counters st now) now
    (snd (Poster.can_post cfg st now)).
Proof.
  unfold Poster.can_post.
  set (st' := Poster._reset_daily_counters st now).
  destruct (Z.leb_spec (Poster.max_posts_per_day cfg) (Poster.posts_today st'))
    as [Hd | Hd]; cbn [snd].
  { now constructor. }
  destruct (Poster.last_post_time st') as [l |] eqn:El.
  - destruct (PrimFloat.ltb _ _) eqn:Eq; cbn [snd].
    + destruct (Poster.wait_mins cfg now l) as [mins | msg] eqn:Ew; cbn [snd].
      * now apply (QuotaSpec.too_soon_since_last_post cfg st' now l mins).
      * now apply (QuotaSpec.wait_not_finite cfg st' now l msg).
    + assert (Hs : QuotaSpec.spacing_respected cfg st' now).
      { intros l' E. rewrite El in E. injection E as <-. exact Eq. }
      destruct (memZ _ _) eqn:Ew; cbn [negb snd].
      * apply memZ_In in Ew. now constructor.
      * apply QuotaSpec.not_a_posting_day; trivial.
        rewrite <- memZ_In. congruence.
  - assert (Hs : QuotaSpec.spacing_respected cfg st' now).
    { intros l' E. rewrite El in E. discriminate E. }
    destruct (memZ _ _) eqn:Ew; cbn [negb snd].
    + apply memZ_In in Ew. now constructor.
    + apply QuotaSpec.not_a_posting_day; trivial.
      rewrite <- memZ_In. congruence.
Qed.

(** The verdict when the last post is too recent. *)
Lemma can_post_too_soon (cfg : Poster.Config) (st : Poster.State)
    (now last_dt : Poster.Instant) :
  Poster.last_post_time st = Some last_dt ->
  Poster.posts_today (Poster._reset_daily_counters st now)
    < Poster.max_posts_per_day cfg ->
  (Poster.hours_since now last_dt <? Poster.min_hours_between cfg)%float = true ->
  snd (Poster.can_post cfg st now)
  = match Poster.wait_mins cfg now last_dt with
    | Returned mins =>
        Returned (false, "Too soon since last post (wait " ++ str_of_Z mins
                           ++ " minutes)")
    | Raised msg => Raised msg
    end.
Proof.
  intros Hlast Hday Hsoon. unfold Poster.can_post. cbv zeta.
  rewrite (proj1 (reset_keeps_last_post st now)), Hlast.
  destruct (Z.leb_spec (Poster.max_posts_per_day cfg)
              (Poster.posts_today (Poster._reset_daily_counters st now)));
    [lia |].
  rewrite Hsoon. destruct (Poster.wait_mins cfg now last_dt); reflexivity.
Qed.

(** C2, as the code has it: when the last post is less than
    [min_hours_between] hours old and the daily limit is not reached, the
    check blocks with "Too soon since last post" and the minutes to wait are
    the binary64 value of [(min_hours_between - hours_since) * 60] cut
    towards zero by [int]: the whole part of that float, never the next
    integer above it (and when that float is an infinity, [int] raises and
    so does the check); with 4 hours of spacing and a post exactly one hour
    old that is 180 minutes. *)
Theorem too_soon_wait_is_truncated
    (cfg : Poster.Config) (st : Poster.State) (now last_dt : Poster.Instant) :
  Poster.last_post_time st = Some last_dt ->
  Poster.posts_today (Poster._reset_daily_counters st now)
    < Poster.max_posts_per_day cfg ->
  (Poster.hours_since now last_dt <? Poster.min_hours_between cfg)%float = true ->
  (forall mins : Z,
     PyFloat.to_int
       ((Poster.min_hours_between cfg - Poster.hours_since now last_dt) * 60)%float
     = Returned mins ->
     snd (Poster.can_post cfg st now)
     = Returned (false,
                 "Too soon since last post (wait " ++ str_of_Z mins ++ " minutes)")
     /\ ((0 <= PyFloat.to_Q ((Poster.min_hours_between cfg
                              - Poster.hours_since now last_dt) * 60)%float ->
          inject_Z mins
          <= PyFloat.to_Q ((Poster.min_hours_between cfg
                            - Poster.hours_since now last_dt) * 60)%float
          < inject_Z mins + 1)
         /\ (PyFloat.to_Q ((Poster.min_hours_between cfg
                            - Poster.hours_since now last_dt) * 60)%float <= 0 ->
             inject_Z mins - 1
             < PyFloat.to_Q ((Poster.min_hours_between cfg
                              - Poster.hours_since now last_dt) * 60)%float
             <= inject_Z mins))%Q)
  /\ (forall msg : string,
        PyFloat.to_int
          ((Poster.min_hours_between cfg - Poster.hours_since now last_dt) * 60)%float
        = Raised msg ->
        snd (Poster.can_post cfg st now) = Raised msg)
  /\ (Poster.min_hours_between cfg = 4%float ->
      Poster.micros now - Poster.micros last_dt = 3600000000 ->
      snd (Poster.can_post cfg st now)
      = Returned (false, "Too soon since last post (wait 180 minutes)")).
Proof.
  intros Hlast Hday Hsoon.
  pose proof (can_post_too_soon cfg st now last_dt Hlast Hday Hsoon) as Hres.
  unfold Poster.wait_mins in Hres.
  split; [| split].
  - intros mins E. rewrite E in Hres. split; [exact Hres |].
    now apply to_int_truncates.
  - intros msg E. now rewrite E in Hres.
  - intros Hmin Hdiff. rewrite Hres.
    unfold Poster.hours_since, Poster.total_seconds. rewrite Hdiff, Hmin.
    vm_compute. reflexivity.
Qed.

Lemma too_soon_wait_is_truncated_witness :
  snd (Poster.can_post Sample.poster_cfg
         (Sample.posted_at Sample.one_hour_before) Sample.thursday_noon)
  = Returned (false, "Too soon since last post (wait 180 minutes)").
Proof.
  apply (too_soon_wait_is_truncated Sample.poster_cfg
           (Sample.posted_at Sample.one_hour_before)
           Sample.thursday_noon Sample.one_hour_before);
    vm_compute; reflexivity.
Defined.

(** C2 as stated fails: one hour and one second after the last post the
    time left is 179 minutes and 59 seconds; the check says 179 minutes,
    where the ceiling, of the float as of the exact number, is 180. *)
Lemma wait_is_not_rounded_up :
  Poster.last_post_time (Sample.posted_at Sample.an_hour_and_a_second_before)
  = Some Sample.an_hour_and_a_second_before
  /\ (Poster.hours_since Sample.thursday_noon Sample.an_hour_and_a_second_before
      <? Poster.min_hours_between Sample.poster_cfg)%float = true
  /\ snd (Poster.can_post Sample.poster_cfg
            (Sample.posted_at Sample.an_hour_and_a_second_before)
            Sample.thursday_noon)
     = Returned (false, "Too soon since last post (wait 179 minutes)")
  /\ ceil (PyFloat.to_Q
             ((Poster.min_hours_between Sample.poster_cfg
               - Poster.hours_since Sample.thursday_noon
                   Sample.an_hour_and_a_second_before) * 60)%float) = 180
  /\ ceil ((4 - inject_Z (Poster.micros Sample.thursday_noon
                          - Poster.micros Sample.an_hour_and_a_second_before)
                / 1000000 / 3600) * 60)%Q = 180.
Proof. repeat split; vm_compute; reflexivity. Qed.

(** The minutes are those of the float, not of the exact number: seventy
    minutes after the last post the time left is 170 minutes, the float
    product lies just below 170, and the check says 169. *)
Remark wait_is_cut_from_the_float :
  snd (Poster.can_post Sample.poster_cfg
         (Sample.posted_at Sample.seventy_minutes_before) Sample.thursday_noon)
  = Returned (false, "Too soon since last post (wait 169 minutes)")
  /\ ((4 - inject_Z (Poster.micros Sample.thursday_noon
                     - Poster.micros Sample.seventy_minutes_before)
           / 1000000 / 3600) * 60 == 170)%Q.
Proof. split; vm_compute; reflexivity. Qed.

(** With a spacing that is infinite the check raises instead of blocking. *)
Remark infinite_spacing_raises :
  snd (Poster.can_post
         (Poster.mkConfig infinity [0; 1; 2; 3; 4] 5)
         (Sample.posted_at Sample.one_hour_before) Sample.thursday_noon)
  = Raised "cannot convert float infinity to integer".
Proof. vm_compute. reflexivity. Qed.

(** C3, as the code has it: when the stored day differs from the current
    date, the check first sets [posts_today] to 0, empties the day's posted
    calculators and stores the new date, leaving the last post and the
    history as they were; the verdict is then the one of the ordered
    conditions (daily limit, spacing, weekday; the first that blocks
    decides) on that state, so with a daily limit of at least 1 a stale
    count such as 5 does not block through the daily limit. *)
Theorem rollover_before_checks
    (cfg : Poster.Config) (st : Poster.State) (now : Poster.Instant) :
  Poster.today_date st <> Some (Poster.date now) ->
  fst (Poster.can_post cfg st now)
  = Poster.mkState (Poster.last_post_time st) 0 (Some (Poster.date now)) []
      (Poster.history st)
  /\ QuotaSpec.decision cfg (fst (Poster.can_post cfg st now)) now
       (snd (Poster.can_post cfg st now))
  /\ (0 < Poster.max_posts_per_day cfg ->
      forall ok : bool,
        snd (Poster.can_post cfg st now)
        <> Returned (ok, "Daily limit reached ("
                           ++ str_of_Z (Poster.max_posts_per_day cfg) ++ " posts)")).
Proof.
  intros Hstale.
  pose proof (can_post_decision cfg st now) as D.
  rewrite can_post_state. rewrite (reset_new_day st now Hstale) in *.
  split; [reflexivity |]. split; [exact D |].
  intros Hmax ok.
  inversion D as [Hd E | l mins Hd Hl Hs Hw E | l msg Hd Hl Hs Hw E
                  | Hd Hs Hw E | Hd Hs Hw E];
    cbn [Poster.posts_today] in Hd; try lia;
    intros C; cbn in C; discriminate C.
Qed.

Lemma rollover_before_checks_witness :
  fst (Poster.can_post Sample.poster_cfg Sample.full_yesterday Sample.thursday_noon)
  = Poster.mkState (Some Sample.wednesday_morning) 0 (Some "2024-05-02") [] []
  /\ snd (Poster.can_post Sample.poster_cfg Sample.full_yesterday
            Sample.thursday_noon) = Returned (true, "OK").
Proof.
  split; [| vm_compute; reflexivity].
  apply (rollover_before_checks Sample.poster_cfg Sample.full_yesterday
           Sample.thursday_noon).
  cbn. intros H. discriminate H.
Defined.

(** C3 as stated fails: with a daily limit of 0 the count that the
    roll-over has just set to 0 reaches the limit, and the stale state with
    [posts_today = 5] is blocked by the daily limit all the same. *)
Lemma zero_limit_blocks_after_rollover :
  Poster.posts_today Sample.full_yesterday = 5
  /\ Poster.today_date Sample.full_yesterday
     <> Some (Poster.date Sample.thursday_noon)
  /\ Poster.can_post Sample.closed_cfg Sample.full_yesterday Sample.thursday_noon
     = (Poster.mkState (Some Sample.wednesday_morning) 0 (Some "2024-05-02") [] [],
        Returned (false, "Daily limit reached (0 posts)")).
Proof.
  split; [reflexivity |]. split; [intros H; discriminate H |].
  vm_compute. reflexivity.
Qed.

(** ** Posting *)

Section Posting.

Variable World : Type.
Variable create_tweet : string -> option string -> World -> outcome string * World.
Variable generate_tweet : World -> outcome Generator.GeneratedTweet * World.
Variable _save_state : Poster.State -> World -> outcome unit * World.
Variable cfg : Poster.Config.

(** Whatever the client and the write do, the [try] block returns a tagged
    result; a failure leaves the state alone unless it is the write that
    failed, after the post was recorded. *)
Lemma try_post_returns (st : Poster.State) (now : Poster.Instant)
    (tweet_text : string) (slug : option string) (w : World) :
  exists r st' w',
    Poster.try_post World create_tweet _save_state st now tweet_text slug w
    = (Returned r, st', w')
    /\ (Poster.success r = false ->
        st' = st
        \/ exists new_id w1 msg,
             _save_state (Poster.record_post st now new_id tweet_text slug) w1
             = (Raised msg, w')
             /\ st' = Poster.record_post st now new_id tweet_text slug
             /\ r = Poster.Failure msg).
Proof.
  unfold Poster.try_post.
  destruct (XClient.post_tweet World create_tweet tweet_text None w)
    as [[result | msg] w1].
  - cbv zeta.
    destruct (_save_state _ w1) as [[u | msg] w2] eqn:Es.
    + eexists _, _, _. split; [reflexivity |]. cbn. discriminate.
    + eexists _, _, _. split; [reflexivity |]. intros _. right.
      exists (XClient.posted_id result), w1, msg. auto.
  - eexists _, _, _. split; [reflexivity |]. intros _. now left.
Qed.

(** A text of more than 280 characters never reaches the network: the
    client's [ValueError] comes back as a failure. *)
Lemma too_long_is_a_failure (st : Poster.State) (now : Poster.Instant)
    (tweet_text : string) (slug : option string) (w : World) :
  280 < Z.of_nat (String.length tweet_text) ->
  Poster.try_post World create_tweet _save_state st now tweet_text slug w
  = (Returned (Poster.Failure
                 ("Tweet too long: " ++ str_of_Z (Z.of_nat (String.length tweet_text))
                    ++ " chars (max 280)")), st, w).
Proof.
  intros H. unfold Poster.try_post, XClient.post_tweet.
  destruct (Z.ltb_spec 280 (Z.of_nat (String.length tweet_text))); [reflexivity | lia].
Qed.

Lemma rolled_state (force : bool) (st : Poster.State) (now : Poster.Instant) :
  Poster.last_post_time (if force then st else Poster._reset_daily_counters st now)
  = Poster.last_post_time st
  /\ Poster.history (if force then st else Poster._reset_daily_counters st now)
     = Poster.history st
  /\ (Poster.posts_today (if force then st else Poster._reset_daily_counters st now)
      = Poster.posts_today st
      \/ (force = false
          /\ Poster.today_date st <> Some (Poster.date now)
          /\ Poster.posts_today
               (if force then st else Poster._reset_daily_counters st now) = 0)).
Proof.
  destruct force; [auto |].
  split; [apply reset_keeps_last_post |].
  split; [apply reset_keeps_last_post |].
  destruct (Poster.today_date st) as [d |] eqn:Ed.
  - destruct (String.eqb_spec d (Poster.date now)) as [-> | Hne].
    + left. now rewrite reset_same_day.
    + right. rewrite reset_new_day; [| congruence].
      repeat split. congruence.
  - right. rewrite reset_new_day; [| congruence].
    repeat split. congruence.
Qed.

Lemma can_post_eta (st : Poster.State) (now : Poster.Instant) :
  Poster.can_post cfg st now
  = (Poster._reset_daily_counters st now, snd (Poster.can_post cfg st now)).
Proof.
  rewrite <- (can_post_state cfg).
  destruct (Poster.can_post cfg st now) as [s v]. reflexivity.
Qed.

(** The check at the head of a post: the state it leaves and its verdict. *)
Lemma check_quota_eta (force : bool) (st : Poster.State) (now : Poster.Instant) :
  Poster.check_quota cfg force st now
  = (if force then st else Poster._reset_daily_counters st now,
     if force then Returned (true, "OK") else snd (Poster.can_post cfg st now)).
Proof. unfold Poster.check_quota. destruct force; [reflexivity | apply can_post_eta]. Qed.

(** C8, as the code has it: as long as the quota check itself returns,
    [post_reply] returns a result tagged success or failure, and so does
    [post_tweet] when it is given a tweet or a text that is not empty, or
    when the generator returns one; a quota block is the failure carrying
    the reason of the check, with the state as the day roll-over leaves it
    and the world untouched, and a text of more than 280 characters is the
    failure carrying the message of the client's length check.  After a
    failure the state is the one the call started from when [force] is
    set, and otherwise that state after the day roll-over of the quota
    check, which keeps [last_post_time] and [history] and either keeps
    [posts_today] or, on a new day, sets it to 0; save when the failure is
    that of the write of the state file, which comes after the post went
    out and was recorded: then the failure carries the message of the write
    and the state counts the post. *)
Theorem post_returns_tagged_result
    (tweet : option Generator.GeneratedTweet) (text : option string)
    (reply_to_id reply_text : string) (force : bool)
    (st : Poster.State) (now : Poster.Instant) (w : World) :
  (force = false ->
   exists verdict, snd (Poster.can_post cfg st now) = Returned verdict) ->
  ((tweet <> None
    \/ (exists c r, text = Some (String c r))
    \/ (exists t w1, generate_tweet w = (Returned t, w1))) ->
   exists r st' w',
     Poster.post_tweet World create_tweet generate_tweet _save_state cfg
       tweet text force st now w
     = (Returned r, st', w')
     /\ (Poster.success r = false ->
         st' = (if force then st else Poster._reset_daily_counters st now)
         \/ exists new_id tweet_text slug w1 msg,
              _save_state
                (Poster.record_post
                   (if force then st else Poster._reset_daily_counters st now)
                   now new_id tweet_text slug) w1
              = (Raised msg, w')
              /\ st' = Poster.record_post
                         (if force then st else Poster._reset_daily_counters st now)
                         now new_id tweet_text slug
              /\ r = Poster.Failure msg)
     /\ (force = false ->
         forall reason,
           snd (Poster.can_post cfg st now) = Returned (false, reason) ->
           r = Poster.Failure reason
           /\ st' = Poster._reset_daily_counters st now /\ w' = w))
  /\ (exists r st' w',
        Poster.post_reply World create_tweet _save_state cfg
          reply_to_id reply_text force st now w
        = (Returned r, st', w')
        /\ (Poster.success r = false ->
            st' = (if force then st else Poster._reset_daily_counters st now)
            \/ exists w1 msg,
                 _save_state
                   (Poster.record_reply
                      (if force then st else Poster._reset_daily_counters st now)
                      now) w1
                 = (Raised msg, w')
                 /\ st' = Poster.record_reply
                            (if force then st
                             else Poster._reset_daily_counters st now) now
                 /\ r = Poster.Failure msg)
        /\ (force = false ->
            forall reason,
              snd (Poster.can_post cfg st now) = Returned (false, reason) ->
              r = Poster.Failure reason
              /\ st' = Poster._reset_daily_counters st now /\ w' = w))
  /\ (280 < Z.of_nat (String.length reply_text) -> force = true ->
      Poster.post_reply World create_tweet _save_state cfg
        reply_to_id reply_text force st now w
      = (Returned (Poster.Failure
                     ("Tweet too long: "
                        ++ str_of_Z (Z.of_nat (String.length reply_text))
                        ++ " chars (max 280)")), st, w))
  /\ Poster.last_post_time (if force then st else Poster._reset_daily_counters st now)
     = Poster.last_post_time st
  /\ Poster.history (if force then st else Poster._reset_daily_counters st now)
     = Poster.history st
  /\ (Poster.posts_today (if force then st else Poster._reset_daily_counters st now)
      = Poster.posts_today st
      \/ (force = false
          /\ Poster.today_date st <> Some (Poster.date now)
          /\ Poster.posts_today
               (if force then st else Poster._reset_daily_counters st now) = 0)).
Proof.
  intros Hchecked.
  set (rolled := if force then st else Poster._reset_daily_counters st now).
  assert (Hcheck : exists ok reason,
             Poster.check_quota cfg force st now = (rolled, Returned (ok, reason))
             /\ (force = false ->
                 snd (Poster.can_post cfg st now) = Returned (ok, reason))
             /\ (force = true -> ok = true)).
  { rewrite check_quota_eta. fold rolled. destruct force.
    - exists true, "OK". repeat split. discriminate.
    - destruct (Hchecked eq_refl) as ([ok reason] & E). rewrite E.
      exists ok, reason. repeat split. discriminate. }
  destruct Hcheck as (ok & reason & Eg & Hv & Hf).
  split; [| split; [| split; [| apply rolled_state]]].
  - (* post_tweet *)
    intros Hgiven. unfold Poster.post_tweet. rewrite Eg.
    destruct ok.
    + assert (Htry : forall tweet_text slug w0,
                exists r st' w',
                  Poster.try_post World create_tweet _save_state rolled now
                    tweet_text slug w0
                  = (Returned r, st', w')
                  /\ (Poster.success r = false ->
                      st' = rolled
                      \/ exists new_id tweet_text0 slug0 w1 msg,
                           _save_state
                             (Poster.record_post rolled now new_id tweet_text0 slug0)
                             w1
                           = (Raised msg, w')
                           /\ st' = Poster.record_post rolled now new_id
                                      tweet_text0 slug0
                           /\ r = Poster.Failure msg)
                  /\ (force = false ->
                      forall reason0,
                        snd (Poster.can_post cfg st now)
                        = Returned (false, reason0) ->
                        r = Poster.Failure reason0
                        /\ st' = Poster._reset_daily_counters st now /\ w' = w)).
      { intros tweet_text slug w0.
        destruct (try_post_returns rolled now tweet_text slug w0)
          as (r & st' & w' & E & Hfail).
        exists r, st', w'. split; [exact E |]. split.
        - intros Hr. destruct (Hfail Hr) as [-> | (i & w1 & msg & Es & -> & ->)];
            [now left |].
          right. now exists i, tweet_text, slug, w1, msg.
        - intros Hff reason0 Hb. rewrite (Hv Hff) in Hb. discriminate Hb. }
      destruct tweet as [t |]; [apply Htry |].
      destruct text as [[| c s] |]; [| apply Htry |];
        (destruct Hgiven as [H | [(c & s & H) | (t & w1 & H)]];
         [congruence | discriminate H | rewrite H; apply Htry]).
    + eexists _, _, _. split; [reflexivity |].
      split; [now left |]. intros Hff reason0 Hb.
      rewrite (Hv Hff) in Hb. injection Hb as <-.
      unfold rolled. rewrite Hff. repeat split.
  - (* post_reply *)
    unfold Poster.post_reply. rewrite Eg.
    destruct ok.
    + destruct (XClient.post_tweet World create_tweet reply_text
                  (Some reply_to_id) w) as [[result | msg] w1].
      * cbv zeta.
        destruct (_save_state (Poster.record_reply rolled now) w1)
          as [[u | msg] w2] eqn:Es.
        -- eexists _, _, _. split; [reflexivity |].
           split; [cbn; discriminate |].
           intros Hff reason0 Hb. rewrite (Hv Hff) in Hb. discriminate Hb.
        -- eexists _, _, _. split; [reflexivity |].
           split; [intros _; right; now exists w1, msg |].
           intros Hff reason0 Hb. rewrite (Hv Hff) in Hb. discriminate Hb.
      * eexists _, _, _. split; [reflexivity |].
        split; [now left |].
        intros Hff reason0 Hb. rewrite (Hv Hff) in Hb. discriminate Hb.
    + eexists _, _, _. split; [reflexivity |].
      split; [now left |]. intros Hff reason0 Hb.
      rewrite (Hv Hff) in Hb. injection Hb as <-.
      unfold rolled. rewrite Hff. repeat split.
  - (* the length check *)
    intros Hlong ->. unfold Poster.post_reply, Poster.check_quota, XClient.post_tweet.
    destruct (Z.ltb_spec 280 (Z.of_nat (String.length reply_text)));
      [reflexivity | lia].
Qed.

End Posting.

Lemma post_returns_tagged_result_witness :
  (false = false ->
   exists verdict,
     snd (Poster.can_post Sample.poster_cfg Sample.full_yesterday
            Sample.saturday_noon) = Returned verdict)
  /\ exists r st' w',
       Poster.post_tweet unit Sample.network_up Sample.empty_generator
         Sample.disk_ok Sample.poster_cfg None (Some "Split the bill in seconds")
         false Sample.full_yesterday Sample.saturday_noon tt
       = (Returned r, st', w')
       /\ Poster.success r = false
       /\ st' = Poster._reset_daily_counters Sample.full_yesterday
                  Sample.saturday_noon.
Proof.
  assert (Hchecked : false = false ->
                     exists verdict,
                       snd (Poster.can_post Sample.poster_cfg Sample.full_yesterday
                              Sample.saturday_noon) = Returned verdict).
  { intros _. eexists. vm_compute. reflexivity. }
  split; [exact Hchecked |].
  destruct (proj1 (post_returns_tagged_result unit Sample.network_up
                     Sample.empty_generator Sample.disk_ok Sample.poster_cfg None
                     (Some "Split the bill in seconds") "7" "Try tip-calculator"
                     false Sample.full_yesterday Sample.saturday_noon tt Hchecked))
    as (r & st' & w' & E & _ & Hblocked).
  { right. left. eexists _, _. reflexivity. }
  destruct (Hblocked eq_refl "Not a posting day (today is 5)") as (-> & -> & ->).
  { vm_compute. reflexivity. }
  exists (Poster.Failure "Not a posting day (today is 5)"),
    (Poster._reset_daily_counters Sample.full_yesterday Sample.saturday_noon), tt.
  split; [exact E | split; reflexivity].
Defined.

(** C8 as stated fails: a post refused on a Saturday, the first check of a
    new day, comes back as a failure and has set [posts_today] from 5 to
    0. *)
Lemma blocked_post_resets_counter :
  Poster.post_tweet unit Sample.network_up Sample.empty_generator Sample.disk_ok
    Sample.poster_cfg None (Some "Split the bill in seconds") false
    Sample.full_yesterday Sample.saturday_noon tt
  = (Returned (Poster.Failure "Not a posting day (today is 5)"),
     Poster.mkState (Some Sample.wednesday_morning) 0 (Some "2024-05-04") [] [],
     tt)
  /\ Poster.posts_today Sample.full_yesterday = 5.
Proof. split; vm_compute; reflexivity. Qed.

(** A write that fails comes after the reply went out: the result is a
    failure, and the state in memory has the reply counted and timed. *)
Remark failed_write_keeps_the_reply_counted :
  Poster.post_reply unit Sample.network_up Sample.disk_full Sample.poster_cfg
    "7" "Try tip-calculator" false
    (Sample.posted_at Sample.wednesday_morning) Sample.thursday_noon tt
  = (Returned (Poster.Failure "[Errno 28] No space left on device"),
     Poster.mkState (Some Sample.thursday_noon) 3 (Some "2024-05-02")
       ["tip-calculator"] [],
     tt).
Proof. vm_compute. reflexivity. Qed.

(** Without a tweet and without a text the generator is called outside the
    [try] block: what it raises leaves [post_tweet]. *)
Remark post_without_text_can_raise :
  Poster.post_tweet unit Sample.network_up Sample.empty_generator Sample.disk_ok
    Sample.poster_cfg None None true
    Sample.full_yesterday Sample.saturday_noon tt
  = (Raised "Cannot choose from an empty sequence", Sample.full_yesterday, tt).
Proof. reflexivity. Qed.

(** ** The opportunity store *)

Lemma insert_by_score_perm (o : Monitor.Opportunity) (l : list Monitor.Opportunity) :
  Permutation (o :: l) (Monitor.insert_by_score o l).
Proof.
  induction l as [| x r IH]; cbn [Monitor.insert_by_score]; [reflexivity |].
  destruct (Qle_bool _ _); [reflexivity |].
  rewrite perm_swap. now apply perm_skip.
Qed.

Lemma sort_by_score_perm (l : list Monitor.Opportunity) :
  Permutation l (Monitor.sort_by_score l).
Proof.
  induction l as [| o r IH]; cbn [Monitor.sort_by_score]; [reflexivity |].
  rewrite <- insert_by_score_perm. now apply perm_skip.
Qed.

(** The sort leaves the scores in decreasing order. *)
Lemma insert_by_score_sorted (o : Monitor.Opportunity) (l : list Monitor.Opportunity) :
  StronglySorted (fun a b => (Monitor.relevance_score b <= Monitor.relevance_score a)%Q) l ->
  StronglySorted (fun a b => (Monitor.relevance_score b <= Monitor.relevance_score a)%Q)
    (Monitor.insert_by_score o l).
Proof.
  induction l as [| x r IH]; intros S; cbn [Monitor.insert_by_score].
  - constructor; constructor.
  - inversion S as [| ? ? Sr Fr]; subst.
    destruct (Qle_bool _ _) eqn:E.
    + apply Qle_bool_iff in E. constructor; [exact S |].
      constructor; [exact E |].
      eapply Forall_impl; [| exact Fr]. cbn. intros b Hb.
      now apply Qle_trans with (Monitor.relevance_score x).
    + constructor; [now apply IH |].
      eapply Permutation_Forall; [apply insert_by_score_perm |].
      constructor; [| exact Fr].
      apply Qlt_le_weak. apply Qnot_le_lt. intros C.
      apply Qle_bool_iff in C. congruence.
Qed.

Lemma sort_by_score_sorted (l : list Monitor.Opportunity) :
  StronglySorted (fun a b => (Monitor.relevance_score b <= Monitor.relevance_score a)%Q)
    (Monitor.sort_by_score l).
Proof.
  induction l as [| o r IH]; cbn [Monitor.sort_by_score]; [constructor |].
  now apply insert_by_score_sorted.
Qed.

(** What an admitted tweet has passed. *)
Lemma valid_inv (cfg : Monitor.Config) (st : Monitor.State) (t : Tweet) :
  fst (Monitor._is_valid_opportunity cfg st t) = true ->
  mem (id t) (Monitor.seen_tweets st) = false
  /\ mem (id t) (Monitor.replied_tweets st) = false
  /\ mem (lower (author_username t)) (map lower (Monitor.blacklist cfg)) = false
  /\ Monitor.min_followers cfg <= author_followers t
  /\ Monitor.min_likes cfg <= like_count t
  /\ Monitor.min_retweets cfg <= retweet_count t.
Proof.
  unfold Monitor._is_valid_opportunity.
  destruct (mem (id t) _); [discriminate |].
  destruct (mem (id t) _); [discriminate |].
  destruct (mem (lower _) _); [discriminate |].
  destruct (Z.ltb_spec (author_followers t) (Monitor.min_followers cfg));
    [discriminate |].
  destruct (Z.ltb_spec (like_count t) (Monitor.min_likes cfg)); [discriminate |].
  destruct (Z.ltb_spec (retweet_count t) (Monitor.min_retweets cfg));
    [discriminate |].
  intros _. repeat split; assumption.
Qed.

(** A tweet admitted later in a search is admitted on the state the search
    started from. *)
Lemma valid_on_start (cfg : Monitor.Config) (st0 st : Monitor.State) (t : Tweet) :
  SearchInv.grows st0 st ->
  fst (Monitor._is_valid_opportunity cfg st t) = true ->
  fst (Monitor._is_valid_opportunity cfg st0 t) = true.
Proof.
  intros (Hr & _ & Hs). unfold Monitor._is_valid_opportunity. rewrite Hr.
  destruct (mem (id t) (Monitor.seen_tweets st)) eqn:E; [discriminate |].
  destruct (mem (id t) (Monitor.seen_tweets st0)) eqn:E0; [| trivial].
  apply mem_In in E0. apply Hs in E0. apply mem_In in E0. congruence.
Qed.

Section Store.

Variable World : Type.
Variable search_recent :
  string -> Z -> Z -> Z -> World -> outcome (list Tweet) * World.
Variable generate_reply : string -> string -> World -> outcome string * World.
Variable cfg : Monitor.Config.
Variable now : string.

Local Abbreviation scan_tweets := (Monitor.scan_tweets World generate_reply cfg).
Local Abbreviation scan_keywords :=
  (Monitor.scan_keywords World search_recent generate_reply cfg now).
Local Abbreviation search_opportunities :=
  (Monitor.search_opportunities World search_recent generate_reply cfg now).

Lemma scan_tweets_inv (st0 : Monitor.State) (keyword calculator : string)
    (tweets : list Tweet) :
  forall st found w raised st' found' w',
    scan_tweets keyword calculator tweets st found w = (raised, st', found', w') ->
    SearchInv.grows st0 st -> SearchInv.admitted cfg st0 found ->
    SearchInv.grows st0 st' /\ SearchInv.admitted cfg st0 found'.
Proof.
  induction tweets as [| t rest IH]; intros st found w raised st' found' w' E G A.
  - injection E as <- <- <- <-. now split.
  - cbn [Monitor.scan_tweets] in E.
    destruct (Monitor._is_valid_opportunity cfg st t) as [valid reason] eqn:V.
    destruct valid; cbn [negb] in E.
    + destruct (generate_reply (text t) calculator w) as [[reply | msg] w1].
      * apply IH in E; [exact E | |].
        -- destruct G as (Gr & Go & Gs). repeat split; trivial.
           intros x Hx. apply in_or_app. left. now apply Gs.
        -- apply Forall_app. split; [exact A |].
           constructor; [| constructor]. cbn. split; [| reflexivity].
           apply (valid_on_start cfg st0 st t G). now rewrite V.
      * injection E as <- <- <- <-. now split.
    + now apply IH in E.
Qed.

Lemma scan_keywords_inv (st0 : Monitor.State) (max_per_keyword : Z)
    (kws : list string) :
  forall st found w st' found' w',
    scan_keywords kws max_per_keyword st found w = (st', found', w') ->
    SearchInv.grows st0 st -> SearchInv.admitted cfg st0 found ->
    SearchInv.grows st0 st' /\ SearchInv.admitted cfg st0 found'.
Proof.
  induction kws as [| k rest IH]; intros st found w st' found' w' E G A.
  - injection E as <- <- <-. now split.
  - cbn [Monitor.scan_keywords] in E.
    destruct (Monitor._get_calculator_for_keyword k) as [[| c0 c] |];
      [now apply IH in E | | now apply IH in E].
    destruct (search_recent k (max_per_keyword * 2) (Monitor.min_likes cfg)
                (Monitor.min_retweets cfg) w) as [[tweets | msg] w1];
      [| now apply IH in E].
    destruct (Monitor.scan_tweets World generate_reply cfg k (String c0 c)
                (slice_to max_per_keyword tweets) st found w1)
      as [[[raised st1] found1] w2] eqn:S.
    apply (scan_tweets_inv st0) in S; trivial. destruct S as (G1 & A1).
    destruct raised; apply IH in E; trivial.
Qed.

Lemma scan_tweets_store (old : list Monitor.StoredOpportunity)
    (keyword calculator : string) (tweets : list Tweet) :
  forall st found w,
    scan_tweets keyword calculator tweets (Monitor.set_opportunities st old) found w
    = match scan_tweets keyword calculator tweets st found w with
      | (raised, st', found', w') =>
          (raised, Monitor.set_opportunities st' old, found', w')
      end.
Proof.
  induction tweets as [| t rest IH]; intros st found w; [reflexivity |].
  cbn [Monitor.scan_tweets].
  change (Monitor._is_valid_opportunity cfg (Monitor.set_opportunities st old) t)
    with (Monitor._is_valid_opportunity cfg st t).
  destruct (Monitor._is_valid_opportunity cfg st t) as [valid reason].
  destruct valid; cbn [negb]; [| apply IH].
  destruct (generate_reply (text t) calculator w) as [[reply | msg] w1];
    [| reflexivity].
  apply (IH (Monitor.mark_seen st (id t))).
Qed.

Lemma scan_keywords_store (old : list Monitor.StoredOpportunity)
    (max_per_keyword : Z) (kws : list string) :
  forall st found w,
    scan_keywords kws max_per_keyword (Monitor.set_opportunities st old) found w
    = match scan_keywords kws max_per_keyword st found w with
      | (st', found', w') => (Monitor.set_opportunities st' old, found', w')
      end.
Proof.
  induction kws as [| k rest IH]; intros st found w; [reflexivity |].
  cbn [Monitor.scan_keywords].
  destruct (Monitor._get_calculator_for_keyword k) as [[| c0 c] |];
    [apply IH | | apply IH].
  destruct (search_recent k (max_per_keyword * 2) (Monitor.min_likes cfg)
              (Monitor.min_retweets cfg) w) as [[tweets | msg] w1];
    [| apply IH].
  rewrite scan_tweets_store.
  destruct (scan_tweets k (String c0 c) (slice_to max_per_keyword tweets)
              st found w1) as [[[raised st1] found1] w2].
  destruct raised; [apply IH |].
  apply (IH (Monitor.set_last_search st1 k now)).
Qed.

(** A search never reads the store: it gives the same result, and leaves
    the same state, whatever was stored before. *)
Lemma search_ignores_store (old : list Monitor.StoredOpportunity)
    (keywords_arg : option (list string)) (max_per_keyword : Z)
    (st : Monitor.State) (w : World) :
  search_opportunities keywords_arg max_per_keyword
    (Monitor.set_opportunities st old) w
  = search_opportunities keywords_arg max_per_keyword st w.
Proof.
  unfold Monitor.search_opportunities.
  set (kws := match keywords_arg with
              | None | Some [] => Monitor.keywords cfg
              | Some l => l
              end).
  rewrite scan_keywords_store.
  destruct (scan_keywords kws max_per_keyword st [] w) as [[st1 found] w1].
  reflexivity.
Qed.

(** What a search leaves in the state. *)
Lemma search_result (keywords_arg : option (list string)) (max_per_keyword : Z)
    (st : Monitor.State) (w : World) :
  let '(found, st', _) := search_opportunities keywords_arg max_per_keyword st w in
  Monitor.opportunities st' = lastn 50 (map Monitor.to_dict found)
  /\ Monitor.replied_tweets st' = lastn 200 (Monitor.replied_tweets st)
  /\ SearchInv.admitted cfg st found.
Proof.
  unfold Monitor.search_opportunities.
  set (kws := match keywords_arg with
              | None | Some [] => Monitor.keywords cfg
              | Some l => l
              end).
  destruct (Monitor.scan_keywords World search_recent generate_reply cfg now
              kws max_per_keyword st [] w) as [[st1 found] w1] eqn:S.
  apply (scan_keywords_inv st) in S;
    [| repeat split; trivial; apply incl_refl | constructor].
  destruct S as ((Gr & _ & _) & A).
  split; [reflexivity |]. split; [cbn; now rewrite Gr |].
  unfold SearchInv.admitted in *.
  eapply Permutation_Forall; [apply sort_by_score_perm | exact A].
Qed.

Lemma pending_iff (st : Monitor.State) (o : Monitor.StoredOpportunity) :
  In o (Monitor.get_pending_opportunities st)
  <-> In o (Monitor.opportunities st)
      /\ ~ In (Monitor.o_tweet_id o) (Monitor.replied_tweets st).
Proof.
  unfold Monitor.get_pending_opportunities.
  rewrite filter_In, negb_true_iff, mem_false. reflexivity.
Qed.

Lemma mark_replied_has_id (st : Monitor.State) (tid : string) :
  In tid (Monitor.replied_tweets (Monitor.mark_replied st tid)).
Proof.
  unfold Monitor.mark_replied, Monitor._save_state.
  cbn [Monitor.replied_tweets].
  rewrite (lastn_snoc 199). apply in_or_app. right. now left.
Qed.

(** Whatever a search stores is the dict of a tweet that the filter
    admits on the state the search started from. *)
Lemma stored_after_search (keywords_arg : option (list string))
    (max_per_keyword : Z) (st : Monitor.State) (w : World)
    (found : list Monitor.Opportunity) (st' : Monitor.State) (w' : World) :
  search_opportunities keywords_arg max_per_keyword st w = (found, st', w') ->
  forall o, In o (Monitor.opportunities st') ->
    (exists opp, o = Monitor.to_dict opp
                 /\ fst (Monitor._is_valid_opportunity cfg st (Monitor.tweet opp))
                    = true)
    /\ mem (lower (Monitor.o_author o)) (map lower (Monitor.blacklist cfg)) = false.
Proof.
  intros E o Ho.
  pose proof (search_result keywords_arg max_per_keyword st w) as R.
  rewrite E in R. destruct R as (Eo & _ & A).
  rewrite Eo in Ho. apply In_lastn in Ho. apply in_map_iff in Ho.
  destruct Ho as (opp & <- & Hin).
  unfold SearchInv.admitted in A. rewrite Forall_forall in A.
  destruct (A opp Hin) as (V & _).
  split; [now exists opp |].
  apply valid_inv in V. apply V.
Qed.

(** One search, one reply: what is pending before and after. *)
Lemma pending_step
    (keywords_arg : option (list string)) (max_per_keyword : Z)
    (st : Monitor.State) (w : World) (tid : string) :
  (forall o, In o (Monitor.get_pending_opportunities st)
             <-> In o (Monitor.opportunities st)
                 /\ ~ In (Monitor.o_tweet_id o) (Monitor.replied_tweets st))
  /\ (forall found st' w',
        search_opportunities keywords_arg max_per_keyword st w = (found, st', w') ->
        forall o, In o (Monitor.opportunities st') ->
          (exists opp, o = Monitor.to_dict opp
                       /\ fst (Monitor._is_valid_opportunity cfg st
                                 (Monitor.tweet opp)) = true)
          /\ mem (lower (Monitor.o_author o))
                 (map lower (Monitor.blacklist cfg)) = false)
  /\ (forall found st' w',
        search_opportunities keywords_arg max_per_keyword st w = (found, st', w') ->
        forall o, In o (Monitor.get_pending_opportunities st') ->
          (exists opp, o = Monitor.to_dict opp
                       /\ fst (Monitor._is_valid_opportunity cfg st
                                 (Monitor.tweet opp)) = true)
          /\ mem (lower (Monitor.o_author o))
                 (map lower (Monitor.blacklist cfg)) = false)
  /\ (forall o, In o (Monitor.get_pending_opportunities (Monitor.mark_replied st tid)) ->
                Monitor.o_tweet_id o <> tid).
Proof.
  split; [apply pending_iff |].
  split; [intros found st' w' E o Ho; now apply (stored_after_search _ _ _ _ _ _ _ E) |].
  split.
  - intros found st' w' E o Ho. apply pending_iff in Ho.
    now apply (stored_after_search _ _ _ _ _ _ _ E).
  - intros o Ho E. apply pending_iff in Ho. destruct Ho as (_ & Hn).
    apply Hn. rewrite E. apply mark_replied_has_id.
Qed.

(** C4, as the code has it: [mark_replied] keeps the store, cut to its
    last 50 entries by the save, so a store of at most 50 is unchanged,
    the entry whose id is marked included; a search replaces the store by
    the last 50 of the opportunities it returns and reads nothing of what
    was stored before. *)
Theorem store_kept_by_reply_replaced_by_search
    (keywords_arg : option (list string)) (max_per_keyword : Z)
    (st : Monitor.State) (w : World) (tid : string)
    (old : list Monitor.StoredOpportunity) :
  Monitor.opportunities (Monitor.mark_replied st tid)
  = lastn 50 (Monitor.opportunities st)
  /\ ((List.length (Monitor.opportunities st) <= 50)%nat ->
      Monitor.opportunities (Monitor.mark_replied st tid) = Monitor.opportunities st)
  /\ Monitor.opportunities
       (snd (fst (search_opportunities keywords_arg max_per_keyword st w)))
     = lastn 50 (map Monitor.to_dict
                   (fst (fst (search_opportunities keywords_arg max_per_keyword st w))))
  /\ search_opportunities keywords_arg max_per_keyword
       (Monitor.set_opportunities st old) w
     = search_opportunities keywords_arg max_per_keyword st w.
Proof.
  split; [reflexivity |].
  split; [intros H; cbn [Monitor.mark_replied Monitor._save_state Monitor.opportunities];
          now apply lastn_all |].
  split; [| apply search_ignores_store].
  pose proof (search_result keywords_arg max_per_keyword st w) as R.
  destruct (search_opportunities keywords_arg max_per_keyword st w)
    as [[found st'] w'].
  apply R.
Qed.

End Store.

(** Over a whole run no opportunity of a blacklisted author is ever in the
    store. *)
Lemma blacklisted_never_stored (World : Type)
    (search_recent : string -> Z -> Z -> Z -> World -> outcome (list Tweet) * World)
    (generate_reply : string -> string -> World -> outcome string * World)
    (cfg : Monitor.Config) (st : Monitor.State) :
  SearchInv.reachable World search_recent generate_reply cfg st ->
  forall o, In o (Monitor.opportunities st) ->
    mem (lower (Monitor.o_author o)) (map lower (Monitor.blacklist cfg)) = false.
Proof.
  induction 1 as [| st now kws m w found st' w' R IH E | st tid R IH]; intros o Ho.
  - destruct Ho.
  - eapply stored_after_search; eassumption.
  - apply IH. eapply In_lastn. exact Ho.
Qed.

(** C9: the pending opportunities are exactly the stored ones whose tweet
    id is not in the replied list; what a search stores, and so what is
    pending after it, comes from tweets the filter admitted on the state the
    search started from, never from a blacklisted author, and over a whole
    run of searches and replies no opportunity of a blacklisted author is
    ever pending; once [mark_replied] has run for an id no pending
    opportunity has that id. *)
Theorem pending_opportunities_exact (World : Type)
    (search_recent : string -> Z -> Z -> Z -> World -> outcome (list Tweet) * World)
    (generate_reply : string -> string -> World -> outcome string * World)
    (cfg : Monitor.Config) (now : string)
    (keywords_arg : option (list string)) (max_per_keyword : Z)
    (st : Monitor.State) (w : World) (tid : string) :
  (forall o, In o (Monitor.get_pending_opportunities st)
             <-> In o (Monitor.opportunities st)
                 /\ ~ In (Monitor.o_tweet_id o) (Monitor.replied_tweets st))
  /\ (forall found st' w',
        Monitor.search_opportunities World search_recent generate_reply cfg now
          keywords_arg max_per_keyword st w = (found, st', w') ->
        forall o, In o (Monitor.opportunities st') ->
          (exists opp, o = Monitor.to_dict opp
                       /\ fst (Monitor._is_valid_opportunity cfg st
                                 (Monitor.tweet opp)) = true)
          /\ mem (lower (Monitor.o_author o))
                 (map lower (Monitor.blacklist cfg)) = false)
  /\ (forall found st' w',
        Monitor.search_opportunities World search_recent generate_reply cfg now
          keywords_arg max_per_keyword st w = (found, st', w') ->
        forall o, In o (Monitor.get_pending_opportunities st') ->
          (exists opp, o = Monitor.to_dict opp
                       /\ fst (Monitor._is_valid_opportunity cfg st
                                 (Monitor.tweet opp)) = true)
          /\ mem (lower (Monitor.o_author o))
                 (map lower (Monitor.blacklist cfg)) = false)
  /\ (SearchInv.reachable World search_recent generate_reply cfg st ->
      forall o, In o (Monitor.get_pending_opportunities st) ->
        mem (lower (Monitor.o_author o)) (map lower (Monitor.blacklist cfg)) = false)
  /\ (forall o, In o (Monitor.get_pending_opportunities (Monitor.mark_replied st tid)) ->
                Monitor.o_tweet_id o <> tid).
Proof.
  destruct (pending_step World search_recent generate_reply cfg now
              keywords_arg max_per_keyword st w tid) as (H1 & H2 & H3 & H4).
  split; [exact H1 |]. split; [exact H2 |]. split; [exact H3 |].
  split; [| exact H4].
  intros R o Ho.
  apply (blacklisted_never_stored World search_recent generate_reply cfg st R).
  now apply H1.
Qed.

Lemma pending_opportunities_exact_witness :
  In Sample.stored_asker
     (Monitor.get_pending_opportunities
        (snd (fst (Monitor.search_opportunities unit Sample.mixed_search
                     Sample.canned_reply Sample.monitor_cfg Sample.noon_text
                     None 5 Monitor.initial_state tt))))
  /\ mem (lower (Monitor.o_author Sample.stored_asker))
         (map lower (Monitor.blacklist Sample.monitor_cfg)) = false.
Proof.
  assert (Hin : In Sample.stored_asker
                  (Monitor.get_pending_opportunities
                     (snd (fst (Monitor.search_opportunities unit Sample.mixed_search
                                  Sample.canned_reply Sample.monitor_cfg
                                  Sample.noon_text None 5 Monitor.initial_state tt))))).
  { left. reflexivity. }
  split; [exact Hin |].
  destruct (pending_opportunities_exact unit Sample.mixed_search Sample.canned_reply
              Sample.monitor_cfg Sample.noon_text None 5 Monitor.initial_state tt "7")
    as (_ & _ & Hpending & _).
  eapply Hpending; [reflexivity | exact Hin].
Defined.

Lemma store_kept_by_reply_replaced_by_search_witness :
  Monitor.opportunities (Monitor.mark_replied Sample.one_stored "7")
  = Monitor.opportunities Sample.one_stored.
Proof.
  apply (proj1 (proj2 (store_kept_by_reply_replaced_by_search unit
                         Sample.quiet_search Sample.canned_reply Sample.monitor_cfg
                         Sample.noon_text None 5 Sample.one_stored tt "7" []))).
  cbn. lia.
Defined.

(** C4 as stated fails: a search that finds nothing empties the store; the
    opportunity that was stored has not been replied to, and one entry is
    within the retention bound. *)
Lemma search_drops_stored_opportunity :
  In Sample.stored_asker (Monitor.opportunities Sample.one_stored)
  /\ (List.length (Monitor.opportunities Sample.one_stored) <= 50)%nat
  /\ Monitor.opportunities
       (snd (fst (Monitor.search_opportunities unit Sample.quiet_search
                    Sample.canned_reply Sample.monitor_cfg Sample.noon_text
                    None 5 Sample.one_stored tt))) = []
  /\ Monitor.replied_tweets
       (snd (fst (Monitor.search_opportunities unit Sample.quiet_search
                    Sample.canned_reply Sample.monitor_cfg Sample.noon_text
                    None 5 Sample.one_stored tt))) = [].
Proof.
  split; [left; reflexivity |]. split; [cbn; lia |]. split; reflexivity.
Qed.

(** ** Retention *)

(** Every save of the monitor leaves at most 500 seen ids, 200 replied ids
    and 50 opportunities, each list being the end of what it was. *)
Lemma save_state_bounds (st : Monitor.State) :
  (List.length (Monitor.seen_tweets (Monitor._save_state st)) <= 500)%nat
  /\ (List.length (Monitor.replied_tweets (Monitor._save_state st)) <= 200)%nat
  /\ (List.length (Monitor.opportunities (Monitor._save_state st)) <= 50)%nat
  /\ (exists evicted, Monitor.seen_tweets st
                      = (evicted ++ Monitor.seen_tweets (Monitor._save_state st))%list)
  /\ (exists evicted, Monitor.replied_tweets st
                      = (evicted ++ Monitor.replied_tweets (Monitor._save_state st))%list)
  /\ (exists evicted, Monitor.opportunities st
                      = (evicted ++ Monitor.opportunities (Monitor._save_state st))%list).
Proof.
  cbn [Monitor._save_state Monitor.seen_tweets Monitor.replied_tweets
         Monitor.opportunities].
  rewrite !length_lastn.
  repeat split; try lia.
  - destruct (lastn_suffix 500 (Monitor.seen_tweets st)) as (e & E & _); eauto.
  - destruct (lastn_suffix 200 (Monitor.replied_tweets st)) as (e & E & _); eauto.
  - destruct (lastn_suffix 50 (Monitor.opportunities st)) as (e & E & _); eauto.
Qed.

(** A 501st seen id pushes out the oldest one and stays itself. *)
Lemma seen_501 (oldest newest : string) (between : list string) (st : Monitor.State) :
  Monitor.seen_tweets st = oldest :: between ->
  List.length between = 499%nat ->
  Monitor.seen_tweets (Monitor._save_state (Monitor.mark_seen st newest))
  = (between ++ [newest])%list.
Proof.
  intros E L. cbn [Monitor._save_state Monitor.mark_seen Monitor.seen_tweets].
  rewrite E. rewrite (lastn_snoc 499). f_equal.
  unfold lastn. cbn [List.length]. rewrite L. reflexivity.
Qed.

(** A successful post leaves at most 100 history entries, the last of them
    the new one. *)
Lemma record_post_history (st : Poster.State) (now : Poster.Instant)
    (new_id tweet_text : string) (slug : option string) :
  Poster.history (Poster.record_post st now new_id tweet_text slug)
  = (lastn 99 (Poster.history st) ++ [Poster.mkEntry new_id tweet_text slug now])%list
  /\ (List.length (Poster.history (Poster.record_post st now new_id tweet_text slug))
      <= 100)%nat.
Proof.
  unfold Poster.record_post. cbn [Poster.history].
  rewrite (lastn_snoc 99). split; [reflexivity |].
  rewrite length_app, length_lastn. cbn [List.length]. lia.
Qed.

(** C7 on the store of opportunities: a search finds the 51 tweets of
    [Sample.burst], the last of them scoring highest.  The sort puts it
    first, the save keeps the last 50 of the sorted list: the opportunity
    found last is dropped and the 50 found before it are kept, the first
    one among them. *)
Lemma newest_opportunity_is_evicted :
  Monitor.seen_tweets (snd (fst Sample.burst_run)) = map id Sample.burst
  /\ List.length (fst (fst Sample.burst_run)) = 51%nat
  /\ map (fun o => id (Monitor.tweet o)) (firstn 2 (fst (fst Sample.burst_run)))
     = ["51"; "1"]
  /\ List.length (Monitor.opportunities (snd (fst Sample.burst_run))) = 50%nat
  /\ mem "51" (map Monitor.o_tweet_id
                 (Monitor.opportunities (snd (fst Sample.burst_run)))) = false
  /\ mem "1" (map Monitor.o_tweet_id
                (Monitor.opportunities (snd (fst Sample.burst_run)))) = true.
Proof. vm_compute. repeat split. Qed.

(** * Further properties of the code *)

(** ** The candidate filter, in full *)

Lemma filter_admits (cfg : Monitor.Config) (st : Monitor.State) (t : Tweet) :
  mem (id t) (Monitor.seen_tweets st) = false ->
  mem (id t) (Monitor.replied_tweets st) = false ->
  mem (lower (author_username t)) (map lower (Monitor.blacklist cfg)) = false ->
  Monitor.min_followers cfg <= author_followers t ->
  Monitor.min_likes cfg <= like_count t ->
  Monitor.min_retweets cfg <= retweet_count t ->
  Monitor._is_valid_opportunity cfg st t = (true, "OK").
Proof.
  intros Hs Hr Hb Hf Hl Ht.
  unfold Monitor._is_valid_opportunity. rewrite Hs, Hr, Hb.
  destruct (Z.ltb_spec (author_followers t) (Monitor.min_followers cfg)); [lia |].
  destruct (Z.ltb_spec (like_count t) (Monitor.min_likes cfg)); [lia |].
  destruct (Z.ltb_spec (retweet_count t) (Monitor.min_retweets cfg)); [lia |].
  reflexivity.
Qed.

(** X1: the filter admits a tweet exactly when its id is in neither list,
    its author is not blacklisted (letter case apart) and the followers,
    the likes and the retweets reach their minimums. *)
Theorem filter_admits_iff (cfg : Monitor.Config) (st : Monitor.State) (t : Tweet) :
  Monitor._is_valid_opportunity cfg st t = (true, "OK")
  <-> (~ In (id t) (Monitor.seen_tweets st)
       /\ ~ In (id t) (Monitor.replied_tweets st)
       /\ ~ In (lower (author_username t)) (map lower (Monitor.blacklist cfg))
       /\ Monitor.min_followers cfg <= author_followers t
       /\ Monitor.min_likes cfg <= like_count t
       /\ Monitor.min_retweets cfg <= retweet_count t).
Proof.
  rewrite <- !mem_false. split.
  - intros E. apply valid_inv. now rewrite E.
  - intros (Hs & Hr & Hb & Hf & Hl & Ht). now apply filter_admits.
Qed.

(** X2: an author is blacklisted whatever the letter case of the handle and
    of the blacklist entry; for a tweet that is new, the reason is
    "Blacklisted author" whatever its engagement. *)
Theorem blacklist_ignores_case (cfg : Monitor.Config) (st : Monitor.State)
    (t : Tweet) (b : string) :
  In b (Monitor.blacklist cfg) ->
  lower (author_username t) = lower b ->
  ~ In (id t) (Monitor.seen_tweets st) ->
  ~ In (id t) (Monitor.replied_tweets st) ->
  Monitor._is_valid_opportunity cfg st t = (false, "Blacklisted author").
Proof.
  intros Hb Hl Hs Hr. apply mem_false in Hs, Hr.
  unfold Monitor._is_valid_opportunity. rewrite Hs, Hr.
  assert (Hm : mem (lower (author_username t)) (map lower (Monitor.blacklist cfg)) = true).
  { apply mem_In. rewrite Hl. now apply in_map. }
  now rewrite Hm.
Qed.

Lemma blacklist_ignores_case_witness :
  Monitor._is_valid_opportunity Sample.monitor_cfg Monitor.initial_state Sample.spam
  = (false, "Blacklisted author").
Proof.
  apply (blacklist_ignores_case Sample.monitor_cfg Monitor.initial_state
           Sample.spam "spambot").
  - cbn. auto.
  - reflexivity.
  - cbn. tauto.
  - cbn. tauto.
Defined.

(** X3: for a new tweet of an author who is not blacklisted the three
    thresholds are tested in the order followers, likes, retweets, and the
    reason names the first count that is too low, with its value. *)
Theorem filter_threshold_order (cfg : Monitor.Config) (st : Monitor.State) (t : Tweet) :
  ~ In (id t) (Monitor.seen_tweets st) ->
  ~ In (id t) (Monitor.replied_tweets st) ->
  ~ In (lower (author_username t)) (map lower (Monitor.blacklist cfg)) ->
  (author_followers t < Monitor.min_followers cfg ->
   Monitor._is_valid_opportunity cfg st t
   = (false, "Too few followers (" ++ str_of_Z (author_followers t) ++ ")"))
  /\ (Monitor.min_followers cfg <= author_followers t ->
      like_count t < Monitor.min_likes cfg ->
      Monitor._is_valid_opportunity cfg st t
      = (false, "Too few likes (" ++ str_of_Z (like_count t) ++ ")"))
  /\ (Monitor.min_followers cfg <= author_followers t ->
      Monitor.min_likes cfg <= like_count t ->
      retweet_count t < Monitor.min_retweets cfg ->
      Monitor._is_valid_opportunity cfg st t
      = (false, "Too few retweets (" ++ str_of_Z (retweet_count t) ++ ")")).
Proof.
  intros Hs Hr Hb. apply mem_false in Hs, Hr, Hb.
  unfold Monitor._is_valid_opportunity. rewrite Hs, Hr, Hb.
  repeat split; intros;
    repeat match goal with
      | |- context [?a <? ?b] => destruct (Z.ltb_spec a b); try lia
      end; reflexivity.
Qed.

Lemma filter_threshold_order_witness :
  Monitor._is_valid_opportunity Sample.monitor_cfg Monitor.initial_state
    (with_like_count (with_author_followers Sample.asker 3) 0)
  = (false, "Too few followers (3)").
Proof.
  apply (filter_threshold_order Sample.monitor_cfg Monitor.initial_state
           (with_like_count (with_author_followers Sample.asker 3) 0)).
  - cbn. tauto.
  - cbn. tauto.
  - cbn. intros [H | []]. discriminate H.
  - cbn. lia.
Defined.

(** ** Keyword resolution *)

Lemma prefix_refl (s : string) : String.prefix s s = true.
Proof.
  induction s as [| c r IH]; [reflexivity |].
  cbn. destruct (ascii_dec c c); [exact IH | congruence].
Qed.

Lemma str_in_refl (s : string) : str_in s s = true.
Proof. destruct s; cbn [str_in]; now rewrite prefix_refl. Qed.

Lemma str_in_empty (s : string) : str_in "" s = true.
Proof. destruct s; reflexivity. Qed.

(** X4: every keyword of [KEYWORD_CALCULATOR_MAP] resolves to the
    calculator the map gives it, in whatever letter case it is written. *)
Theorem map_keywords_resolve (kw calc keyword : string) :
  In (kw, calc) Monitor.KEYWORD_CALCULATOR_MAP ->
  lower keyword = kw ->
  Monitor._get_calculator_for_keyword keyword = Some calc.
Proof.
  intros Hin Hl. unfold Monitor._get_calculator_for_keyword. rewrite Hl.
  unfold Monitor.KEYWORD_CALCULATOR_MAP in Hin. cbn [In] in Hin.
  repeat (destruct Hin as [Hin | Hin];
          [injection Hin as <- <-; reflexivity |]).
  destruct Hin.
Qed.

Lemma map_keywords_resolve_witness :
  Monitor._get_calculator_for_keyword "Mortgage CALCULATOR"
  = Some "mortgage-calculator".
Proof.
  apply (map_keywords_resolve "mortgage calculator" "mortgage-calculator"
           "Mortgage CALCULATOR").
  - cbn. tauto.
  - reflexivity.
Defined.

(** X5: a keyword resolves only to a calculator of the map, through an
    entry one of whose sides contains the other (lower-cased); it resolves
    to nothing exactly when no entry is so related to it.  The empty
    keyword is contained in every entry and resolves to the first one. *)
Theorem resolution_sound_and_complete (keyword : string) :
  (forall calc, Monitor._get_calculator_for_keyword keyword = Some calc ->
     exists kw, In (kw, calc) Monitor.KEYWORD_CALCULATOR_MAP
                /\ (str_in kw (lower keyword) = true
                    \/ str_in (lower keyword) kw = true))
  /\ (Monitor._get_calculator_for_keyword keyword = None
      <-> forall kw calc, In (kw, calc) Monitor.KEYWORD_CALCULATOR_MAP ->
            str_in kw (lower keyword) = false
            /\ str_in (lower keyword) kw = false)
  /\ (keyword = "" ->
      Monitor._get_calculator_for_keyword keyword = Some "fire-calculator").
Proof.
  unfold Monitor._get_calculator_for_keyword.
  set (exact := fun e : string * string => String.eqb (fst e) (lower keyword)).
  set (partial := fun e : string * string =>
                    (str_in (fst e) (lower keyword) || str_in (lower keyword) (fst e))%bool).
  split; [| split].
  - intros calc.
    destruct (find exact Monitor.KEYWORD_CALCULATOR_MAP) as [[kw c] |] eqn:Ee.
    + intros E. injection E as <-. apply find_some in Ee.
      destruct Ee as (Hin & Heq). unfold exact in Heq. cbn [fst snd] in *.
      apply String.eqb_eq in Heq. exists kw. split; [exact Hin |].
      left. rewrite Heq. apply str_in_refl.
    + destruct (find partial Monitor.KEYWORD_CALCULATOR_MAP) as [[kw c] |] eqn:Ep;
        [| discriminate].
      intros E. injection E as <-. apply find_some in Ep.
      destruct Ep as (Hin & Hp). unfold partial in Hp. cbn [fst snd] in *.
      apply orb_true_iff in Hp. now exists kw.
  - split.
    + destruct (find exact Monitor.KEYWORD_CALCULATOR_MAP) as [[kw c] |];
        [discriminate |].
      destruct (find partial Monitor.KEYWORD_CALCULATOR_MAP) as [[kw c] |] eqn:Ep;
        [discriminate |].
      intros _ kw calc Hin.
      pose proof (find_none _ _ Ep _ Hin) as Hn. unfold partial in Hn.
      cbn [fst] in Hn. now apply orb_false_iff in Hn.
    + intros Hall.
      destruct (find exact Monitor.KEYWORD_CALCULATOR_MAP) as [[kw c] |] eqn:Ee.
      * apply find_some in Ee. destruct Ee as (Hin & Heq).
        unfold exact in Heq. cbn [fst] in Heq. apply String.eqb_eq in Heq.
        destruct (Hall kw c Hin) as (H1 & _).
        rewrite Heq, str_in_refl in H1. discriminate H1.
      * destruct (find partial Monitor.KEYWORD_CALCULATOR_MAP) as [[kw c] |] eqn:Ep;
          [| reflexivity].
        apply find_some in Ep. destruct Ep as (Hin & Hp).
        unfold partial in Hp. cbn [fst] in Hp.
        destruct (Hall kw c Hin) as (H1 & H2). rewrite H1, H2 in Hp.
        discriminate Hp.
  - intros ->. reflexivity.
Qed.

Lemma resolution_sound_and_complete_witness :
  exists kw, In (kw, "mortgage-calculator") Monitor.KEYWORD_CALCULATOR_MAP
             /\ (str_in kw (lower "Best home LOAN rates") = true
                 \/ str_in (lower "Best home LOAN rates") kw = true).
Proof.
  apply (proj1 (resolution_sound_and_complete "Best home LOAN rates")).
  reflexivity.
Defined.

(** ** Saturation of the score *)

Lemma relevance_le_same_text (t t' : Tweet) (k : string) :
  text t' = text t ->
  ((if 0 <? like_count t
    then Qmin (1#10) (inject_Z (like_count t) * (1#100)) else 0)
   <= (if 0 <? like_count t'
       then Qmin (1#10) (inject_Z (like_count t') * (1#100)) else 0))%Q ->
  ((if 0 <? reply_count t
    then Qmin (1#10) (inject_Z (reply_count t) * (2#100)) else 0)
   <= (if 0 <? reply_count t'
       then Qmin (1#10) (inject_Z (reply_count t') * (2#100)) else 0))%Q ->
  ((if 1000 <? author_followers t then 1#10 else 0)
   <= (if 1000 <? author_followers t' then 1#10 else 0))%Q ->
  ((if 10000 <? author_followers t then 1#10 else 0)
   <= (if 10000 <? author_followers t' then 1#10 else 0))%Q ->
  (Monitor._calculate_relevance t k <= Monitor._calculate_relevance t' k)%Q.
Proof.
  intros Ht Hl Hr Hf1 Hf2. unfold Monitor._calculate_relevance. cbv zeta.
  rewrite Ht. apply Q.min_le_compat_l.
  apply add_if_mono; [| apply flag_bonus_refl].
  apply add_if_mono; [| exact Hf2].
  apply add_if_mono; [| exact Hf1].
  apply add_if_mono; [| exact Hr].
  apply add_if_mono; [| exact Hl].
  apply add_if_mono; [apply Qle_refl | apply flag_bonus_refl].
Qed.

Lemma capped_bonus_saturated (n cap : Z) (rate : Q) :
  0 < cap -> cap <= n -> (0 <= rate)%Q -> (1#10 <= inject_Z cap * rate)%Q ->
  ((if 0 <? n then Qmin (1#10) (inject_Z n * rate) else 0)
   <= (if 0 <? cap then Qmin (1#10) (inject_Z cap * rate) else 0))%Q.
Proof.
  intros Hc Hn Hr Hcap.
  destruct (Z.ltb_spec 0 n), (Z.ltb_spec 0 cap); try lia.
  apply Q.min_glb; [apply Q.le_min_l |].
  eapply Qle_trans; [apply Q.le_min_l | exact Hcap].
Qed.

(** X6: the engagement bonuses saturate: beyond 10 likes, beyond 5 replies
    and beyond 10001 followers a further increase leaves the score where it
    is. *)
Theorem relevance_saturates (t : Tweet) (k : string) (n : Z) :
  (10 <= n ->
   (Monitor._calculate_relevance (with_like_count t n) k
    == Monitor._calculate_relevance (with_like_count t 10) k)%Q)
  /\ (5 <= n ->
      (Monitor._calculate_relevance (with_reply_count t n) k
       == Monitor._calculate_relevance (with_reply_count t 5) k)%Q)
  /\ (10001 <= n ->
      (Monitor._calculate_relevance (with_author_followers t n) k
       == Monitor._calculate_relevance (with_author_followers t 10001) k)%Q).
Proof.
  repeat split; intros Hn; apply Qle_antisym;
    try (apply relevance_mono; cbn; (reflexivity || lia)).
  - apply relevance_le_same_text; cbn [like_count reply_count author_followers
                                        text with_like_count];
      try reflexivity; try apply flag_bonus_refl; try apply Qle_refl.
    apply capped_bonus_saturated; try lia; try lra. unfold Qle. cbn. lia.
  - apply relevance_le_same_text; cbn [like_count reply_count author_followers
                                        text with_reply_count];
      try reflexivity; try apply flag_bonus_refl; try apply Qle_refl.
    apply capped_bonus_saturated; try lia; try lra. unfold Qle. cbn. lia.
  - apply relevance_le_same_text; cbn [like_count reply_count author_followers
                                        text with_author_followers];
      try reflexivity; try apply flag_bonus_refl; try apply Qle_refl.
    + destruct (Z.ltb_spec 1000 n); [cbn; lra | lia].
    + destruct (Z.ltb_spec 10000 n); [cbn; lra | lia].
Qed.

Lemma relevance_saturates_witness :
  (Monitor._calculate_relevance (with_like_count Sample.asker 5000) "tip calculator"
   == Monitor._calculate_relevance (with_like_count Sample.asker 10) "tip calculator")%Q.
Proof.
  apply (proj1 (relevance_saturates Sample.asker "tip calculator" 5000)). lia.
Defined.

(** ** What a search returns *)

Lemma NoDup_app_disjoint {A} (l1 l2 : list A) :
  NoDup (l1 ++ l2) -> forall x, In x l1 -> ~ In x l2.
Proof.
  induction l1 as [| a r IH]; cbn; intros N x Hx; [destruct Hx |].
  inversion N as [| ? ? Ha Nr]; subst. destruct Hx as [-> | Hx].
  - intros H2. apply Ha. apply in_or_app. now right.
  - now apply IH.
Qed.

Lemma sort_by_score_filter (l : list Monitor.Opportunity) (q : Q) :
  filter (fun o => Qeq_bool (Monitor.relevance_score o) q) (Monitor.sort_by_score l)
  = filter (fun o => Qeq_bool (Monitor.relevance_score o) q) l.
Proof.
  set (p := fun o => Qeq_bool (Monitor.relevance_score o) q).
  assert (Hins : forall o r,
            filter p (Monitor.insert_by_score o r) = filter p (o :: r)).
  { intros o r. induction r as [| x r IH]; [reflexivity |].
    cbn [Monitor.insert_by_score].
    destruct (Qle_bool (Monitor.relevance_score x) (Monitor.relevance_score o)) eqn:E;
      [reflexivity |].
    cbn [filter] in *. rewrite IH.
    destruct (p o) eqn:Po; [| reflexivity].
    destruct (p x) eqn:Px; [| reflexivity].
    unfold p in Po, Px. apply Qeq_bool_iff in Po, Px.
    assert (C : Qle_bool (Monitor.relevance_score x) (Monitor.relevance_score o) = true).
    { apply Qle_bool_iff. rewrite Po, Px. apply Qle_refl. }
    congruence. }
  induction l as [| o r IH]; [reflexivity |].
  cbn [Monitor.sort_by_score]. rewrite Hins. cbn [filter]. now rewrite IH.
Qed.

(** X7: the sort of the opportunities orders them by decreasing score,
    loses and adds none, and is stable: the opportunities of one score stay
    in the order they had (as Python's sort does, also with
    [reverse=True]). *)
Theorem sort_by_score_stable (l : list Monitor.Opportunity) :
  StronglySorted
    (fun a b => (Monitor.relevance_score b <= Monitor.relevance_score a)%Q)
    (Monitor.sort_by_score l)
  /\ Permutation l (Monitor.sort_by_score l)
  /\ (forall q : Q,
        filter (fun o => Qeq_bool (Monitor.relevance_score o) q)
               (Monitor.sort_by_score l)
        = filter (fun o => Qeq_bool (Monitor.relevance_score o) q) l).
Proof.
  split; [apply sort_by_score_sorted |].
  split; [apply sort_by_score_perm |].
  intros q. apply sort_by_score_filter.
Qed.

Section SearchFacts.

Variable World : Type.
Variable search_recent :
  string -> Z -> Z -> Z -> World -> outcome (list Tweet) * World.
Variable generate_reply : string -> string -> World -> outcome string * World.
Variable cfg : Monitor.Config.
Variable now : string.

Local Abbreviation tid := (fun o : Monitor.Opportunity => id (Monitor.tweet o)).

(** The seen list is the one of the start followed by the ids of what was
    found, in the order of finding; no id was found twice and none was in
    the seen list of the start. *)
Lemma scan_tweets_order (seen0 : list string) (keyword calculator : string)
    (tweets : list Tweet) :
  forall st found w raised st' found' w',
    Monitor.scan_tweets World generate_reply cfg keyword calculator tweets st found w
    = (raised, st', found', w') ->
    Monitor.seen_tweets st = (seen0 ++ map tid found)%list ->
    NoDup (map tid found) ->
    (forall x, In x (map tid found) -> ~ In x seen0) ->
    Monitor.seen_tweets st' = (seen0 ++ map tid found')%list
    /\ NoDup (map tid found')
    /\ (forall x, In x (map tid found') -> ~ In x seen0)
    /\ (List.length found' <= List.length found + List.length tweets)%nat.
Proof.
  induction tweets as [| t rest IH];
    intros st found w raised st' found' w' E Hs Hn Hd.
  - injection E as <- <- <- <-. repeat split; trivial. lia.
  - cbn [Monitor.scan_tweets] in E.
    destruct (Monitor._is_valid_opportunity cfg st t) as [valid reason] eqn:V.
    destruct valid; cbn [negb] in E.
    + destruct (generate_reply (text t) calculator w) as [[reply | msg] w1].
      * assert (Hnew : ~ In (id t) (seen0 ++ map tid found)).
        { rewrite <- Hs.
          assert (Hv : fst (Monitor._is_valid_opportunity cfg st t) = true)
            by now rewrite V.
          apply valid_inv in Hv. destruct Hv as (Hm & _).
          now apply mem_false in Hm. }
        apply IH in E.
        -- destruct E as (E1 & E2 & E3 & E4). repeat split; trivial.
           rewrite length_app in E4. cbn [List.length] in *. lia.
        -- cbn [Monitor.mark_seen Monitor.seen_tweets]. rewrite Hs.
           rewrite map_app, app_assoc. reflexivity.
        -- rewrite map_app. cbn [map].
           apply NoDup_app; [exact Hn | |].
           ++ constructor; [intros [] | constructor].
           ++ intros x Hx [Hy | []]. subst x. apply Hnew.
              apply in_or_app. now right.
        -- rewrite map_app. cbn [map]. intros x Hx.
           apply in_app_or in Hx. destruct Hx as [Hx | [<- | []]].
           ++ now apply Hd.
           ++ intros H0. apply Hnew. apply in_or_app. now left.
      * injection E as <- <- <- <-. repeat split; trivial.
        cbn [List.length]. lia.
    + apply IH in E; trivial. destruct E as (E1 & E2 & E3 & E4).
      repeat split; trivial. cbn [List.length]. lia.
Qed.

Lemma length_slice_to {A} (m : Z) (l : list A) :
  0 <= m -> (List.length (slice_to m l) <= Z.to_nat m)%nat.
Proof.
  intros Hm. unfold slice_to. destruct (Z.ltb_spec m 0); [lia |].
  rewrite length_firstn. lia.
Qed.

Lemma scan_keywords_order (seen0 : list string) (max_per_keyword : Z)
    (kws : list string) :
  forall st found w st' found' w',
    Monitor.scan_keywords World search_recent generate_reply cfg now
      kws max_per_keyword st found w = (st', found', w') ->
    Monitor.seen_tweets st = (seen0 ++ map tid found)%list ->
    NoDup (map tid found) ->
    (forall x, In x (map tid found) -> ~ In x seen0) ->
    Monitor.seen_tweets st' = (seen0 ++ map tid found')%list
    /\ NoDup (map tid found')
    /\ (forall x, In x (map tid found') -> ~ In x seen0)
    /\ (0 <= max_per_keyword ->
        (List.length found'
         <= List.length found + List.length kws * Z.to_nat max_per_keyword)%nat).
Proof.
  induction kws as [| k rest IH]; intros st found w st' found' w' E Hs Hn Hd.
  - injection E as <- <- <-. repeat split; trivial. cbn. lia.
  - cbn [Monitor.scan_keywords] in E. cbn [List.length].
    assert (Hskip : forall w0,
              Monitor.scan_keywords World search_recent generate_reply cfg now
                rest max_per_keyword st found w0 = (st', found', w') ->
              Monitor.seen_tweets st' = (seen0 ++ map tid found')%list
              /\ NoDup (map tid found')
              /\ (forall x, In x (map tid found') -> ~ In x seen0)
              /\ (0 <= max_per_keyword ->
                  (List.length found'
                   <= List.length found
                      + S (List.length rest) * Z.to_nat max_per_keyword)%nat)).
    { intros w0 E0. apply IH in E0; trivial.
      destruct E0 as (E1 & E2 & E3 & E4). repeat split; trivial.
      intros Hm. specialize (E4 Hm). lia. }
    destruct (Monitor._get_calculator_for_keyword k) as [[| c0 c] |];
      [now apply Hskip in E | | now apply Hskip in E].
    destruct (search_recent k (max_per_keyword * 2) (Monitor.min_likes cfg)
                (Monitor.min_retweets cfg) w) as [[tweets | msg] w1];
      [| now apply Hskip in E].
    destruct (Monitor.scan_tweets World generate_reply cfg k (String c0 c)
                (slice_to max_per_keyword tweets) st found w1)
      as [[[raised st1] found1] w2] eqn:S.
    apply (scan_tweets_order seen0) in S; trivial.
    destruct S as (S1 & S2 & S3 & S4).
    destruct raised; apply IH in E; trivial;
      destruct E as (E1 & E2 & E3 & E4); repeat split; trivial;
      intros Hm; specialize (E4 Hm);
      pose proof (length_slice_to max_per_keyword tweets Hm) as Hl; lia.
Qed.

(** X8: no tweet is suggested twice: the ids of the opportunities a search
    returns are pairwise distinct and none of them was in the seen list
    when the search began.  The list returned is sorted by decreasing score
    and holds what was found, equal scores in the order of finding; after
    the search the seen list is the former one followed by the ids found in
    that order, cut to its last 500; and with a limit that is not negative
    at most [max_per_keyword] opportunities are found per keyword. *)
Theorem search_finds_each_tweet_once (keywords_arg : option (list string))
    (max_per_keyword : Z) (st : Monitor.State) (w : World) :
  exists discovered,
    Permutation discovered
      (fst (fst (Monitor.search_opportunities World search_recent generate_reply
                   cfg now keywords_arg max_per_keyword st w)))
    /\ StronglySorted
         (fun a b => (Monitor.relevance_score b <= Monitor.relevance_score a)%Q)
         (fst (fst (Monitor.search_opportunities World search_recent generate_reply
                      cfg now keywords_arg max_per_keyword st w)))
    /\ (forall q : Q,
          filter (fun o => Qeq_bool (Monitor.relevance_score o) q)
            (fst (fst (Monitor.search_opportunities World search_recent
                         generate_reply cfg now keywords_arg max_per_keyword st w)))
          = filter (fun o => Qeq_bool (Monitor.relevance_score o) q) discovered)
    /\ NoDup (map tid discovered)
    /\ (forall o, In o discovered -> ~ In (tid o) (Monitor.seen_tweets st))
    /\ Monitor.seen_tweets
         (snd (fst (Monitor.search_opportunities World search_recent generate_reply
                      cfg now keywords_arg max_per_keyword st w)))
       = lastn 500 (Monitor.seen_tweets st ++ map tid discovered)
    /\ (0 <= max_per_keyword ->
        (List.length discovered
         <= List.length (match keywords_arg with
                         | None | Some [] => Monitor.keywords cfg
                         | Some l => l
                         end) * Z.to_nat max_per_keyword)%nat).
Proof.
  unfold Monitor.search_opportunities.
  set (kws := match keywords_arg with
              | None | Some [] => Monitor.keywords cfg
              | Some l => l
              end).
  destruct (Monitor.scan_keywords World search_recent generate_reply cfg now kws
              max_per_keyword st [] w) as [[st1 found] w1] eqn:S.
  apply (scan_keywords_order (Monitor.seen_tweets st)) in S;
    [| cbn; now rewrite app_nil_r | constructor | intros x []].
  destruct S as (S1 & S2 & S3 & S4). cbn [fst snd].
  exists found. split; [apply sort_by_score_perm |].
  split; [apply sort_by_score_sorted |].
  split; [intros q; apply sort_by_score_filter |].
  split; [exact S2 |]. split.
  - intros o Ho. apply S3.
    change (In ((fun o0 => id (Monitor.tweet o0)) o)
               (map (fun o0 => id (Monitor.tweet o0)) found)).
    now apply in_map.
  - split; [cbn; now rewrite S1 |]. intros Hm. specialize (S4 Hm). cbn in S4. lia.
Qed.

End SearchFacts.


Lemma search_finds_each_tweet_once_witness :
  (List.length
     (fst (fst (Monitor.search_opportunities unit Sample.mixed_search
                  Sample.canned_reply Sample.monitor_cfg Sample.noon_text
                  None 5 Monitor.initial_state tt)))
   <= 1 * Z.to_nat 5)%nat.
Proof.
  destruct (search_finds_each_tweet_once unit Sample.mixed_search
              Sample.canned_reply Sample.monitor_cfg Sample.noon_text
              None 5 Monitor.initial_state tt)
    as (discovered & P & _ & _ & _ & _ & _ & L).
  assert (H5 : 0 <= 5) by (clear; lia).
  specialize (L H5).
  rewrite <- (Permutation_length P). exact L.
Defined.

(** ** Searches that find nothing *)

Section EmptySearches.

Variable World : Type.
Variable search_recent :
  string -> Z -> Z -> Z -> World -> outcome (list Tweet) * World.
Variable generate_reply : string -> string -> World -> outcome string * World.
Variable cfg : Monitor.Config.
Variable now : string.

Lemma scan_keywords_outage (max_per_keyword : Z) (kws : list string) :
  (forall q a b c w0, exists msg w1, search_recent q a b c w0 = (Raised msg, w1)) ->
  forall st found w,
    exists w',
      Monitor.scan_keywords World search_recent generate_reply cfg now
        kws max_per_keyword st found w = (st, found, w').
Proof.
  intros Hdown. induction kws as [| k rest IH]; intros st found w.
  - now exists w.
  - cbn [Monitor.scan_keywords].
    destruct (Monitor._get_calculator_for_keyword k) as [[| c0 c] |];
      [apply IH | | apply IH].
    destruct (Hdown k (max_per_keyword * 2) (Monitor.min_likes cfg)
                (Monitor.min_retweets cfg) w) as (msg & w1 & E).
    rewrite E. apply IH.
Qed.

(** X9: when every call of the network client raises, a search raises
    nothing: it returns the empty list, keeps the seen list, the replied
    list and the search times apart from the cut of the save, and stores
    no opportunity any more. *)
Theorem search_survives_outage (keywords_arg : option (list string))
    (max_per_keyword : Z) (st : Monitor.State) (w : World) :
  (forall q a b c w0, exists msg w1, search_recent q a b c w0 = (Raised msg, w1)) ->
  fst (fst (Monitor.search_opportunities World search_recent generate_reply cfg now
              keywords_arg max_per_keyword st w)) = []
  /\ snd (fst (Monitor.search_opportunities World search_recent generate_reply cfg
                 now keywords_arg max_per_keyword st w))
     = Monitor.mkState (lastn 500 (Monitor.seen_tweets st))
         (lastn 200 (Monitor.replied_tweets st)) (Monitor.last_search st) [].
Proof.
  intros Hdown. unfold Monitor.search_opportunities.
  set (kws := match keywords_arg with
              | None | Some [] => Monitor.keywords cfg
              | Some l => l
              end).
  destruct (scan_keywords_outage max_per_keyword kws Hdown st [] w) as (w' & E).
  rewrite E. split; reflexivity.
Qed.

Lemma scan_keywords_unmapped (max_per_keyword : Z) (kws : list string) :
  (forall k, In k kws -> Monitor._get_calculator_for_keyword k = None) ->
  forall st found w,
    Monitor.scan_keywords World search_recent generate_reply cfg now
      kws max_per_keyword st found w = (st, found, w).
Proof.
  induction kws as [| k rest IH]; intros Hnone st found w; [reflexivity |].
  cbn [Monitor.scan_keywords]. rewrite (Hnone k (or_introl eq_refl)).
  apply IH. intros k' Hk'. apply Hnone. now right.
Qed.

(** X10: a keyword that resolves to no calculator is never sent to the
    network: when none of the keywords resolves, the search returns the
    empty list with the world as it was, and stores no opportunity. *)
Theorem unmapped_keywords_are_not_searched (keywords_arg : option (list string))
    (max_per_keyword : Z) (st : Monitor.State) (w : World) :
  (forall k, In k (match keywords_arg with
                   | None | Some [] => Monitor.keywords cfg
                   | Some l => l
                   end) ->
             Monitor._get_calculator_for_keyword k = None) ->
  Monitor.search_opportunities World search_recent generate_reply cfg now
    keywords_arg max_per_keyword st w
  = ([], Monitor.mkState (lastn 500 (Monitor.seen_tweets st))
           (lastn 200 (Monitor.replied_tweets st)) (Monitor.last_search st) [],
     w).
Proof.
  intros Hnone. unfold Monitor.search_opportunities.
  rewrite (scan_keywords_unmapped max_per_keyword _ Hnone). reflexivity.
Qed.

End EmptySearches.

Lemma search_survives_outage_witness :
  fst (fst (Monitor.search_opportunities unit Sample.down_search Sample.canned_reply
              Sample.monitor_cfg Sample.noon_text None 5 Sample.one_stored tt)) = []
  /\ snd (fst (Monitor.search_opportunities unit Sample.down_search
                 Sample.canned_reply Sample.monitor_cfg Sample.noon_text None 5
                 Sample.one_stored tt))
     = Monitor.mkState (lastn 500 (Monitor.seen_tweets Sample.one_stored))
         (lastn 200 (Monitor.replied_tweets Sample.one_stored))
         (Monitor.last_search Sample.one_stored) [].
Proof.
  apply (search_survives_outage unit Sample.down_search Sample.canned_reply
           Sample.monitor_cfg Sample.noon_text None 5 Sample.one_stored tt).
  intros q a b c w0. exists "503 Service Unavailable", w0. reflexivity.
Defined.

Lemma unmapped_keywords_are_not_searched_witness :
  Monitor.search_opportunities unit Sample.mixed_search Sample.canned_reply
    Sample.monitor_cfg Sample.noon_text (Some ["weather"; "football"]) 5
    Sample.one_stored tt
  = ([], Monitor.mkState (lastn 500 (Monitor.seen_tweets Sample.one_stored))
           (lastn 200 (Monitor.replied_tweets Sample.one_stored))
           (Monitor.last_search Sample.one_stored) [],
     tt).
Proof.
  apply (unmapped_keywords_are_not_searched unit Sample.mixed_search
           Sample.canned_reply Sample.monitor_cfg Sample.noon_text
           (Some ["weather"; "football"]) 5 Sample.one_stored tt).
  intros k [<- | [<- | []]]; reflexivity.
Defined.

(** ** Replies and the pending list *)

Lemma mem_snoc (x t : string) (l : list string) :
  mem x (l ++ [t]) = (mem x l || String.eqb x t)%bool.
Proof.
  unfold mem. rewrite existsb_app. cbn. now rewrite orb_false_r.
Qed.

(** X11: while the replied list holds fewer than 200 ids and the store at
    most 50 opportunities, marking an id as replied removes from the
    pending list exactly the opportunities of that id and keeps the others
    in their order. *)
Theorem mark_replied_removes_from_pending (st : Monitor.State) (tid : string) :
  (List.length (Monitor.replied_tweets st) < 200)%nat ->
  (List.length (Monitor.opportunities st) <= 50)%nat ->
  Monitor.get_pending_opportunities (Monitor.mark_replied st tid)
  = filter (fun o => negb (String.eqb (Monitor.o_tweet_id o) tid))
           (Monitor.get_pending_opportunities st).
Proof.
  intros Hr Ho. unfold Monitor.get_pending_opportunities, Monitor.mark_replied,
    Monitor._save_state. cbn [Monitor.replied_tweets Monitor.opportunities].
  rewrite (lastn_all 50) by exact Ho.
  rewrite (lastn_all 200) by (rewrite length_app; cbn; lia).
  clear Ho.
  induction (Monitor.opportunities st) as [| o r IH]; [reflexivity |].
  cbn [filter]. rewrite mem_snoc.
  destruct (mem (Monitor.o_tweet_id o) (Monitor.replied_tweets st)); cbn [orb negb].
  - exact IH.
  - cbn [filter]. destruct (String.eqb (Monitor.o_tweet_id o) tid); cbn [negb].
    + exact IH.
    + f_equal. exact IH.
Qed.

Lemma mark_replied_removes_from_pending_witness :
  Monitor.get_pending_opportunities (Monitor.mark_replied Sample.one_stored "7")
  = filter (fun o => negb (String.eqb (Monitor.o_tweet_id o) "7"))
           (Monitor.get_pending_opportunities Sample.one_stored).
Proof.
  apply (mark_replied_removes_from_pending Sample.one_stored "7"); cbn; lia.
Defined.

(** X12: the replied list forgets: when it is full, marking one more id
    drops its oldest id, and an opportunity of that id that is still in the
    store, not pending before, is pending again. *)
Theorem replied_opportunity_resurfaces (st : Monitor.State) (tid oldest : string)
    (rest : list string) (o : Monitor.StoredOpportunity) :
  Monitor.replied_tweets st = oldest :: rest ->
  List.length rest = 199%nat ->
  ~ In oldest rest ->
  oldest <> tid ->
  In o (Monitor.opportunities st) ->
  (List.length (Monitor.opportunities st) <= 50)%nat ->
  Monitor.o_tweet_id o = oldest ->
  ~ In o (Monitor.get_pending_opportunities st)
  /\ In o (Monitor.get_pending_opportunities (Monitor.mark_replied st tid)).
Proof.
  intros Er Hl Hn Ht Hin Ho Hid. split.
  - intros Hp. apply filter_In in Hp. destruct Hp as (_ & Hp).
    apply negb_true_iff, mem_false in Hp. apply Hp.
    rewrite Er, Hid. now left.
  - unfold Monitor.get_pending_opportunities, Monitor.mark_replied,
      Monitor._save_state. cbn [Monitor.replied_tweets Monitor.opportunities].
    rewrite (lastn_all 50) by exact Ho.
    apply filter_In. split; [exact Hin |].
    apply negb_true_iff, mem_false.
    rewrite Er. change ((oldest :: rest) ++ [tid])%list
      with (oldest :: (rest ++ [tid]))%list.
    unfold lastn. cbn [List.length]. rewrite length_app, Hl. cbn [List.length].
    change (S (199 + 1) - 200)%nat with 1%nat. cbn [skipn].
    rewrite Hid. intros Hx. apply in_app_or in Hx.
    destruct Hx as [Hx | [Hx | []]]; [contradiction | congruence].
Qed.

Lemma replied_opportunity_resurfaces_witness :
  ~ In Sample.stored_asker (Monitor.get_pending_opportunities Sample.replied_full)
  /\ In Sample.stored_asker
        (Monitor.get_pending_opportunities
           (Monitor.mark_replied Sample.replied_full "51")).
Proof.
  apply (replied_opportunity_resurfaces Sample.replied_full "51" "7"
           (map (fun n => str_of_Z (Z.of_nat n)) (seq 1000 199))
           Sample.stored_asker).
  - reflexivity.
  - reflexivity.
  - apply mem_false. vm_compute. reflexivity.
  - discriminate.
  - left. reflexivity.
  - cbn. lia.
  - reflexivity.
Defined.

(** ** The monitor over a whole run *)

Lemma search_state_is_saved (World : Type)
    (search_recent : string -> Z -> Z -> Z -> World -> outcome (list Tweet) * World)
    (generate_reply : string -> string -> World -> outcome string * World)
    (cfg : Monitor.Config) (now : string) (keywords_arg : option (list string))
    (max_per_keyword : Z) (st : Monitor.State) (w : World) :
  exists st1,
    snd (fst (Monitor.search_opportunities World search_recent generate_reply cfg
                now keywords_arg max_per_keyword st w))
    = Monitor._save_state st1.
Proof.
  unfold Monitor.search_opportunities.
  destruct (Monitor.scan_keywords World search_recent generate_reply cfg now _
              max_per_keyword st [] w) as [[st1 found] w1].
  cbn [fst snd]. eexists. reflexivity.
Qed.

Lemma length_pending (st : Monitor.State) :
  (List.length (Monitor.get_pending_opportunities st)
   <= List.length (Monitor.opportunities st))%nat.
Proof. unfold Monitor.get_pending_opportunities. apply filter_length_le. Qed.

(** X13: from a first start, through any searches and replies, the monitor
    never holds more than 500 seen ids, 200 replied ids and 50
    opportunities, and [get_stats] never reports more: at most 500 tweets
    seen, 200 replied and 50 pending. *)
Theorem monitor_stays_bounded (World : Type)
    (search_recent : string -> Z -> Z -> Z -> World -> outcome (list Tweet) * World)
    (generate_reply : string -> string -> World -> outcome string * World)
    (cfg : Monitor.Config) (st : Monitor.State) :
  SearchInv.reachable World search_recent generate_reply cfg st ->
  (List.length (Monitor.seen_tweets st) <= 500)%nat
  /\ (List.length (Monitor.replied_tweets st) <= 200)%nat
  /\ (List.length (Monitor.opportunities st) <= 50)%nat
  /\ 0 <= Monitor.tweets_seen (Monitor.get_stats cfg st) <= 500
  /\ 0 <= Monitor.tweets_replied (Monitor.get_stats cfg st) <= 200
  /\ 0 <= Monitor.pending_opportunities (Monitor.get_stats cfg st) <= 50.
Proof.
  intros R.
  assert (B : (List.length (Monitor.seen_tweets st) <= 500)%nat
              /\ (List.length (Monitor.replied_tweets st) <= 200)%nat
              /\ (List.length (Monitor.opportunities st) <= 50)%nat).
  { destruct R as [| st now kws m w found st' w' R E | st tid R].
    - cbn. lia.
    - destruct (search_state_is_saved World search_recent generate_reply cfg now
                  kws m st w) as (st1 & S).
      rewrite E in S. cbn [fst snd] in S. rewrite S.
      pose proof (save_state_bounds st1). tauto.
    - unfold Monitor.mark_replied.
      pose proof (save_state_bounds
                    (Monitor.mkState (Monitor.seen_tweets st)
                       (Monitor.replied_tweets st ++ [tid])
                       (Monitor.last_search st) (Monitor.opportunities st))).
      tauto. }
  destruct B as (B1 & B2 & B3).
  pose proof (length_pending st).
  cbn [Monitor.get_stats Monitor.tweets_seen Monitor.tweets_replied
         Monitor.pending_opportunities].
  repeat split; lia.
Qed.

Lemma monitor_stays_bounded_witness :
  (List.length (Monitor.seen_tweets (snd (fst Sample.burst_run))) <= 500)%nat
  /\ (List.length (Monitor.replied_tweets (snd (fst Sample.burst_run))) <= 200)%nat
  /\ (List.length (Monitor.opportunities (snd (fst Sample.burst_run))) <= 50)%nat
  /\ 0 <= Monitor.tweets_seen
            (Monitor.get_stats Sample.monitor_cfg (snd (fst Sample.burst_run))) <= 500
  /\ 0 <= Monitor.tweets_replied
            (Monitor.get_stats Sample.monitor_cfg (snd (fst Sample.burst_run))) <= 200
  /\ 0 <= Monitor.pending_opportunities
            (Monitor.get_stats Sample.monitor_cfg (snd (fst Sample.burst_run))) <= 50.
Proof.
  apply (monitor_stays_bounded unit Sample.burst_search Sample.canned_reply
           Sample.monitor_cfg).
  eapply (SearchInv.reach_search unit Sample.burst_search Sample.canned_reply
            Sample.monitor_cfg Monitor.initial_state Sample.noon_text
            (Some ["tip calculator"]) 60 tt
            (fst (fst Sample.burst_run)) (snd (fst Sample.burst_run))
            (snd Sample.burst_run)).
  - constructor.
  - unfold Sample.burst_run.
    destruct (Monitor.search_opportunities unit Sample.burst_search
                Sample.canned_reply Sample.monitor_cfg Sample.noon_text
                (Some ["tip calculator"]) 60 Monitor.initial_state tt)
      as [[f s] u]. reflexivity.
Defined.

(** ** The poster: status, success and spacing *)

Lemma reset_idem (st : Poster.State) (now : Poster.Instant) :
  Poster._reset_daily_counters (Poster._reset_daily_counters st now) now
  = Poster._reset_daily_counters st now.
Proof.
  apply reset_same_day. unfold Poster._reset_daily_counters.
  destruct (Poster.today_date st) as [d |] eqn:Ed; [| reflexivity].
  destruct (String.eqb_spec d (Poster.date now)) as [-> | Hne]; [| reflexivity].
  exact Ed.
Qed.

Lemma can_post_after_reset (cfg : Poster.Config) (st : Poster.State)
    (now : Poster.Instant) :
  Poster.can_post cfg (Poster._reset_daily_counters st now) now
  = Poster.can_post cfg st now.
Proof. unfold Poster.can_post. now rewrite reset_idem. Qed.

Lemma get_status_eq (cfg : Poster.Config) (st : Poster.State) (now : Poster.Instant) :
  Poster.get_status cfg st now
  = (Poster._reset_daily_counters st now,
     match snd (Poster.can_post cfg st now) with
     | Returned (ok, reason) =>
         Returned (Poster.mkStatus ok reason
                     (Poster.posts_today (Poster._reset_daily_counters st now))
                     (Poster.max_posts_per_day cfg)
                     (Poster.last_post_time (Poster._reset_daily_counters st now))
                     (Poster.posted_calculators
                        (Poster._reset_daily_counters st now)))
     | Raised msg => Raised msg
     end).
Proof.
  unfold Poster.get_status. cbv zeta. rewrite can_post_after_reset.
  rewrite (can_post_eta cfg) at 1.
  destruct (snd (Poster.can_post cfg st now)) as [[ok reason] | msg]; reflexivity.
Qed.

Section PosterFacts.

Variable World : Type.
Variable create_tweet : string -> option string -> World -> outcome string * World.
Variable generate_tweet : World -> outcome Generator.GeneratedTweet * World.
Variable _save_state : Poster.State -> World -> outcome unit * World.
Variable cfg : Poster.Config.

Local Abbreviation post_tweet :=
  (Poster.post_tweet World create_tweet generate_tweet _save_state cfg).
Local Abbreviation post_reply :=
  (Poster.post_reply World create_tweet _save_state cfg).

Lemma blocked_post (tweet : option Generator.GeneratedTweet) (text : option string)
    (st : Poster.State) (now : Poster.Instant) (w : World) (reason : string) :
  snd (Poster.can_post cfg st now) = Returned (false, reason) ->
  post_tweet tweet text false st now w
  = (Returned (Poster.Failure reason), Poster._reset_daily_counters st now, w).
Proof.
  intros Hb. unfold Poster.post_tweet. rewrite (check_quota_eta cfg), Hb. reflexivity.
Qed.

Lemma blocked_reply (reply_to_id text : string)
    (st : Poster.State) (now : Poster.Instant) (w : World) (reason : string) :
  snd (Poster.can_post cfg st now) = Returned (false, reason) ->
  post_reply reply_to_id text false st now w
  = (Returned (Poster.Failure reason), Poster._reset_daily_counters st now, w).
Proof.
  intros Hb. unfold Poster.post_reply. rewrite (check_quota_eta cfg), Hb. reflexivity.
Qed.

Lemma raised_post (tweet : option Generator.GeneratedTweet) (text : option string)
    (st : Poster.State) (now : Poster.Instant) (w : World) (msg : string) :
  snd (Poster.can_post cfg st now) = Raised msg ->
  post_tweet tweet text false st now w
  = (Raised msg, Poster._reset_daily_counters st now, w).
Proof.
  intros Hb. unfold Poster.post_tweet. rewrite (check_quota_eta cfg), Hb. reflexivity.
Qed.

Lemma raised_reply (reply_to_id text : string)
    (st : Poster.State) (now : Poster.Instant) (w : World) (msg : string) :
  snd (Poster.can_post cfg st now) = Raised msg ->
  post_reply reply_to_id text false st now w
  = (Raised msg, Poster._reset_daily_counters st now, w).
Proof.
  intros Hb. unfold Poster.post_reply. rewrite (check_quota_eta cfg), Hb. reflexivity.
Qed.

Lemma allowed_post (tweet : option Generator.GeneratedTweet) (text : option string)
    (st : Poster.State) (now : Poster.Instant) (w : World) (reason : string) :
  snd (Poster.can_post cfg st now) = Returned (true, reason) ->
  post_tweet tweet text false st now w
  = post_tweet tweet text true (Poster._reset_daily_counters st now) now w.
Proof.
  intros Hb. unfold Poster.post_tweet. rewrite !(check_quota_eta cfg), Hb. reflexivity.
Qed.

Lemma allowed_reply (reply_to_id text : string)
    (st : Poster.State) (now : Poster.Instant) (w : World) (reason : string) :
  snd (Poster.can_post cfg st now) = Returned (true, reason) ->
  post_reply reply_to_id text false st now w
  = post_reply reply_to_id text true (Poster._reset_daily_counters st now) now w.
Proof.
  intros Hb. unfold Poster.post_reply. rewrite !(check_quota_eta cfg), Hb. reflexivity.
Qed.

(** X14: [get_status] leaves the state as the day roll-over leaves it and
    reports the verdict of [can_post] with the counters of that state; a
    post or a reply attempted without [force] at the same instant fails
    with the very reason of the report when it says no, and goes through
    to the client as a forced one would when it says yes; and when the
    report raises, so do the post and the reply, with the same message. *)
Theorem status_predicts_post (tweet : option Generator.GeneratedTweet)
    (text : option string) (reply_to_id reply_text : string)
    (st : Poster.State) (now : Poster.Instant) (w : World) :
  fst (Poster.get_status cfg st now) = Poster._reset_daily_counters st now
  /\ (forall status : Poster.Status,
        snd (Poster.get_status cfg st now) = Returned status ->
        snd (Poster.can_post cfg st now)
        = Returned (Poster.s_can_post status, Poster.s_reason status)
        /\ Poster.s_posts_today status
           = Poster.posts_today (Poster._reset_daily_counters st now)
        /\ (Poster.s_can_post status = false ->
            post_tweet tweet text false (fst (Poster.get_status cfg st now)) now w
            = (Returned (Poster.Failure (Poster.s_reason status)),
               fst (Poster.get_status cfg st now), w)
            /\ post_reply reply_to_id reply_text false
                 (fst (Poster.get_status cfg st now)) now w
               = (Returned (Poster.Failure (Poster.s_reason status)),
                  fst (Poster.get_status cfg st now), w))
        /\ (Poster.s_can_post status = true ->
            post_tweet tweet text false (fst (Poster.get_status cfg st now)) now w
            = post_tweet tweet text true (fst (Poster.get_status cfg st now)) now w
            /\ post_reply reply_to_id reply_text false
                 (fst (Poster.get_status cfg st now)) now w
               = post_reply reply_to_id reply_text true
                   (fst (Poster.get_status cfg st now)) now w))
  /\ (forall msg : string,
        snd (Poster.get_status cfg st now) = Raised msg ->
        snd (Poster.can_post cfg st now) = Raised msg
        /\ post_tweet tweet text false (fst (Poster.get_status cfg st now)) now w
           = (Raised msg, fst (Poster.get_status cfg st now), w)
        /\ post_reply reply_to_id reply_text false
             (fst (Poster.get_status cfg st now)) now w
           = (Raised msg, fst (Poster.get_status cfg st now), w)).
Proof.
  rewrite get_status_eq. cbn [fst snd].
  split; [reflexivity |].
  destruct (snd (Poster.can_post cfg st now)) as [[ok reason] | msg0] eqn:Ev.
  - split; [| intros msg E; discriminate E].
    intros status E. injection E as <-.
    cbn [Poster.s_can_post Poster.s_reason Poster.s_posts_today].
    split; [reflexivity |]. split; [reflexivity |].
    rewrite <- can_post_after_reset in Ev.
    split; intros ->.
    + rewrite (blocked_post _ _ _ _ _ _ Ev), (blocked_reply _ _ _ _ _ _ Ev).
      rewrite reset_idem. split; reflexivity.
    + rewrite (allowed_post _ _ _ _ _ _ Ev), (allowed_reply _ _ _ _ _ _ Ev).
      rewrite reset_idem. split; reflexivity.
  - split; [intros status E; discriminate E |].
    intros msg E. injection E as <-. split; [reflexivity |].
    rewrite <- can_post_after_reset in Ev.
    rewrite (raised_post _ _ _ _ _ _ Ev), (raised_reply _ _ _ _ _ _ Ev).
    rewrite reset_idem. split; reflexivity.
Qed.

(** A post or a reply that succeeded without [force] was let through by
    the check. *)
Lemma success_was_allowed (tweet : option Generator.GeneratedTweet)
    (text : option string) (reply_to_id reply_text : string)
    (st : Poster.State) (now : Poster.Instant) (w : World)
    (st' : Poster.State) (w' : World)
    (new_id posted : string) (reply_to : option string) :
  (post_tweet tweet text false st now w
   = (Returned (Poster.Success new_id posted reply_to), st', w')
   \/ post_reply reply_to_id reply_text false st now w
      = (Returned (Poster.Success new_id posted reply_to), st', w')) ->
  exists reason, snd (Poster.can_post cfg st now) = Returned (true, reason).
Proof.
  intros H.
  destruct (snd (Poster.can_post cfg st now)) as [[[|] reason] | msg] eqn:Hb.
  - now exists reason.
  - destruct H as [H | H];
      [rewrite (blocked_post _ _ _ _ _ _ Hb) in H
      | rewrite (blocked_reply _ _ _ _ _ _ Hb) in H]; discriminate H.
  - destruct H as [H | H];
      [rewrite (raised_post _ _ _ _ _ _ Hb) in H
      | rewrite (raised_reply _ _ _ _ _ _ Hb) in H]; discriminate H.
Qed.

(** X15: without [force] a post or a reply succeeds only below the daily
    limit, not less than [min_hours_between] hours after the last post (the
    comparison [hours_since < min_hours_between] of the code is false) and
    on an allowed weekday, all three judged on the state after the day
    roll-over. *)
Theorem success_respects_quota (tweet : option Generator.GeneratedTweet)
    (text : option string) (reply_to_id reply_text : string)
    (st : Poster.State) (now : Poster.Instant) (w : World)
    (st' : Poster.State) (w' : World)
    (new_id posted : string) (reply_to : option string) :
  (post_tweet tweet text false st now w
   = (Returned (Poster.Success new_id posted reply_to), st', w')
   \/ post_reply reply_to_id reply_text false st now w
      = (Returned (Poster.Success new_id posted reply_to), st', w')) ->
  Poster.posts_today (Poster._reset_daily_counters st now)
  < Poster.max_posts_per_day cfg
  /\ QuotaSpec.spacing_respected cfg (Poster._reset_daily_counters st now) now
  /\ In (Poster.weekday now) (Poster.days cfg).
Proof.
  intros H.
  destruct (success_was_allowed tweet text reply_to_id reply_text st now w st' w'
              new_id posted reply_to H) as (reason & Hok).
  pose proof (can_post_decision cfg st now) as D.
  rewrite Hok in D. inversion D; auto.
Qed.

Lemma try_post_success (st : Poster.State) (now : Poster.Instant)
    (tweet_text : string) (slug : option string) (w : World)
    (st' : Poster.State) (w' : World)
    (new_id posted : string) (reply_to : option string) :
  Poster.try_post World create_tweet _save_state st now tweet_text slug w
  = (Returned (Poster.Success new_id posted reply_to), st', w') ->
  st' = Poster.record_post st now new_id tweet_text slug
  /\ posted = tweet_text /\ reply_to = None
  /\ (String.length tweet_text <= 280)%nat.
Proof.
  unfold Poster.try_post, XClient.post_tweet.
  destruct (Z.ltb_spec 280 (Z.of_nat (String.length tweet_text))) as [Hl | Hl];
    [discriminate |].
  destruct (create_tweet tweet_text None w) as [[i | msg] w1]; [| discriminate].
  cbn [XClient.posted_id]. cbv zeta.
  destruct (_save_state _ w1) as [[u | msg] w2]; [| discriminate].
  intros E. injection E as <- <- <- <- <-.
  repeat split. lia.
Qed.

(** X16: a post that succeeds, forced or not, sets [last_post_time] to the
    instant of the post, adds one to [posts_today], appends one entry with
    the id the network gave and the text posted to the history (cut to its
    last 100), and has posted a text of at most 280 characters; a reply that
    succeeds sets the time and the counter alike and leaves the history and
    the day's calculators as they were. *)
Theorem success_updates_state (tweet : option Generator.GeneratedTweet)
    (text : option string) (reply_to_id reply_text : string) (force : bool)
    (st : Poster.State) (now : Poster.Instant) (w : World)
    (st' : Poster.State) (w' : World)
    (new_id posted : string) (reply_to : option string) :
  (post_tweet tweet text force st now w
   = (Returned (Poster.Success new_id posted reply_to), st', w') ->
   Poster.last_post_time st' = Some now
   /\ Poster.posts_today st'
      = Poster.posts_today (if force then st else Poster._reset_daily_counters st now) + 1
   /\ Poster.today_date st'
      = Poster.today_date (if force then st else Poster._reset_daily_counters st now)
   /\ (exists slug,
         Poster.history st'
         = (lastn 99 (Poster.history st)
              ++ [Poster.mkEntry new_id posted slug now])%list)
   /\ (String.length posted <= 280)%nat
   /\ reply_to = None)
  /\ (post_reply reply_to_id reply_text force st now w
      = (Returned (Poster.Success new_id posted reply_to), st', w') ->
      Poster.last_post_time st' = Some now
      /\ Poster.posts_today st'
         = Poster.posts_today (if force then st else Poster._reset_daily_counters st now) + 1
      /\ Poster.today_date st'
         = Poster.today_date (if force then st else Poster._reset_daily_counters st now)
      /\ Poster.history st' = Poster.history st
      /\ Poster.posted_calculators st'
         = Poster.posted_calculators
             (if force then st else Poster._reset_daily_counters st now)
      /\ posted = reply_text
      /\ (String.length posted <= 280)%nat
      /\ reply_to = Some reply_to_id).
Proof.
  set (rolled := if force then st else Poster._reset_daily_counters st now).
  assert (Hh : Poster.history rolled = Poster.history st).
  { unfold rolled. destruct force; [reflexivity | apply reset_keeps_last_post]. }
  split.
  - unfold Poster.post_tweet. rewrite (check_quota_eta cfg). fold rolled.
    destruct (if force then Returned (true, "OK")
              else snd (Poster.can_post cfg st now)) as [[[|] reason] | msg];
      [| discriminate | discriminate].
    assert (Htry : forall tweet_text slug w0,
              Poster.try_post World create_tweet _save_state rolled now
                tweet_text slug w0
              = (Returned (Poster.Success new_id posted reply_to), st', w') ->
              Poster.last_post_time st' = Some now
              /\ Poster.posts_today st' = Poster.posts_today rolled + 1
              /\ Poster.today_date st' = Poster.today_date rolled
              /\ (exists slug0,
                    Poster.history st'
                    = (lastn 99 (Poster.history st)
                         ++ [Poster.mkEntry new_id posted slug0 now])%list)
              /\ (String.length posted <= 280)%nat
              /\ reply_to = None).
    { intros tweet_text slug w0 E. apply try_post_success in E.
      destruct E as (-> & -> & -> & Hl).
      repeat split; trivial. exists slug.
      rewrite <- Hh. apply record_post_history. }
    destruct tweet as [t |]; [apply Htry |].
    destruct text as [[| c s] |]; [| apply Htry |];
      (destruct (generate_tweet w) as [[t | msg] w1]; [apply Htry | discriminate]).
  - unfold Poster.post_reply, XClient.post_tweet. rewrite (check_quota_eta cfg). fold rolled.
    destruct (if force then Returned (true, "OK")
              else snd (Poster.can_post cfg st now)) as [[[|] reason] | msg];
      [| discriminate | discriminate].
    destruct (Z.ltb_spec 280 (Z.of_nat (String.length reply_text))) as [Hl | Hl];
      [discriminate |].
    destruct (create_tweet reply_text _ w) as [[i | msg] w1]; [| discriminate].
    cbn [XClient.posted_id]. cbv zeta.
    destruct (_save_state _ w1) as [[u | msg] w2]; [| discriminate].
    intros E. injection E as <- <- <- <- <-.
    cbn. repeat split; trivial. lia.
Qed.

(** A last post that is too recent never lets the check say yes. *)
Lemma too_soon_blocks (st : Poster.State) (later last_dt : Poster.Instant) :
  Poster.last_post_time st = Some last_dt ->
  (Poster.hours_since later last_dt <? Poster.min_hours_between cfg)%float = true ->
  forall reason, snd (Poster.can_post cfg st later) <> Returned (true, reason).
Proof.
  intros Hl Hs reason. unfold Poster.can_post. cbv zeta.
  destruct (_ <=? _); [discriminate |].
  rewrite (proj1 (reset_keeps_last_post st later)), Hl, Hs.
  destruct (Poster.wait_mins cfg later last_dt); discriminate.
Qed.

(** When the minutes to wait are a number, it blocks with a reason. *)
Lemma too_soon_blocks_with_reason (st : Poster.State)
    (later last_dt : Poster.Instant) (mins : Z) :
  Poster.last_post_time st = Some last_dt ->
  (Poster.hours_since later last_dt <? Poster.min_hours_between cfg)%float = true ->
  Poster.wait_mins cfg later last_dt = Returned mins ->
  exists reason, snd (Poster.can_post cfg st later) = Returned (false, reason).
Proof.
  intros Hl Hs Hw. unfold Poster.can_post. cbv zeta.
  destruct (_ <=? _); [now eexists |].
  rewrite (proj1 (reset_keeps_last_post st later)), Hl, Hs, Hw. now eexists.
Qed.

Lemma success_sets_last_post (tweet : option Generator.GeneratedTweet)
    (text : option string) (reply_to_id reply_text : string) (force : bool)
    (st : Poster.State) (now : Poster.Instant) (w : World)
    (st' : Poster.State) (w' : World)
    (new_id posted : string) (reply_to : option string) :
  (post_tweet tweet text force st now w
   = (Returned (Poster.Success new_id posted reply_to), st', w')
   \/ post_reply reply_to_id reply_text force st now w
      = (Returned (Poster.Success new_id posted reply_to), st', w')) ->
  Poster.last_post_time st' = Some now.
Proof.
  intros [H | H].
  - unfold Poster.post_tweet in H. rewrite (check_quota_eta cfg) in H.
    destruct (if force then Returned (true, "OK")
              else snd (Poster.can_post cfg st now)) as [[[|] reason] | msg];
      [| discriminate | discriminate].
    assert (Htry : forall rolled tweet_text slug w0,
              Poster.try_post World create_tweet _save_state rolled now
                tweet_text slug w0
              = (Returned (Poster.Success new_id posted reply_to), st', w') ->
              Poster.last_post_time st' = Some now).
    { intros rolled tweet_text slug w0 E. apply try_post_success in E.
      destruct E as (-> & _). reflexivity. }
    destruct tweet as [t |]; [now apply Htry in H |].
    destruct text as [[| c s] |]; [| now apply Htry in H |];
      (destruct (generate_tweet w) as [[t | msg] w1];
       [now apply Htry in H | discriminate]).
  - unfold Poster.post_reply in H. rewrite (check_quota_eta cfg) in H.
    destruct (if force then Returned (true, "OK")
              else snd (Poster.can_post cfg st now)) as [[[|] reason] | msg];
      [| discriminate | discriminate].
    destruct (XClient.post_tweet World create_tweet reply_text (Some reply_to_id) w)
      as [[result | msg] w1]; [| discriminate].
    cbv zeta in H.
    destruct (_save_state _ w1) as [[u | msg] w2]; [| discriminate].
    injection H as <- <- <- <- <-. reflexivity.
Qed.

(** X17: after a post or a reply that succeeded at some instant, no post
    and no reply goes out without [force] at an instant that the code
    finds less than [min_hours_between] hours later: each ends without a
    success, with the state as the day roll-over leaves it, and reaches
    neither the generator nor the network; each comes back as a failure
    whenever the minutes to wait are a number. *)
Theorem spacing_after_success (tweet tweet2 : option Generator.GeneratedTweet)
    (text text2 : option string) (reply_to_id reply_text id2 reply2 : string)
    (force : bool) (st : Poster.State) (now later : Poster.Instant) (w w2 : World)
    (st' : Poster.State) (w' : World)
    (new_id posted : string) (reply_to : option string) :
  (post_tweet tweet text force st now w
   = (Returned (Poster.Success new_id posted reply_to), st', w')
   \/ post_reply reply_to_id reply_text force st now w
      = (Returned (Poster.Success new_id posted reply_to), st', w')) ->
  (Poster.hours_since later now <? Poster.min_hours_between cfg)%float = true ->
  (exists r,
     post_tweet tweet2 text2 false st' later w2
     = (r, Poster._reset_daily_counters st' later, w2)
     /\ forall result, r = Returned result -> Poster.success result = false)
  /\ (exists r,
        post_reply id2 reply2 false st' later w2
        = (r, Poster._reset_daily_counters st' later, w2)
        /\ forall result, r = Returned result -> Poster.success result = false)
  /\ (forall mins : Z,
        Poster.wait_mins cfg later now = Returned mins ->
        (exists reason,
           post_tweet tweet2 text2 false st' later w2
           = (Returned (Poster.Failure reason),
              Poster._reset_daily_counters st' later, w2))
        /\ (exists reason,
              post_reply id2 reply2 false st' later w2
              = (Returned (Poster.Failure reason),
                 Poster._reset_daily_counters st' later, w2))).
Proof.
  intros H Hs.
  assert (Hl : Poster.last_post_time st' = Some now)
    by exact (success_sets_last_post tweet text reply_to_id reply_text force st now
                w st' w' new_id posted reply_to H).
  pose proof (too_soon_blocks st' later now Hl Hs) as Hb.
  split; [| split].
  - destruct (snd (Poster.can_post cfg st' later)) as [[[|] reason] | msg] eqn:Ev.
    + now destruct (Hb reason).
    + exists (Returned (Poster.Failure reason)).
      split; [exact (blocked_post tweet2 text2 st' later w2 reason Ev) |].
      intros result E. injection E as <-. reflexivity.
    + exists (Raised msg).
      split; [exact (raised_post tweet2 text2 st' later w2 msg Ev) |].
      intros result E. discriminate E.
  - destruct (snd (Poster.can_post cfg st' later)) as [[[|] reason] | msg] eqn:Ev.
    + now destruct (Hb reason).
    + exists (Returned (Poster.Failure reason)).
      split; [exact (blocked_reply id2 reply2 st' later w2 reason Ev) |].
      intros result E. injection E as <-. reflexivity.
    + exists (Raised msg).
      split; [exact (raised_reply id2 reply2 st' later w2 msg Ev) |].
      intros result E. discriminate E.
  - intros mins Hw.
    destruct (too_soon_blocks_with_reason st' later now mins Hl Hs Hw)
      as (reason & Ev).
    split; exists reason;
      [exact (blocked_post tweet2 text2 st' later w2 reason Ev)
      | exact (blocked_reply id2 reply2 st' later w2 reason Ev)].
Qed.

End PosterFacts.

(** ** The poster over a whole run *)

Section PosterRunFacts.

Variable World : Type.
Variable create_tweet : string -> option string -> World -> outcome string * World.
Variable generate_tweet : World -> outcome Generator.GeneratedTweet * World.
Variable _save_state : Poster.State -> World -> outcome unit * World.
Variable cfg : Poster.Config.

(** The check lets a post through only below the daily limit. *)
Lemma check_quota_limit (force : bool) (st : Poster.State) (now : Poster.Instant)
    (reason : string) :
  (if force then Returned (true, "OK") else snd (Poster.can_post cfg st now))
  = Returned (true, reason) ->
  force = false ->
  Poster.posts_today (Poster._reset_daily_counters st now)
  < Poster.max_posts_per_day cfg.
Proof.
  intros Eok ->. pose proof (can_post_decision cfg st now) as D.
  rewrite Eok in D. now inversion D.
Qed.

(** The state a post leaves is the state after the roll-over, if any, or
    that state with the post recorded; without [force] a post is recorded
    only below the daily limit. *)
Lemma post_tweet_state (tweet : option Generator.GeneratedTweet)
    (text : option string) (force : bool)
    (st : Poster.State) (now : Poster.Instant) (w : World) :
  let rolled := if force then st else Poster._reset_daily_counters st now in
  let st' := snd (fst (Poster.post_tweet World create_tweet generate_tweet
                         _save_state cfg tweet text force st now w)) in
  st' = rolled
  \/ ((force = false -> Poster.posts_today rolled < Poster.max_posts_per_day cfg)
      /\ exists new_id tweet_text slug,
           st' = Poster.record_post rolled now new_id tweet_text slug).
Proof.
  cbv zeta. unfold Poster.post_tweet. rewrite (check_quota_eta cfg).
  set (rolled := if force then st else Poster._reset_daily_counters st now).
  destruct (if force then Returned (true, "OK")
            else snd (Poster.can_post cfg st now)) as [[[|] reason] | msg] eqn:Eok;
    [| now left | now left].
  assert (Hlim : force = false ->
                 Poster.posts_today rolled < Poster.max_posts_per_day cfg).
  { intros Hf. unfold rolled. rewrite Hf.
    exact (check_quota_limit force st now reason Eok Hf). }
  assert (Htry : forall tweet_text slug w0,
            snd (fst (Poster.try_post World create_tweet _save_state rolled now
                        tweet_text slug w0))
            = rolled
            \/ ((force = false ->
                 Poster.posts_today rolled < Poster.max_posts_per_day cfg)
                /\ exists new_id tweet_text0 slug0,
                     snd (fst (Poster.try_post World create_tweet _save_state
                                 rolled now tweet_text slug w0))
                     = Poster.record_post rolled now new_id tweet_text0 slug0)).
  { intros tweet_text slug w0. unfold Poster.try_post.
    destruct (XClient.post_tweet World create_tweet tweet_text None w0)
      as [[result | msg] w1]; cbn [fst snd]; [right | now left].
    split; [exact Hlim |]. cbv zeta.
    destruct (_save_state _ w1) as [[u | msg] w2]; cbn [fst snd];
      now eexists _, _, _. }
  destruct tweet as [t |]; [apply Htry |].
  destruct text as [[| c s] |]; [| apply Htry |];
    (destruct (generate_tweet w) as [[t | msg] w1]; [apply Htry | now left]).
Qed.

Lemma post_reply_state (reply_to_id text : string) (force : bool)
    (st : Poster.State) (now : Poster.Instant) (w : World) :
  let rolled := if force then st else Poster._reset_daily_counters st now in
  let st' := snd (fst (Poster.post_reply World create_tweet _save_state cfg
                         reply_to_id text force st now w)) in
  st' = rolled
  \/ ((force = false -> Poster.posts_today rolled < Poster.max_posts_per_day cfg)
      /\ st' = Poster.record_reply rolled now).
Proof.
  cbv zeta. unfold Poster.post_reply. rewrite (check_quota_eta cfg).
  set (rolled := if force then st else Poster._reset_daily_counters st now).
  destruct (if force then Returned (true, "OK")
            else snd (Poster.can_post cfg st now)) as [[[|] reason] | msg] eqn:Eok;
    [| now left | now left].
  assert (Hlim : force = false ->
                 Poster.posts_today rolled < Poster.max_posts_per_day cfg).
  { intros Hf. unfold rolled. rewrite Hf.
    exact (check_quota_limit force st now reason Eok Hf). }
  destruct (XClient.post_tweet World create_tweet text (Some reply_to_id) w)
    as [[result | msg] w1]; cbn [fst snd]; [right | now left].
  split; [exact Hlim |]. cbv zeta.
  destruct (_save_state _ w1) as [[u | msg] w2]; reflexivity.
Qed.

(** X18: from a first start, through any checks, status reports, posts and
    replies, the history never holds more than 100 entries, [posts_today]
    is never negative and never less than the number of calculators posted
    that day; and as long as nothing is forced, [posts_today] never exceeds
    [max_posts_per_day] (0 for a limit that is negative). *)
Theorem poster_stays_within_limits (may_force : bool) (st : Poster.State) :
  PosterRuns.reachable World create_tweet generate_tweet _save_state cfg
    may_force st ->
  (List.length (Poster.history st) <= 100)%nat
  /\ 0 <= Poster.posts_today st
  /\ Z.of_nat (List.length (Poster.posted_calculators st)) <= Poster.posts_today st
  /\ (may_force = false ->
      Poster.posts_today st <= Z.max 0 (Poster.max_posts_per_day cfg)).
Proof.
  assert (Hreset : forall s now,
            ((List.length (Poster.history s) <= 100)%nat
             /\ 0 <= Poster.posts_today s
             /\ Z.of_nat (List.length (Poster.posted_calculators s))
                <= Poster.posts_today s
             /\ (may_force = false ->
                 Poster.posts_today s <= Z.max 0 (Poster.max_posts_per_day cfg))) ->
            (List.length (Poster.history (Poster._reset_daily_counters s now))
             <= 100)%nat
            /\ 0 <= Poster.posts_today (Poster._reset_daily_counters s now)
            /\ Z.of_nat (List.length (Poster.posted_calculators
                                        (Poster._reset_daily_counters s now)))
               <= Poster.posts_today (Poster._reset_daily_counters s now)
            /\ (may_force = false ->
                Poster.posts_today (Poster._reset_daily_counters s now)
                <= Z.max 0 (Poster.max_posts_per_day cfg))).
  { intros s now I. unfold Poster._reset_daily_counters.
    destruct (Poster.today_date s) as [d |];
      [destruct (String.eqb d (Poster.date now)); [exact I |] |];
      cbn; repeat split; try tauto; lia. }
  assert (Hrolled : forall (force : bool) s now,
            (force = true -> may_force = true) ->
            ((List.length (Poster.history s) <= 100)%nat
             /\ 0 <= Poster.posts_today s
             /\ Z.of_nat (List.length (Poster.posted_calculators s))
                <= Poster.posts_today s
             /\ (may_force = false ->
                 Poster.posts_today s <= Z.max 0 (Poster.max_posts_per_day cfg))) ->
            let rolled := if force then s else Poster._reset_daily_counters s now in
            (List.length (Poster.history rolled) <= 100)%nat
            /\ 0 <= Poster.posts_today rolled
            /\ Z.of_nat (List.length (Poster.posted_calculators rolled))
               <= Poster.posts_today rolled
            /\ (may_force = false ->
                Poster.posts_today rolled <= Z.max 0 (Poster.max_posts_per_day cfg))).
  { intros force s now Hf I. destruct force; cbv zeta; [exact I | now apply Hreset]. }
  induction 1 as [| s now R IH | s now R IH
                  | s tweet text force now w r s' w' R IH Hf E
                  | s rid text force now w r s' w' R IH Hf E].
  - cbn. repeat split; lia.
  - rewrite can_post_state. now apply Hreset.
  - rewrite get_status_eq. cbn [fst]. now apply Hreset.
  - pose proof (post_tweet_state tweet text force s now w) as P. cbv zeta in P.
    rewrite E in P. cbn [fst snd] in P.
    pose proof (Hrolled force s now Hf IH) as (I1 & I2 & I3 & I4). cbv zeta in *.
    destruct P as [-> | (Hlim & i & txt & slug & ->)].
    + repeat split; assumption.
    + split; [apply record_post_history |].
      unfold Poster.record_post. cbn [Poster.posts_today Poster.posted_calculators].
      split; [lia |]. split.
      * destruct slug as [[| c0 c] |]; try lia.
        rewrite length_app. cbn [List.length]. lia.
      * intros Hm. assert (force = false) as Hff
          by (destruct force; [specialize (Hf eq_refl); congruence | reflexivity]).
        specialize (Hlim Hff). lia.
  - pose proof (post_reply_state rid text force s now w) as P. cbv zeta in P.
    rewrite E in P. cbn [fst snd] in P.
    pose proof (Hrolled force s now Hf IH) as (I1 & I2 & I3 & I4). cbv zeta in *.
    destruct P as [-> | (Hlim & ->)].
    + repeat split; assumption.
    + unfold Poster.record_reply.
      cbn [Poster.history Poster.posts_today Poster.posted_calculators].
      repeat split; try lia.
      intros Hm. assert (force = false) as Hff
        by (destruct force; [specialize (Hf eq_refl); congruence | reflexivity]).
      specialize (Hlim Hff). lia.
Qed.

End PosterRunFacts.

(** ** Previews *)

(** Leaving calculators out keeps their slugs distinct. *)
Lemma distinct_slugs_filter (keep : Generator.Calculator -> bool)
    (cs : list Generator.Calculator) :
  NoDup (map Generator.slug cs) ->
  NoDup (map Generator.slug (filter keep cs)).
Proof.
  intros N. induction cs as [| c r IH]; [constructor |].
  cbn [map filter] in *. apply NoDup_cons_iff in N. destruct N as (Hc & Nr).
  destruct (keep c); [| now apply IH].
  cbn [map]. apply NoDup_cons; [| now apply IH].
  rewrite in_map_iff. intros (x & E & Hx). apply filter_In in Hx.
  apply Hc. rewrite in_map_iff. exists x. tauto.
Qed.

Lemma filter_twice {A} (p q : A -> bool) (l : list A) :
  filter p (filter q l) = filter (fun x => (q x && p x)%bool) l.
Proof.
  induction l as [| a r IH]; [reflexivity |].
  cbn [filter]. destruct (q a); cbn [andb filter]; [| exact IH].
  destruct (p a); now rewrite IH.
Qed.

Section PreviewFacts.

Variable World : Type.
Variable generate_tweet_for : string -> World -> outcome Generator.GeneratedTweet * World.
Variable calculators : list Generator.Calculator.

Local Abbreviation not_in exclude :=
  (fun c : Generator.Calculator => negb (mem (Generator.slug c) exclude)).

Lemma unposted_after_pick (exclude : list string) (c : Generator.Calculator)
    (r : list Generator.Calculator) :
  NoDup (map Generator.slug calculators) ->
  filter (not_in exclude) calculators = c :: r ->
  filter (not_in (Generator.slug c :: exclude)) calculators = r.
Proof.
  intros N E.
  assert (F : filter (not_in (Generator.slug c :: exclude)) calculators
              = filter (fun x => negb (String.eqb (Generator.slug x) (Generator.slug c)))
                       (filter (not_in exclude) calculators)).
  { rewrite filter_twice. apply filter_ext. intros a.
    unfold mem. cbn [existsb]. fold (mem (Generator.slug a) exclude).
    destruct (String.eqb (Generator.slug a) (Generator.slug c)),
             (mem (Generator.slug a) exclude); reflexivity. }
  rewrite F, E. cbn [filter]. rewrite String.eqb_refl. cbn [negb].
  pose proof (distinct_slugs_filter (not_in exclude) calculators N) as N'.
  rewrite E in N'. cbn [map] in N'. inversion N' as [| ? ? Hc Nr]; subst.
  clear - Hc. induction r as [| a l IH]; [reflexivity |].
  cbn [filter]. destruct (String.eqb_spec (Generator.slug a) (Generator.slug c)) as [Ea | Na].
  - exfalso. apply Hc. cbn [map]. left. exact Ea.
  - cbn [negb]. f_equal. apply IH. intros H. apply Hc. cbn [map]. now right.
Qed.

Lemma preview_loop_unposted :
  NoDup (map Generator.slug calculators) ->
  (forall s w, exists t w',
      generate_tweet_for s w = (Returned t, w')
      /\ Generator.calculator_slug t = s) ->
  forall n exclude tweets w,
    (n <= List.length (filter (not_in exclude) calculators))%nat ->
    exists previews w',
      Poster.preview_loop World generate_tweet_for calculators n exclude tweets w
      = (Returned (tweets ++ previews)%list, w')
      /\ map Generator.calculator_slug previews
         = map Generator.slug (firstn n (filter (not_in exclude) calculators)).
Proof.
  intros N G. induction n as [| n IH]; intros exclude tweets w Hn.
  - exists [], w. cbn. now rewrite app_nil_r.
  - cbn [Poster.preview_loop].
    destruct (filter (not_in exclude) calculators) as [| c r] eqn:E;
      [cbn in Hn; lia |].
    destruct (G (Generator.slug c) w) as (t & w1 & Et & Es). rewrite Et.
    pose proof (unposted_after_pick exclude c r N E) as U.
    destruct (IH (Generator.slug c :: exclude) (tweets ++ [t])%list w1)
      as (ps & w2 & Ep & Em).
    { rewrite U. cbn in Hn. lia. }
    exists (t :: ps), w2. split.
    + rewrite Ep. now rewrite <- app_assoc.
    + cbn [map firstn]. rewrite Es, Em, U. reflexivity.
Qed.

(** X19: as long as calculators not yet posted today remain, [preview_next]
    previews those, in the order of the catalogue, one tweet for each and
    none for a calculator already posted: with distinct slugs in the
    catalogue, a generator that returns a tweet for the calculator it is
    asked for, and a count within the number of calculators left.  With an
    empty catalogue it previews nothing and does not call the generator. *)
Theorem preview_skips_posted (count : Z) (st : Poster.State) (w : World) :
  (NoDup (map Generator.slug calculators) ->
   (forall s w0, exists t w',
       generate_tweet_for s w0 = (Returned t, w')
       /\ Generator.calculator_slug t = s) ->
   (Z.to_nat count
    <= List.length (filter (not_in (Poster.posted_calculators st)) calculators))%nat ->
   exists previews w',
     Poster.preview_next World generate_tweet_for calculators count st w
     = (Returned previews, w')
     /\ map Generator.calculator_slug previews
        = map Generator.slug
            (firstn (Z.to_nat count)
               (filter (not_in (Poster.posted_calculators st)) calculators))
     /\ (forall p, In p previews ->
           ~ In (Generator.calculator_slug p) (Poster.posted_calculators st)))
  /\ (calculators = [] ->
      Poster.preview_next World generate_tweet_for calculators count st w
      = (Returned [], w)).
Proof.
  split.
  - intros N G Hc. unfold Poster.preview_next.
    destruct (preview_loop_unposted N G (Z.to_nat count)
                (Poster.posted_calculators st) [] w Hc) as (ps & w' & E & M).
    exists ps, w'. split; [exact E |]. split; [exact M |].
    intros p Hp Hin.
    assert (Hs : In (Generator.calculator_slug p) (map Generator.calculator_slug ps))
      by now apply in_map.
    rewrite M in Hs. apply in_map_iff in Hs. destruct Hs as (c & Ec & Hc').
    assert (Hf : In c (filter (not_in (Poster.posted_calculators st)) calculators)).
    { rewrite <- (firstn_skipn (Z.to_nat count)). apply in_or_app. now left. }
    apply filter_In in Hf. destruct Hf as (_ & Hf).
    apply negb_true_iff, mem_false in Hf. apply Hf. now rewrite Ec.
  - intros E. unfold Poster.preview_next.
    generalize (Poster.posted_calculators st). rewrite E.
    induction (Z.to_nat count) as [| n IH]; intros exclude; [reflexivity |].
    cbn [Poster.preview_loop filter]. apply IH.
Qed.

End PreviewFacts.

Lemma preview_skips_posted_witness :
  exists previews w',
    Poster.preview_next unit Sample.tweet_for Sample.catalogue 2
      Sample.posted_yesterday tt = (Returned previews, w')
    /\ map Generator.calculator_slug previews
       = map Generator.slug
           (firstn (Z.to_nat 2)
              (filter (fun c => negb (mem (Generator.slug c)
                                        (Poster.posted_calculators
                                           Sample.posted_yesterday)))
                 Sample.catalogue))
    /\ (forall p, In p previews ->
          ~ In (Generator.calculator_slug p)
               (Poster.posted_calculators Sample.posted_yesterday)).
Proof.
  apply (proj1 (preview_skips_posted unit Sample.tweet_for Sample.catalogue 2
                  Sample.posted_yesterday tt)).
  - repeat constructor; cbn; intuition discriminate.
  - intros s w0. eexists _, _. split; reflexivity.
  - cbn. lia.
Defined.

Lemma status_predicts_post_witness :
  exists status : Poster.Status,
    snd (Poster.get_status Sample.poster_cfg Sample.full_yesterday
           Sample.saturday_noon) = Returned status
    /\ Poster.s_can_post status = false
    /\ Poster.post_tweet unit Sample.network_up Sample.empty_generator
         Sample.disk_ok Sample.poster_cfg
         None (Some "Split the bill in seconds") false
         (fst (Poster.get_status Sample.poster_cfg Sample.full_yesterday
                 Sample.saturday_noon))
         Sample.saturday_noon tt
       = (Returned (Poster.Failure (Poster.s_reason status)),
          fst (Poster.get_status Sample.poster_cfg Sample.full_yesterday
                 Sample.saturday_noon), tt).
Proof.
  exists (Poster.mkStatus false "Not a posting day (today is 5)" 0 5
            (Some Sample.wednesday_morning) []).
  assert (E : snd (Poster.get_status Sample.poster_cfg Sample.full_yesterday
                     Sample.saturday_noon)
              = Returned (Poster.mkStatus false "Not a posting day (today is 5)"
                            0 5 (Some Sample.wednesday_morning) []))
    by (vm_compute; reflexivity).
  split; [exact E |]. split; [reflexivity |].
  destruct (status_predicts_post unit Sample.network_up Sample.empty_generator
              Sample.disk_ok Sample.poster_cfg None
              (Some "Split the bill in seconds")
              "7" "Try tip-calculator" Sample.full_yesterday Sample.saturday_noon tt)
    as (_ & Hreport & _).
  destruct (Hreport _ E) as (_ & _ & Hno & _).
  apply Hno. reflexivity.
Defined.

Lemma success_respects_quota_witness :
  Poster.posts_today
    (Poster._reset_daily_counters Sample.posted_yesterday Sample.thursday_noon)
  < Poster.max_posts_per_day Sample.poster_cfg
  /\ QuotaSpec.spacing_respected Sample.poster_cfg
       (Poster._reset_daily_counters Sample.posted_yesterday Sample.thursday_noon)
       Sample.thursday_noon
  /\ In (Poster.weekday Sample.thursday_noon) (Poster.days Sample.poster_cfg).
Proof.
  apply (success_respects_quota unit Sample.network_up Sample.empty_generator
           Sample.disk_ok Sample.poster_cfg None (Some "Split the bill in seconds")
           "7" "Try tip-calculator" Sample.posted_yesterday Sample.thursday_noon tt
           (Poster.record_post
              (Poster._reset_daily_counters Sample.posted_yesterday
                 Sample.thursday_noon)
              Sample.thursday_noon "900" "Split the bill in seconds" None)
           tt "900" "Split the bill in seconds" None).
  left. vm_compute. reflexivity.
Defined.

Lemma success_updates_state_witness :
  Poster.last_post_time
    (Poster.record_reply
       (Poster._reset_daily_counters Sample.posted_yesterday Sample.thursday_noon)
       Sample.thursday_noon)
  = Some Sample.thursday_noon.
Proof.
  apply (proj2 (success_updates_state unit Sample.network_up Sample.empty_generator
                  Sample.disk_ok Sample.poster_cfg None None
                  "7" "Try tip-calculator" false
                  Sample.posted_yesterday Sample.thursday_noon tt
                  (Poster.record_reply
                     (Poster._reset_daily_counters Sample.posted_yesterday
                        Sample.thursday_noon)
                     Sample.thursday_noon)
                  tt "900" "Try tip-calculator" (Some "7"))).
  vm_compute. reflexivity.
Defined.

Lemma spacing_after_success_witness :
  exists reason,
    Poster.post_reply unit Sample.network_up Sample.disk_ok Sample.poster_cfg
      "8" "Try bmi-calculator" false
      (Poster.record_reply
         (Poster._reset_daily_counters Sample.posted_yesterday
            Sample.one_hour_before)
         Sample.one_hour_before)
      Sample.thursday_noon tt
    = (Returned (Poster.Failure reason),
       Poster._reset_daily_counters
         (Poster.record_reply
            (Poster._reset_daily_counters Sample.posted_yesterday
               Sample.one_hour_before)
            Sample.one_hour_before)
         Sample.thursday_noon, tt).
Proof.
  refine (proj2 (proj2 (proj2
            (spacing_after_success unit Sample.network_up Sample.empty_generator
               Sample.disk_ok Sample.poster_cfg None None None None
               "7" "Try tip-calculator" "8" "Try bmi-calculator" false
               Sample.posted_yesterday Sample.one_hour_before
               Sample.thursday_noon tt tt
               (Poster.record_reply
                  (Poster._reset_daily_counters Sample.posted_yesterday
                     Sample.one_hour_before)
                  Sample.one_hour_before)
               tt "900" "Try tip-calculator" (Some "7") _ _)) 180 _)).
  - right. vm_compute. reflexivity.
  - vm_compute. reflexivity.
  - vm_compute. reflexivity.
Defined.

Lemma poster_stays_within_limits_witness :
  (List.length (Poster.history
                  (Poster.record_reply
                     (Poster._reset_daily_counters Poster.initial_state
                        Sample.thursday_noon)
                     Sample.thursday_noon)) <= 100)%nat
  /\ 0 <= Poster.posts_today
            (Poster.record_reply
               (Poster._reset_daily_counters Poster.initial_state
                  Sample.thursday_noon)
               Sample.thursday_noon)
  /\ Z.of_nat (List.length
                 (Poster.posted_calculators
                    (Poster.record_reply
                       (Poster._reset_daily_counters Poster.initial_state
                          Sample.thursday_noon)
                       Sample.thursday_noon)))
     <= Poster.posts_today
          (Poster.record_reply
             (Poster._reset_daily_counters Poster.initial_state
                Sample.thursday_noon)
             Sample.thursday_noon)
  /\ (false = false ->
      Poster.posts_today
        (Poster.record_reply
           (Poster._reset_daily_counters Poster.initial_state Sample.thursday_noon)
           Sample.thursday_noon)
      <= Z.max 0 (Poster.max_posts_per_day Sample.poster_cfg)).
Proof.
  apply (poster_stays_within_limits unit Sample.network_up Sample.empty_generator
           Sample.disk_ok Sample.poster_cfg false).
  apply (PosterRuns.run_reply unit Sample.network_up Sample.empty_generator
           Sample.disk_ok Sample.poster_cfg false Poster.initial_state
           "7" "Try tip-calculator" false Sample.thursday_noon tt
           (Returned (Poster.Success "900" "Try tip-calculator" (Some "7")))
           (Poster.record_reply
              (Poster._reset_daily_counters Poster.initial_state
                 Sample.thursday_noon)
              Sample.thursday_noon)
           tt).
  - apply PosterRuns.run_start.
  - intros H. discriminate H.
  - vm_compute. reflexivity.
Defined.

(** ** The search of the client *)

Lemma build_tweets_spec (users : list XClient.RawUser) (min_likes min_retweets : Z)
    (raw : list XClient.RawTweet) :
  forall acc tweets,
    XClient.build_tweets users min_likes min_retweets raw acc = Returned tweets ->
    exists new,
      tweets = (acc ++ new)%list
      /\ map id new
         = map XClient.r_id
             (filter (fun r =>
                        let metrics := match XClient.r_public_metrics r with
                                       | None => []
                                       | Some m => m
                                       end in
                        (negb (XClient.metric metrics "like_count" <? min_likes)
                         && negb (XClient.metric metrics "retweet_count"
                                  <? min_retweets))%bool)
                     raw)
      /\ Forall (fun t =>
                   min_likes <= like_count t
                   /\ min_retweets <= retweet_count t
                   /\ (XClient.lookup_user users (author_id t) = None ->
                       author_username t = "unknown" /\ author_followers t = 0))
                new.
Proof.
  induction raw as [| r rest IH]; intros acc tweets E.
  - injection E as <-. exists []. rewrite app_nil_r. repeat split. constructor.
  - cbn [XClient.build_tweets] in E. cbv zeta in E. cbn [filter]. cbv zeta.
    set (metrics := match XClient.r_public_metrics r with
                    | None => []
                    | Some m => m
                    end) in *.
    destruct (Z.ltb_spec (XClient.metric metrics "like_count") min_likes) as [Hl | Hl];
      cbn [negb andb]; [now apply IH |].
    destruct (Z.ltb_spec (XClient.metric metrics "retweet_count") min_retweets)
      as [Hr | Hr]; cbn [negb andb]; [now apply IH |].
    destruct (XClient.lookup_user users (XClient.r_author_id r)) as [a |] eqn:Ea.
    + destruct (XClient.u_public_metrics a) as [am |]; [| discriminate].
      apply IH in E. destruct E as (new & -> & Hid & Hall).
      eexists (_ :: new). rewrite <- app_assoc. split; [reflexivity |].
      split; [cbn [map id]; now rewrite Hid |].
      constructor; [| exact Hall].
      cbn [like_count retweet_count author_id author_username author_followers].
      split; [exact Hl |]. split; [exact Hr |].
      intros C. rewrite Ea in C. discriminate C.
    + apply IH in E. destruct E as (new & -> & Hid & Hall).
      eexists (_ :: new). rewrite <- app_assoc. split; [reflexivity |].
      split; [cbn [map id]; now rewrite Hid |].
      constructor; [| exact Hall].
      cbn [like_count retweet_count author_id author_username author_followers].
      split; [exact Hl |]. split; [exact Hr |].
      intros _. split; reflexivity.
Qed.

Section ClientSearch.

Variable World : Type.
Variable search_recent_tweets :
  string -> Z -> World -> outcome XClient.Response * World.

Lemma search_recent_spec (query : string) (max_results min_likes min_retweets : Z)
    (w w' : World) (tweets : list Tweet) :
  XClient.search_recent World search_recent_tweets query max_results
    min_likes min_retweets w = (Returned tweets, w') ->
  exists response,
    search_recent_tweets (query ++ " -is:retweet -is:reply lang:en")
      (Z.min max_results 100) w = (Returned response, w')
    /\ map id tweets
       = map XClient.r_id
           (filter (fun r =>
                      let metrics := match XClient.r_public_metrics r with
                                     | None => []
                                     | Some m => m
                                     end in
                      (negb (XClient.metric metrics "like_count" <? min_likes)
                       && negb (XClient.metric metrics "retweet_count"
                                <? min_retweets))%bool)
                   (match XClient.data response with
                    | None => []
                    | Some raw => raw
                    end))
    /\ Forall (fun t =>
                 min_likes <= like_count t
                 /\ min_retweets <= retweet_count t
                 /\ (XClient.lookup_user
                       (match XClient.includes_users response with
                        | None => []
                        | Some l => l
                        end) (author_id t) = None ->
                     author_username t = "unknown" /\ author_followers t = 0))
              tweets.
Proof.
  unfold XClient.search_recent. cbv zeta.
  destruct (search_recent_tweets _ (Z.min max_results 100) w)
    as [[response | msg] w1]; [| discriminate].
  intros E. exists response.
  destruct (XClient.data response) as [[| r0 raw] |].
  - injection E as <- <-. repeat split. constructor.
  - destruct (XClient.build_tweets _ min_likes min_retweets (r0 :: raw) [])
      as [built | msg] eqn:B; [| discriminate].
    injection E as <- <-. apply build_tweets_spec in B.
    destruct B as (new & -> & Hid & Hall). now repeat split.
  - injection E as <- <-. repeat split. constructor.
Qed.

(** X20: the client asks tweepy for the query followed by
    ["-is:retweet -is:reply lang:en"] and for at most 100 results; of the
    tweets of the answer it returns, in their order, those whose likes and
    retweets reach the two minimums, so that every tweet returned reaches
    them; a tweet whose author is missing from the answer carries the
    handle "unknown" and 0 followers. *)
Theorem client_search_filters (query : string)
    (max_results min_likes min_retweets : Z) (w w' : World) (tweets : list Tweet) :
  (XClient.search_recent World search_recent_tweets query max_results
     min_likes min_retweets w = (Returned tweets, w') ->
   exists response,
     search_recent_tweets (query ++ " -is:retweet -is:reply lang:en")
       (Z.min max_results 100) w = (Returned response, w')
     /\ map id tweets
        = map XClient.r_id
            (filter (fun r =>
                       let metrics := match XClient.r_public_metrics r with
                                      | None => []
                                      | Some m => m
                                      end in
                       (negb (XClient.metric metrics "like_count" <? min_likes)
                        && negb (XClient.metric metrics "retweet_count"
                                 <? min_retweets))%bool)
                    (match XClient.data response with
                     | None => []
                     | Some raw => raw
                     end))
     /\ Forall (fun t =>
                  min_likes <= like_count t
                  /\ min_retweets <= retweet_count t
                  /\ (XClient.lookup_user
                        (match XClient.includes_users response with
                         | None => []
                         | Some l => l
                         end) (author_id t) = None ->
                      author_username t = "unknown" /\ author_followers t = 0))
               tweets)
  /\ (100 <= max_results ->
      XClient.search_recent World search_recent_tweets query max_results
        min_likes min_retweets w
      = XClient.search_recent World search_recent_tweets query 100
          min_likes min_retweets w).
Proof.
  split; [apply search_recent_spec |].
  intros Hm. unfold XClient.search_recent.
  now rewrite (Z.min_r max_results 100), (Z.min_l 100 100) by lia.
Qed.

(** X21: on a tweet that the client returned for the monitor's own
    [min_likes] and [min_retweets], the likes and retweets checks of the
    filter never fire: such a tweet is admitted as soon as it is new, its
    author is not blacklisted and has the followers asked for; and with a
    positive [min_followers] a tweet whose author is missing from the
    answer is never admitted. *)
Theorem client_tweets_pass_engagement_checks (cfg : Monitor.Config)
    (st : Monitor.State) (query : string) (max_results : Z) (w w' : World)
    (tweets : list Tweet) (t : Tweet) :
  XClient.search_recent World search_recent_tweets query max_results
    (Monitor.min_likes cfg) (Monitor.min_retweets cfg) w = (Returned tweets, w') ->
  In t tweets ->
  (~ In (id t) (Monitor.seen_tweets st) ->
   ~ In (id t) (Monitor.replied_tweets st) ->
   ~ In (lower (author_username t)) (map lower (Monitor.blacklist cfg)) ->
   Monitor.min_followers cfg <= author_followers t ->
   Monitor._is_valid_opportunity cfg st t = (true, "OK"))
  /\ (exists response,
        search_recent_tweets (query ++ " -is:retweet -is:reply lang:en")
          (Z.min max_results 100) w = (Returned response, w')
        /\ (0 < Monitor.min_followers cfg ->
            XClient.lookup_user
              (match XClient.includes_users response with
               | None => []
               | Some l => l
               end) (author_id t) = None ->
            fst (Monitor._is_valid_opportunity cfg st t) = false)).
Proof.
  intros E Hin. apply search_recent_spec in E.
  destruct E as (response & Er & _ & Hall). rewrite Forall_forall in Hall.
  destruct (Hall t Hin) as (Hl & Hr & Hu). split.
  - intros Hs Hp Hb Hf. apply mem_false in Hs, Hp, Hb. now apply filter_admits.
  - exists response. split; [exact Er |]. intros Hm Hnone.
    destruct (Hu Hnone) as (_ & H0).
    destruct (fst (Monitor._is_valid_opportunity cfg st t)) eqn:V; [| reflexivity].
    apply valid_inv in V. lia.
Qed.

End ClientSearch.

Lemma client_search_filters_witness :
  exists response,
    Sample.answering ("tip calculator" ++ " -is:retweet -is:reply lang:en")
      (Z.min 10 100) tt = (Returned response, tt)
    /\ map id (match fst (XClient.search_recent unit Sample.answering
                            "tip calculator" 10 2 1 tt) with
               | Returned l => l
               | Raised _ => []
               end)
       = ["101"; "103"].
Proof.
  destruct (proj1 (client_search_filters unit Sample.answering "tip calculator"
                     10 2 1 tt tt
                     (match fst (XClient.search_recent unit Sample.answering
                                   "tip calculator" 10 2 1 tt) with
                      | Returned l => l
                      | Raised _ => []
                      end)) eq_refl) as (response & E & Hid & _).
  exists response. split; [exact E |]. reflexivity.
Defined.

Lemma client_tweets_pass_engagement_checks_witness :
  Monitor._is_valid_opportunity Sample.monitor_cfg Monitor.initial_state
    (mkTweet "101" "Need a tip calculator" "u1" "alice" 150 4 1 2
       "2024-05-02 10:00:00+00:00" (Some "101"))
  = (true, "OK").
Proof.
  eapply (proj1 (client_tweets_pass_engagement_checks unit Sample.answering
                   Sample.monitor_cfg Monitor.initial_state "tip calculator" 10
                   tt tt _ _ eq_refl _)).
  Unshelve.
  all: cbn; try tauto; try lia.
  intros [H | []]. discriminate H.
Defined.

(** ** Fitting a tweet to the limit *)

Lemma length_append (a b : string) :
  String.length (a ++ b) = (String.length a + String.length b)%nat.
Proof. induction a as [| c r IH]; cbn; [reflexivity | now rewrite IH]. Qed.

Lemma string_app_assoc (a b c : string) : (a ++ b) ++ c = a ++ b ++ c.
Proof. induction a as [| x r IH]; cbn; [reflexivity | now rewrite IH]. Qed.

Lemma length_lstrip (s : string) :
  (String.length (Generator.lstrip s) <= String.length s)%nat.
Proof.
  induction s as [| c r IH]; cbn [Generator.lstrip]; [lia |].
  destruct (Generator.is_space c); cbn [String.length]; lia.
Qed.

Lemma length_rstrip (s : string) :
  (String.length (Generator.rstrip s) <= String.length s)%nat.
Proof.
  induction s as [| c r IH]; cbn [Generator.rstrip]; [lia |].
  destruct (Generator.rstrip r) as [| k ks].
  - destruct (Generator.is_space c); cbn [String.length]; lia.
  - cbn [String.length] in *. lia.
Qed.

Lemma length_strip (s : string) :
  (String.length (Generator.strip s) <= String.length s)%nat.
Proof.
  unfold Generator.strip.
  pose proof (length_rstrip (Generator.lstrip s)). pose proof (length_lstrip s). lia.
Qed.

Lemma length_take (n : nat) (s : string) :
  String.length (Generator.take n s) = Nat.min n (String.length s).
Proof.
  revert s. induction n as [| n IH]; intros [| c r]; cbn; trivial.
  now rewrite IH.
Qed.

Lemma rstrip_keeps (p t : string) :
  t <> "" -> Generator.rstrip t = t -> Generator.rstrip (p ++ t) = p ++ t.
Proof.
  intros Hne Ht. induction p as [| c r IH]; [exact Ht |].
  cbn [append Generator.rstrip]. rewrite IH.
  destruct (r ++ t) as [| k ks] eqn:E; [| reflexivity].
  destruct r; [cbn in E; congruence | discriminate E].
Qed.

Lemma split_single_line (s : string) :
  ~ In Generator.newline (list_ascii_of_string s) ->
  Generator.split_lines s = [s].
Proof.
  induction s as [| c r IH]; cbn [list_ascii_of_string Generator.split_lines];
    intros H; [reflexivity |].
  destruct (Ascii.eqb_spec c Generator.newline) as [-> | Hc].
  - exfalso. apply H. now left.
  - rewrite IH; [reflexivity |]. intros Hin. apply H. now right.
Qed.

(** X22: [_fit_to_limit] returns at most 280 characters whenever the line
    with the URL leaves room for it: that line, five characters more and
    the hashtags fit into 280.  A text that fits with its hashtags is
    returned as it is, followed by the hashtags. *)
Theorem fit_to_limit_fits (text : string) (hashtags : list string) :
  (Z.of_nat (String.length (Generator.url_line text)) + 5
   <= 280 - Z.of_nat (String.length (Generator.hashtag_str hashtags)) ->
   (String.length (Generator._fit_to_limit text hashtags) <= 280)%nat)
  /\ (Z.of_nat (String.length text)
      <= 280 - Z.of_nat (String.length (Generator.hashtag_str hashtags)) ->
      Generator._fit_to_limit text hashtags
      = text ++ Generator.hashtag_str hashtags).
Proof.
  unfold Generator._fit_to_limit. cbv zeta.
  set (hs := Generator.hashtag_str hashtags).
  set (url := Generator.url_line text).
  set (other := Generator.join _ _).
  split.
  - intros Hroom. rewrite length_append.
    destruct (Z.ltb_spec (280 - Z.of_nat (String.length hs))
                (Z.of_nat (String.length text))) as [Hlong | Hshort]; [| lia].
    match goal with
    | |- (String.length (Generator.strip ?x) + _ <= _)%nat =>
        pose proof (length_strip x) as Hs; rewrite !length_append in Hs
    end.
    cbn [String.length] in Hs.
    destruct (Z.ltb_spec (280 - Z.of_nat (String.length hs)
                          - Z.of_nat (String.length url) - 2)
                (Z.of_nat (String.length other))) as [Hcut | Hkeep].
    + rewrite length_append in Hs. cbn [String.length] in Hs.
      unfold Generator.str_slice_to in *.
      destruct (Z.ltb_spec (280 - Z.of_nat (String.length hs)
                            - Z.of_nat (String.length url) - 2 - 3) 0); [lia |].
      rewrite length_take in Hs. lia.
    + lia.
  - intros Hshort.
    destruct (Z.ltb_spec (280 - Z.of_nat (String.length hs))
                (Z.of_nat (String.length text))); [lia | reflexivity].
Qed.

Lemma fit_to_limit_fits_witness :
  (String.length
     (Generator._fit_to_limit
        "How much should you tip? https://boring-math.com/calculators/tip-calculator"
        ["#money"; "#tips"]) <= 280)%nat.
Proof.
  apply (proj1 (fit_to_limit_fits
                  "How much should you tip? https://boring-math.com/calculators/tip-calculator"
                  ["#money"; "#tips"])).
  vm_compute. discriminate.
Defined.

(** X23: a text of one line that contains "http", does not end in white
    space and is too long for the limit is not shortened: it comes back
    with "..." and two newlines in front, and is longer than 280
    characters, so that the client refuses to post it. *)
Theorem fit_to_limit_long_url (World : Type)
    (create_tweet : string -> option string -> World -> outcome string * World)
    (text : string) (hashtags : list string) (w : World) :
  ~ In Generator.newline (list_ascii_of_string text) ->
  str_in "http" text = true ->
  Generator.rstrip text = text ->
  280 - Z.of_nat (String.length (Generator.hashtag_str hashtags))
  < Z.of_nat (String.length text) ->
  Generator._fit_to_limit text hashtags
  = "..." ++ String Generator.newline (String Generator.newline "") ++ text
      ++ Generator.hashtag_str hashtags
  /\ (280 < String.length (Generator._fit_to_limit text hashtags))%nat
  /\ exists msg,
       XClient.post_tweet World create_tweet
         (Generator._fit_to_limit text hashtags) None w = (Raised msg, w).
Proof.
  intros Hline Hhttp Hend Hlong.
  assert (Hne : text <> "") by (intros ->; discriminate Hhttp).
  assert (E : Generator._fit_to_limit text hashtags
              = "..." ++ String Generator.newline (String Generator.newline "")
                  ++ text ++ Generator.hashtag_str hashtags).
  { unfold Generator._fit_to_limit, Generator.url_line. cbv zeta.
    rewrite (split_single_line text Hline). cbn [find filter]. rewrite Hhttp.
    cbn [negb Generator.join String.length].
    destruct (Z.ltb_spec (280 - Z.of_nat (String.length (Generator.hashtag_str hashtags)))
                (Z.of_nat (String.length text))); [| lia].
    destruct (Z.ltb_spec (280 - Z.of_nat (String.length (Generator.hashtag_str hashtags))
                          - Z.of_nat (String.length text) - 2) (Z.of_nat 0)); [| lia].
    assert (Hslice : forall k, Generator.str_slice_to k "" = "").
    { intros k. unfold Generator.str_slice_to.
      destruct (k <? 0); [reflexivity | now destruct (Z.to_nat k)]. }
    rewrite Hslice. cbn [append].
    unfold Generator.strip. cbn [Generator.lstrip Generator.is_space].
    change (Generator.rstrip
              (("..." ++ String Generator.newline (String Generator.newline ""))
               ++ text)
            ++ Generator.hashtag_str hashtags
            = ("..." ++ String Generator.newline (String Generator.newline ""))
              ++ text ++ Generator.hashtag_str hashtags).
    rewrite (rstrip_keeps _ text Hne Hend). now rewrite string_app_assoc. }
  split; [exact E |].
  assert (L : (280 < String.length (Generator._fit_to_limit text hashtags))%nat).
  { rewrite E. cbn [append String.length]. rewrite length_append. lia. }
  split; [exact L |].
  unfold XClient.post_tweet.
  destruct (Z.ltb_spec 280
              (Z.of_nat (String.length (Generator._fit_to_limit text hashtags))));
    [eexists; reflexivity | lia].
Qed.

Lemma not_in_chars (c : ascii) (s : string) :
  existsb (Ascii.eqb c) (list_ascii_of_string s) = false ->
  ~ In c (list_ascii_of_string s).
Proof.
  intros H Hin.
  assert (T : existsb (Ascii.eqb c) (list_ascii_of_string s) = true).
  { apply existsb_exists. exists c. split; [exact Hin | apply Ascii.eqb_refl]. }
  congruence.
Qed.

Lemma fit_to_limit_long_url_witness :
  Generator._fit_to_limit Sample.long_url ["#tips"]
  = "..." ++ String Generator.newline (String Generator.newline "")
      ++ Sample.long_url ++ Generator.hashtag_str ["#tips"]
  /\ (280 < String.length (Generator._fit_to_limit Sample.long_url ["#tips"]))%nat
  /\ exists msg,
       XClient.post_tweet unit Sample.network_up
         (Generator._fit_to_limit Sample.long_url ["#tips"]) None tt
       = (Raised msg, tt).
Proof.
  apply (fit_to_limit_long_url unit Sample.network_up Sample.long_url ["#tips"] tt).
  - apply not_in_chars. vm_compute. reflexivity.
  - vm_compute. reflexivity.
  - vm_compute. reflexivity.
  - vm_compute. reflexivity.
Defined.

(** ** The reply command *)

Section ReplyFacts.

Variable World : Type.
Variable create_tweet : string -> option string -> World -> outcome string * World.
Variable generate_tweet : World -> outcome Generator.GeneratedTweet * World.
Variable _save_state : Poster.State -> World -> outcome unit * World.
Variable clock : World -> Poster.Instant.
Variable choose_action :
  bool -> Monitor.StoredOpportunity -> World -> Cli.Action * World.
Variable ask_reply : Monitor.StoredOpportunity -> World -> string * World.
Variable cfg : Poster.Config.

Local Abbreviation reply_loop :=
  (Cli.reply_loop World create_tweet _save_state clock choose_action ask_reply cfg).
Local Abbreviation reachable :=
  (PosterRuns.reachable World create_tweet generate_tweet _save_state cfg false).
Local Abbreviation session :=
  (ReplySpec.session World create_tweet generate_tweet _save_state cfg).

Lemma session_stop (opportunities : list Monitor.StoredOpportunity)
    (mon : Monitor.State) (poster poster1 : Poster.State) (w : World)
    (printed : list (string * Poster.PostResult)) :
  (reachable poster -> reachable poster1) ->
  session opportunities mon poster printed (mon, poster1, w, printed).
Proof.
  intros R. exists []. cbn. rewrite app_nil_r. repeat split; trivial. intros e [].
Qed.

Lemma session_skip (opp : Monitor.StoredOpportunity)
    (rest : list Monitor.StoredOpportunity)
    (mon : Monitor.State) (poster poster1 : Poster.State)
    (printed : list (string * Poster.PostResult))
    (res : Monitor.State * Poster.State * World * list (string * Poster.PostResult)) :
  (reachable poster -> reachable poster1) ->
  session rest mon poster1 printed res ->
  session (opp :: rest) mon poster printed res.
Proof.
  intros R (new & E1 & E2 & E3 & E4). exists new. repeat split; trivial.
  - intros e He. destruct (E3 e He) as (o & Ho & Hid).
    exists o. split; [now right | exact Hid].
  - intros H. apply E4. now apply R.
Qed.

Lemma session_attempt (opp : Monitor.StoredOpportunity)
    (rest : list Monitor.StoredOpportunity)
    (mon : Monitor.State) (poster poster2 : Poster.State)
    (printed : list (string * Poster.PostResult)) (result : Poster.PostResult)
    (res : Monitor.State * Poster.State * World * list (string * Poster.PostResult)) :
  (reachable poster -> reachable poster2) ->
  session rest
    (if Poster.success result
     then Monitor.mark_replied mon (Monitor.o_tweet_id opp) else mon)
    poster2 (printed ++ [(Monitor.o_tweet_id opp, result)]) res ->
  session (opp :: rest) mon poster printed res.
Proof.
  intros R (new & E1 & E2 & E3 & E4).
  exists ((Monitor.o_tweet_id opp, result) :: new).
  split; [rewrite E1; now rewrite <- app_assoc |].
  split.
  - rewrite E2. unfold ReplySpec.replied_ids. cbn [filter snd].
    destruct (Poster.success result); reflexivity.
  - split.
    + intros e [<- | He]; [exists opp; split; [now left | reflexivity] |].
      destruct (E3 e He) as (o & Ho & Hid). exists o. split; [now right | exact Hid].
    + intros H. apply E4. now apply R.
Qed.

Lemma reply_loop_session (auto : bool) (opportunities : list Monitor.StoredOpportunity) :
  forall mon poster w printed,
    session opportunities mon poster printed
      (reply_loop auto opportunities mon poster w printed).
Proof.
  induction opportunities as [| opp rest IH]; intros mon poster w printed.
  - now apply session_stop.
  - cbn [Cli.reply_loop].
    destruct (Poster.get_status cfg poster (clock w)) as [poster1 report] eqn:Es.
    assert (R1 : reachable poster -> reachable poster1).
    { intros R. replace poster1 with (fst (Poster.get_status cfg poster (clock w)))
        by now rewrite Es.
      now apply PosterRuns.run_status. }
    destruct report as [status | msg]; [| now apply session_stop].
    destruct (Poster.s_can_post status); cbn [negb]; [| now apply session_stop].
    destruct (choose_action auto opp w) as [action w1].
    assert (Hattempt : forall reply_text w2,
              session (opp :: rest) mon poster printed
                (match Poster.post_reply World create_tweet _save_state cfg
                         (Monitor.o_tweet_id opp) reply_text false poster1
                         (clock w2) w2 with
                 | (Returned result, poster0, w0) =>
                     if Poster.success result
                     then reply_loop auto rest
                            (Monitor.mark_replied mon (Monitor.o_tweet_id opp))
                            poster0 w0
                            (printed ++ [(Monitor.o_tweet_id opp, result)])
                     else reply_loop auto rest mon poster0 w0
                            (printed ++ [(Monitor.o_tweet_id opp, result)])
                 | (Raised _, poster0, w0) => (mon, poster0, w0, printed)
                 end)).
    { intros reply_text w2.
      destruct (Poster.post_reply World create_tweet _save_state cfg
                  (Monitor.o_tweet_id opp) reply_text false poster1 (clock w2) w2)
        as [[[result | msg] poster2] w3] eqn:Ep.
      - assert (R2 : reachable poster -> reachable poster2).
        { intros R.
          apply (PosterRuns.run_reply World create_tweet generate_tweet _save_state
                   cfg false poster1 (Monitor.o_tweet_id opp) reply_text false
                   (clock w2) w2 (Returned result) poster2 w3 (R1 R));
            [auto | exact Ep]. }
        apply (session_attempt opp rest mon poster poster2 printed result _ R2).
        destruct (Poster.success result); apply IH.
      - apply session_stop. intros R.
        apply (PosterRuns.run_reply World create_tweet generate_tweet _save_state
                 cfg false poster1 (Monitor.o_tweet_id opp) reply_text false
                 (clock w2) w2 (Raised msg) poster2 w3 (R1 R));
          [auto | exact Ep]. }
    destruct action.
    + apply Hattempt.
    + apply (session_skip opp rest mon poster poster1 printed _ R1). apply IH.
    + destruct (ask_reply opp w1) as [edited w2]. apply Hattempt.
    + now apply session_stop.
Qed.

Lemma marked_ids (ids : list string) :
  forall (mon : Monitor.State) (x : string),
    In x (Monitor.replied_tweets (fold_left Monitor.mark_replied ids mon)) ->
    In x (Monitor.replied_tweets mon) \/ In x ids.
Proof.
  induction ids as [| i r IH]; intros mon x Hx; [now left |].
  cbn [fold_left] in Hx. apply IH in Hx. destruct Hx as [Hx | Hx]; [| now right; right].
  unfold Monitor.mark_replied, Monitor._save_state in Hx.
  cbn [Monitor.replied_tweets] in Hx. apply In_lastn in Hx.
  apply in_app_or in Hx. destruct Hx as [Hx | [<- | []]]; [now left | right; now left].
Qed.

Lemma marked_length (ids : list string) :
  forall mon : Monitor.State,
    (List.length (Monitor.replied_tweets (fold_left Monitor.mark_replied ids mon))
     <= List.length (Monitor.replied_tweets mon) + List.length ids)%nat.
Proof.
  induction ids as [| i r IH]; intros mon; [cbn [fold_left List.length]; lia |].
  cbn [fold_left List.length]. specialize (IH (Monitor.mark_replied mon i)).
  assert (H : (List.length (Monitor.replied_tweets (Monitor.mark_replied mon i))
               <= List.length (Monitor.replied_tweets mon) + 1)%nat).
  { unfold Monitor.mark_replied, Monitor._save_state.
    cbn [Monitor.replied_tweets].
    rewrite length_lastn, length_app. cbn [List.length]. lia. }
  lia.
Qed.

(** X24: the reply command marks as replied the ids of the replies that were
    posted, in the order of posting, and nothing else: an id is in the
    replied list afterwards only if it was there before or its reply was
    reported as posted; every reply attempted is for an opportunity that was
    pending when the command began; and the poster goes through unforced
    steps only. *)
Theorem reply_marks_what_was_posted (auto : bool) (mon : Monitor.State)
    (poster : Poster.State) (w : World) :
  fst (fst (fst (Cli.reply World create_tweet _save_state clock choose_action
                   ask_reply cfg auto mon poster w)))
  = fold_left Monitor.mark_replied
      (ReplySpec.replied_ids
         (snd (Cli.reply World create_tweet _save_state clock choose_action
                 ask_reply cfg auto mon poster w)))
      mon
  /\ (forall x,
        In x (Monitor.replied_tweets
                (fst (fst (fst (Cli.reply World create_tweet _save_state clock
                                  choose_action ask_reply cfg auto mon poster w))))) ->
        In x (Monitor.replied_tweets mon)
        \/ exists r, In (x, r)
                       (snd (Cli.reply World create_tweet _save_state clock
                               choose_action ask_reply cfg auto mon poster w))
                     /\ Poster.success r = true)
  /\ (forall e,
        In e (snd (Cli.reply World create_tweet _save_state clock choose_action
                     ask_reply cfg auto mon poster w)) ->
        exists o, In o (Monitor.get_pending_opportunities mon)
                  /\ Monitor.o_tweet_id o = fst e)
  /\ (reachable poster ->
      reachable (snd (fst (fst (Cli.reply World create_tweet _save_state clock
                                  choose_action ask_reply cfg auto mon poster w))))).
Proof.
  unfold Cli.reply.
  destruct (reply_loop_session auto (Monitor.get_pending_opportunities mon)
              mon poster w []) as (new & E1 & E2 & E3 & E4).
  cbn [app] in E1. rewrite E1, E2.
  split; [reflexivity |]. split; [| split; [exact E3 | exact E4]].
  intros x Hx. apply marked_ids in Hx. destruct Hx as [Hx | Hx]; [now left |].
  right. unfold ReplySpec.replied_ids in Hx. apply in_map_iff in Hx.
  destruct Hx as ([i r] & Hi & Hf). cbn [fst] in Hi. subst i.
  apply filter_In in Hf. destruct Hf as (Hin & Hs). now exists r.
Qed.

Section ShortSession.

(** The code finds any two readings of the clock less than
    [min_hours_between] hours apart. *)
Hypothesis short :
  forall w1 w2 : World,
    (Poster.hours_since (clock w2) (clock w1)
     <? Poster.min_hours_between cfg)%float = true.

Lemma nothing_after_a_post (auto : bool) (opportunities : list Monitor.StoredOpportunity)
    (mon : Monitor.State) (poster : Poster.State) (w w0 : World)
    (printed : list (string * Poster.PostResult)) :
  Poster.last_post_time poster = Some (clock w0) ->
  snd (reply_loop auto opportunities mon poster w printed) = printed.
Proof.
  intros Hl. destruct opportunities as [| opp rest]; [reflexivity |].
  cbn [Cli.reply_loop]. rewrite get_status_eq.
  pose proof (too_soon_blocks cfg poster (clock w) (clock w0) Hl (short w0 w)) as Hb.
  destruct (snd (Poster.can_post cfg poster (clock w))) as [[[|] reason] | msg];
    [now destruct (Hb reason) | reflexivity | reflexivity].
Qed.

Lemma at_most_one_more (auto : bool) (opportunities : list Monitor.StoredOpportunity) :
  forall mon poster w printed,
    (List.length (ReplySpec.replied_ids
                    (snd (reply_loop auto opportunities mon poster w printed)))
     <= List.length (ReplySpec.replied_ids printed) + 1)%nat.
Proof.
  induction opportunities as [| opp rest IH]; intros mon poster w printed;
    [cbn [Cli.reply_loop snd]; apply Nat.le_add_r |].
  cbn [Cli.reply_loop].
  destruct (Poster.get_status cfg poster (clock w)) as [poster1 [status | msg]];
    [| cbn [snd]; apply Nat.le_add_r].
  destruct (Poster.s_can_post status); cbn [negb snd]; [| apply Nat.le_add_r].
  destruct (choose_action auto opp w) as [action w1].
  assert (Hattempt : forall reply_text w2,
            (List.length
               (ReplySpec.replied_ids
                  (snd (match Poster.post_reply World create_tweet _save_state cfg
                                (Monitor.o_tweet_id opp) reply_text false poster1
                                (clock w2) w2 with
                        | (Returned result, poster0, w3) =>
                            if Poster.success result
                            then reply_loop auto rest
                                   (Monitor.mark_replied mon (Monitor.o_tweet_id opp))
                                   poster0 w3
                                   (printed ++ [(Monitor.o_tweet_id opp, result)])
                            else reply_loop auto rest mon poster0 w3
                                   (printed ++ [(Monitor.o_tweet_id opp, result)])
                        | (Raised _, poster0, w3) => (mon, poster0, w3, printed)
                        end)))
             <= List.length (ReplySpec.replied_ids printed) + 1)%nat).
  { intros reply_text w2.
    destruct (Poster.post_reply World create_tweet _save_state cfg
                (Monitor.o_tweet_id opp) reply_text false poster1 (clock w2) w2)
      as [[[result | msg] poster2] w3] eqn:Ep; [| cbn [snd]; apply Nat.le_add_r].
    destruct result as [new_id posted reply_to | error]; cbn [Poster.success].
    - assert (Hl : Poster.last_post_time poster2 = Some (clock w2)).
      { apply (success_sets_last_post World create_tweet generate_tweet _save_state
                 cfg None None
                 (Monitor.o_tweet_id opp) reply_text false poster1 (clock w2) w2
                 poster2 w3 new_id posted reply_to).
        right. exact Ep. }
      rewrite (nothing_after_a_post auto rest _ poster2 w3 w2 _ Hl).
      unfold ReplySpec.replied_ids. rewrite filter_app, map_app, length_app.
      cbn. lia.
    - pose proof (IH mon poster2 w3
                    (printed ++ [(Monitor.o_tweet_id opp, Poster.Failure error)])%list)
        as B.
      unfold ReplySpec.replied_ids in *. rewrite filter_app, map_app, length_app in B.
      cbn in B. lia. }
  destruct action; cbn [snd].
  - apply Hattempt.
  - apply IH.
  - destruct (ask_reply opp w1) as [edited w2]. apply Hattempt.
  - apply Nat.le_add_r.
Qed.

(** X25: a reply session that lasts less than [min_hours_between] hours
    posts at most one reply: after the first reply that goes out, the next
    status check answers "too soon" and ends the loop, however many
    opportunities are still pending. *)
Theorem reply_session_posts_once (auto : bool) (mon : Monitor.State)
    (poster : Poster.State) (w : World) :
  (List.length
     (ReplySpec.replied_ids
        (snd (Cli.reply World create_tweet _save_state clock choose_action
                ask_reply cfg auto mon poster w))) <= 1)%nat
  /\ (List.length
        (Monitor.replied_tweets
           (fst (fst (fst (Cli.reply World create_tweet _save_state clock
                             choose_action ask_reply cfg auto mon poster w)))))
      <= List.length (Monitor.replied_tweets mon) + 1)%nat.
Proof.
  pose proof (at_most_one_more auto (Monitor.get_pending_opportunities mon)
                mon poster w []) as B.
  cbn [ReplySpec.replied_ids filter map List.length] in B.
  split; [exact B |].
  unfold Cli.reply in *.
  destruct (reply_loop_session auto (Monitor.get_pending_opportunities mon)
              mon poster w []) as (new & E1 & E2 & _ & _).
  cbn [app] in E1. rewrite E1 in B. rewrite E2.
  pose proof (marked_length (ReplySpec.replied_ids new) mon) as L. lia.
Qed.

End ShortSession.

End ReplyFacts.

Lemma reply_session_posts_once_witness :
  (forall w1 w2 : unit,
     (Poster.hours_since (Sample.frozen_clock w2) (Sample.frozen_clock w1)
      <? Poster.min_hours_between Sample.poster_cfg)%float = true)
  /\ List.length (Monitor.get_pending_opportunities Sample.two_stored) = 2%nat
  /\ (List.length
        (ReplySpec.replied_ids
           (snd (Cli.reply unit Sample.network_up Sample.disk_ok Sample.frozen_clock
                   Sample.always_yes Sample.keep_suggestion Sample.poster_cfg
                   false Sample.two_stored Poster.initial_state tt))) <= 1)%nat
  /\ (List.length
        (Monitor.replied_tweets
           (fst (fst (fst (Cli.reply unit Sample.network_up Sample.disk_ok
                             Sample.frozen_clock
                             Sample.always_yes Sample.keep_suggestion
                             Sample.poster_cfg false Sample.two_stored
                             Poster.initial_state tt)))))
      <= List.length (Monitor.replied_tweets Sample.two_stored) + 1)%nat.
Proof.
  assert (S : forall w1 w2 : unit,
             (Poster.hours_since (Sample.frozen_clock w2) (Sample.frozen_clock w1)
              <? Poster.min_hours_between Sample.poster_cfg)%float = true)
    by (intros w1 w2; vm_compute; reflexivity).
  split; [exact S |]. split; [vm_compute; reflexivity |].
  exact (reply_session_posts_once unit Sample.network_up Sample.empty_generator
           Sample.disk_ok Sample.frozen_clock
           Sample.always_yes Sample.keep_suggestion Sample.poster_cfg S
           false Sample.two_stored Poster.initial_state tt).
Defined.
